(** * Vocal-removal serverless handler: a shallow embedding of [handler.py]

    The development follows the layout of the source file:
    - [Base64]    : [base64.b64encode] and [base64.b64decode], the latter in
                    its default mode, which skips what is not in the alphabet;
    - [Py]        : the values a job carries, with [str()] and [repr()];
    - [PosixPath] : [os.path.join], [basename], [dirname], [splitext];
    - [FS]        : a POSIX-like file system;
    - [Datetime]  : timestamps and their two renderings;
    - [Handler]   : [ServerlessVocalRemover] and [handler], in a state and
                    error monad over the files, the clock and a trace of the
                    calls that leave the process.

    What lies outside the source file is a parameter of the model
    ([Handler.env]): the device chosen at start-up, the clock, the
    separation tool and [glob.glob].  The remaining conventions:
    - a [str] is a sequence of code points below 256, and a job carries no
      floats;
    - the file system has no links and no permissions, a name holds at most
      255 bytes and a path fewer than 4096 (a [str] is passed on in UTF-8),
      and the working directory is the root;
    - the [python] executable exists, the operating system accepts the
      command line, the captured output of the tool is text, and writing to
      the log has no effect on the outcome;
    - [except Exception] catches every exception of the model. *)

From stdpp Require Import gmap strings list.
From Stdlib Require Import ZArith NArith Ascii String List Lia Bool.
From Stdlib.Strings Require Import Byte.
From Stdlib Require Import DecimalString.
Import ListNotations.

#[local] Open Scope string_scope.
#[local] Open Scope list_scope.

(** ** Exceptions and results *)

Inductive exn_class :=
  | AttributeError | TypeError | ValueError | BinasciiError
  | FileNotFoundError | IsADirectoryError | NotADirectoryError
  | FileExistsError | OSError | RuntimeError | TimeoutExpired.

(** An exception value: its class and what [str(e)] gives. *)
Record exn := Exn { exn_cls : exn_class; exn_str : string }.

Inductive result (A : Type) :=
  | Ok (a : A)
  | Raise (e : exn).
Arguments Ok {A} a.
Arguments Raise {A} e.

Definition is_ok {A} (r : result A) : bool :=
  match r with Ok _ => true | Raise _ => false end.

(** ** Base64, as [base64.b64encode] and [base64.b64decode(s)] compute it *)

Module Base64.

Definition table_b2a_base64 : list ascii :=
  list_ascii_of_string
    "ABCDEFGHIJKLMNOPQRSTUVWXYZabcdefghijklmnopqrstuvwxyz0123456789+/".

Definition BASE64_PAD : ascii := "="%char.

Definition b2a (n : N) : ascii :=
  nth (N.to_nat n) table_b2a_base64 BASE64_PAD.

(** [table_a2b_base64]: the sextet of an alphabet character, [None] where
    the C table holds a value above 63. *)
Definition a2b (c : ascii) : option N :=
  let n := N_of_ascii c in
  if (65 <=? n)%N && (n <=? 90)%N then Some (n - 65)%N
  else if (97 <=? n)%N && (n <=? 122)%N then Some (n - 71)%N
  else if (48 <=? n)%N && (n <=? 57)%N then Some (n + 4)%N
  else if (n =? 43)%N then Some 62%N
  else if (n =? 47)%N then Some 63%N
  else None.

(** Storing into an [unsigned char]. *)
Definition to_byte (n : N) : byte :=
  match Byte.of_N (n mod 256) with
  | Some b => b
  | None => x00
  end.

(** [binascii.b2a_base64(data, newline=False)]: three bytes give four
    characters; one or two trailing bytes are padded with [=]. *)
Fixpoint b2a_base64 (bs : list byte) : list ascii :=
  match bs with
  | [] => []
  | [a] =>
      let a := Byte.to_N a in
      [b2a (N.shiftr a 2); b2a (N.shiftl (N.land a 3) 4);
       BASE64_PAD; BASE64_PAD]
  | [a; b] =>
      let a := Byte.to_N a in
      let b := Byte.to_N b in
      [b2a (N.shiftr a 2);
       b2a (N.lor (N.shiftl (N.land a 3) 4) (N.shiftr b 4));
       b2a (N.shiftl (N.land b 15) 2);
       BASE64_PAD]
  | a :: b :: c :: rest =>
      let a := Byte.to_N a in
      let b := Byte.to_N b in
      let c := Byte.to_N c in
      b2a (N.shiftr a 2)
      :: b2a (N.lor (N.shiftl (N.land a 3) 4) (N.shiftr b 4))
      :: b2a (N.lor (N.shiftl (N.land b 15) 2) (N.shiftr c 6))
      :: b2a (N.land c 63)
      :: b2a_base64 rest
  end.

(** [base64.b64encode(data).decode('utf-8')] *)
Definition b64encode (bs : list byte) : string :=
  string_of_list_ascii (b2a_base64 bs).

Definition show_nat (n : nat) : string :=
  NilZero.string_of_uint (Nat.to_uint n).

(** The loop of [binascii.a2b_base64] (CPython 3.11) with [strict_mode]
    false: characters outside the alphabet are skipped, a pad that
    completes a group ends the decoding, and a group left incomplete at the
    end of the text is an error.  [out] is the output buffer so far, most
    recent byte first. *)
Fixpoint a2b_loop (s : list ascii) (quad_pos : nat) (leftchar : N)
    (pads : nat) (out : list byte) : result (list byte) :=
  match s with
  | [] =>
      match quad_pos with
      | 0 => Ok (rev out)
      | 1 =>
          Raise (Exn BinasciiError
            ("Invalid base64-encoded string: number of data characters ("
             ++ show_nat (List.length out / 3 * 4 + 1)
             ++ ") cannot be 1 more than a multiple of 4"))
      | _ => Raise (Exn BinasciiError "Incorrect padding")
      end
  | this_ch :: s' =>
      if Ascii.eqb this_ch BASE64_PAD then
        if (2 <=? quad_pos)%nat then
          if (4 <=? quad_pos + S pads)%nat then Ok (rev out)
          else a2b_loop s' quad_pos leftchar (S pads) out
        else a2b_loop s' quad_pos leftchar pads out
      else
        match a2b this_ch with
        | None => a2b_loop s' quad_pos leftchar pads out
        | Some v =>
            match quad_pos with
            | 0 => a2b_loop s' 1 v 0 out
            | 1 =>
                a2b_loop s' 2 (N.land v 15) 0
                  (to_byte (N.lor (N.shiftl leftchar 2) (N.shiftr v 4)) :: out)
            | 2 =>
                a2b_loop s' 3 (N.land v 3) 0
                  (to_byte (N.lor (N.shiftl leftchar 4) (N.shiftr v 2)) :: out)
            | _ =>
                a2b_loop s' 0 0 0
                  (to_byte (N.lor (N.shiftl leftchar 6) v) :: out)
            end
        end
  end.

Definition a2b_base64 (s : list ascii) : result (list byte) :=
  a2b_loop s 0 0 0 [].

(** Canonical Base64 text (RFC 4648): groups of four alphabet characters,
    where the last group may end in one or two [=] and then carries zeros
    in the bits that encode no byte. *)
Definition is_alphabet (c : ascii) : bool :=
  match a2b c with Some _ => true | None => false end.

Definition sextet (c : ascii) : N :=
  match a2b c with Some v => v | None => 0%N end.

Fixpoint canonical_groups (s : list ascii) : bool :=
  match s with
  | [] => true
  | c1 :: c2 :: c3 :: c4 :: rest =>
      is_alphabet c1 && is_alphabet c2
      && if Ascii.eqb c4 BASE64_PAD then
           match rest with
           | [] =>
               if Ascii.eqb c3 BASE64_PAD
               then (N.land (sextet c2) 15 =? 0)%N
               else is_alphabet c3 && (N.land (sextet c3) 3 =? 0)%N
           | _ => false
           end
         else is_alphabet c3 && is_alphabet c4 && canonical_groups rest
  | _ => false
  end.

Definition is_canonical (s : string) : bool :=
  canonical_groups (list_ascii_of_string s).

(** The bytes a canonical text stands for, group by group. *)
Fixpoint bytes_of_groups (s : list ascii) : list byte :=
  match s with
  | c1 :: c2 :: c3 :: c4 :: rest =>
      let b1 := to_byte (N.lor (N.shiftl (sextet c1) 2)
                               (N.shiftr (sextet c2) 4)) in
      let b2 := to_byte (N.lor (N.shiftl (N.land (sextet c2) 15) 4)
                               (N.shiftr (sextet c3) 2)) in
      let b3 := to_byte (N.lor (N.shiftl (N.land (sextet c3) 3) 6)
                               (sextet c4)) in
      if Ascii.eqb c4 BASE64_PAD then
        if Ascii.eqb c3 BASE64_PAD then [b1] else [b1; b2]
      else b1 :: b2 :: b3 :: bytes_of_groups rest
  | _ => []
  end.

(** [s.encode('ascii')] inside [base64._bytes_from_decode_data] *)
Definition is_ascii (s : string) : bool :=
  forallb (fun c => (N_of_ascii c <? 128)%N) (list_ascii_of_string s).

(** [base64.b64decode(s)] for a [str] argument, [validate=False]. *)
Definition b64decode (s : string) : result (list byte) :=
  if is_ascii s then a2b_base64 (list_ascii_of_string s)
  else Raise (Exn ValueError
                "string argument should contain only ASCII characters").

End Base64.

(** ** Python values carried by a job, and their [str()] / [repr()] *)

Module Py.

(** The values a decoded JSON document is made of, floats left out. *)
#[warnings="-register-all"]
Inductive pyval :=
  | PNone
  | PBool (b : bool)
  | PInt (z : Z)
  | PStr (s : string)
  | PList (l : list pyval)
  | PDict (d : list (string * pyval)).

Definition dict := list (string * pyval).

(** [d.get(key)] *)
Fixpoint dict_get (d : dict) (key : string) : option pyval :=
  match d with
  | [] => None
  | (k, v) :: d' => if String.eqb k key then Some v else dict_get d' key
  end.

(** [d.get(key, default)] *)
Definition dict_get_default (d : dict) (key : string) (default : pyval) : pyval :=
  match dict_get d key with
  | Some v => v
  | None => default
  end.

Definition has_key (d : dict) (key : string) : bool :=
  match dict_get d key with Some _ => true | None => false end.

Definition keys (d : dict) : list string := map fst d.

(** [type(v).__name__] *)
Definition type_name (v : pyval) : string :=
  match v with
  | PNone => "NoneType"
  | PBool _ => "bool"
  | PInt _ => "int"
  | PStr _ => "str"
  | PList _ => "list"
  | PDict _ => "dict"
  end.

(** [bool(v)] *)
Definition truthy (v : pyval) : bool :=
  match v with
  | PNone => false
  | PBool b => b
  | PInt z => negb (z =? 0)%Z
  | PStr s => negb (String.eqb s "")
  | PList l => match l with [] => false | _ => true end
  | PDict d => match d with [] => false | _ => true end
  end.

Definition show_Z (z : Z) : string := NilZero.string_of_int (Z.to_int z).

Definition dquote : ascii := ascii_of_nat 34.
Definition squote : ascii := "'"%char.
Definition backslash : ascii := "\"%char.

Definition hex_digit (n : N) : ascii :=
  nth (N.to_nat n) (list_ascii_of_string "0123456789abcdef") "0"%char.

Definition has_char (c : ascii) (s : list ascii) : bool :=
  existsb (Ascii.eqb c) s.

(** [repr] of one character of a [str] whose code point is below 256. *)
Definition repr_char (quote c : ascii) : list ascii :=
  let n := N_of_ascii c in
  if Ascii.eqb c quote || Ascii.eqb c backslash then [backslash; c]
  else if (n =? 9)%N then [backslash; "t"%char]
  else if (n =? 10)%N then [backslash; "n"%char]
  else if (n =? 13)%N then [backslash; "r"%char]
  else if (n <? 32)%N || (n =? 127)%N
          || ((128 <=? n)%N && (n <=? 160)%N) || (n =? 173)%N
       then [backslash; "x"%char; hex_digit (n / 16); hex_digit (n mod 16)]
  else [c].

(** [repr(s)] for a [str]: single quotes unless the text has a single quote
    and no double quote. *)
Definition repr_str (s : string) : string :=
  let cs := list_ascii_of_string s in
  let quote := if has_char squote cs && negb (has_char dquote cs)
               then dquote else squote in
  string_of_list_ascii
    (quote :: flat_map (repr_char quote) cs ++ [quote]).

(** [', '.join(parts)] *)
Definition join_comma (parts : list string) : string :=
  String.concat ", " parts.

Fixpoint repr (v : pyval) : string :=
  match v with
  | PNone => "None"
  | PBool true => "True"
  | PBool false => "False"
  | PInt z => show_Z z
  | PStr s => repr_str s
  | PList l => "[" +:+ join_comma (map repr l) +:+ "]"
  | PDict d =>
      "{" +:+ join_comma
                (map (fun kv => repr_str (fst kv) +:+ ": " +:+ repr (snd kv)) d)
          +:+ "}"
  end.

(** [str(v)], which an f-string applies to the value it formats. *)
Definition str (v : pyval) : string :=
  match v with
  | PStr s => s
  | _ => repr v
  end.

(** [str(list_of_str)], as [%s] formats the command of a [TimeoutExpired]. *)
Definition repr_str_list (l : list string) : string :=
  "[" +:+ join_comma (map repr_str l) +:+ "]".

(** [s1 in s2] for strings *)
Fixpoint contains_at (needle hay : list ascii) : bool :=
  match needle, hay with
  | [], _ => true
  | _ :: _, [] => false
  | a :: n', b :: h' => Ascii.eqb a b && contains_at n' h'
  end.

Fixpoint contains_list (needle hay : list ascii) : bool :=
  contains_at needle hay
  || match hay with
     | [] => false
     | _ :: h' => contains_list needle h'
     end.

Definition contains (needle hay : string) : bool :=
  contains_list (list_ascii_of_string needle) (list_ascii_of_string hay).

End Py.

(** ** [posixpath]: the functions of [os.path] the handler calls *)

Module PosixPath.

Definition sep : ascii := "/"%char.
Definition extsep : ascii := "."%char.

Definition is_sep (c : ascii) : bool := Ascii.eqb c sep.

(** [s.rfind(c)]: the index of the last [c] in [s], -1 when there is none. *)
Fixpoint rfind_from (c : ascii) (s : list ascii) (i last : Z) : Z :=
  match s with
  | [] => last
  | x :: s' => rfind_from c s' (i + 1)%Z (if Ascii.eqb x c then i else last)
  end.

Definition rfind (c : ascii) (s : string) : Z :=
  rfind_from c (list_ascii_of_string s) 0%Z (-1)%Z.

(** [s[:i]], [s[i:]] and [s[i:j]] for indices that are not negative. *)
Definition upto (i : Z) (s : string) : string :=
  string_of_list_ascii (firstn (Z.to_nat i) (list_ascii_of_string s)).

Definition from (i : Z) (s : string) : string :=
  string_of_list_ascii (skipn (Z.to_nat i) (list_ascii_of_string s)).

Definition slice (i j : Z) (s : string) : list ascii :=
  skipn (Z.to_nat i) (firstn (Z.to_nat j) (list_ascii_of_string s)).

Definition startswith_sep (s : string) : bool :=
  match s with
  | String c _ => is_sep c
  | EmptyString => false
  end.

Definition endswith_sep (s : string) : bool :=
  match rev (list_ascii_of_string s) with
  | c :: _ => is_sep c
  | [] => false
  end.

Fixpoint lstrip_sep (s : list ascii) : list ascii :=
  match s with
  | c :: s' => if is_sep c then lstrip_sep s' else s
  | [] => []
  end.

(** [s.rstrip('/')] *)
Definition rstrip_sep (s : string) : string :=
  string_of_list_ascii (rev (lstrip_sep (rev (list_ascii_of_string s)))).

(** One round of the loop of [posixpath.join]. *)
Definition join_step (path b : string) : string :=
  if startswith_sep b then b
  else if String.eqb path "" || endswith_sep path then path +:+ b
  else path +:+ "/" +:+ b.

(** [os.path.join(a, *p)] *)
Definition join (a : string) (p : list string) : string :=
  fold_left join_step p a.

(** [os.path.basename(p)] *)
Definition basename (p : string) : string :=
  from (rfind sep p + 1) p.

(** [os.path.dirname(p)] *)
Definition dirname (p : string) : string :=
  let head := upto (rfind sep p + 1) p in
  if negb (String.eqb head "")
     && negb (forallb is_sep (list_ascii_of_string head))
  then rstrip_sep head
  else head.

(** [os.path.splitext(p)]: the extension starts at the last dot of the last
    component, unless only dots come before it in that component. *)
Definition splitext (p : string) : string * string :=
  let sepIndex := rfind sep p in
  let dotIndex := rfind extsep p in
  if (sepIndex <? dotIndex)%Z
     && existsb (fun c => negb (Ascii.eqb c extsep))
                (slice (sepIndex + 1) dotIndex p)
  then (upto dotIndex p, from dotIndex p)
  else (p, "").

End PosixPath.

(** ** The file system *)

Module FS.

Inductive node :=
  | File (content : list byte)
  | Dir.

(** A location is the list of names from the root; the root is [[]]. *)
Abbreviation loc := (list string).
Abbreviation fs := (gmap (list string) node).

Inductive errno :=
  | ENOENT | ENOTDIR | EISDIR | EEXIST | ENAMETOOLONG | ENUL.

(** The limits of [<limits.h>]: the bytes of one name, and of a path with
    its closing NUL. *)
Definition NAME_MAX : nat := 255.
Definition PATH_MAX : nat := 4096.

(** [len(os.fsencode(s))]: a code point from 128 on takes two bytes. *)
Definition fsencode_length (s : string) : nat :=
  list_sum (map (fun c => if (N_of_ascii c <? 128)%N then 1 else 2)
                (list_ascii_of_string s)).

(** The root directory always exists. *)
Definition get (m : fs) (p : loc) : option node :=
  match p with
  | [] => Some Dir
  | _ => m !! p
  end.

Fixpoint split_sep (s cur : list ascii) : list string :=
  match s with
  | [] => [string_of_list_ascii (rev cur)]
  | c :: s' =>
      if PosixPath.is_sep c
      then string_of_list_ascii (rev cur) :: split_sep s' []
      else split_sep s' (c :: cur)
  end.

Definition components (p : string) : list string :=
  split_sep (list_ascii_of_string p) [].

Definition is_dot (c : string) : bool := String.eqb c "" || String.eqb c ".".
Definition is_dotdot (c : string) : bool := String.eqb c "..".

(** Path resolution without links: every name but the last must be an
    existing directory, and no name is longer than [NAME_MAX]; the location
    of the last name is returned whether or not something is there. *)
Fixpoint walk (m : fs) (cur : loc) (comps : list string) : errno + loc :=
  match comps with
  | [] => inr cur
  | c :: rest =>
      match get m cur with
      | Some Dir =>
          if is_dot c then walk m cur rest
          else if is_dotdot c then walk m (removelast cur) rest
          else if (NAME_MAX <? fsencode_length c)%nat then inl ENAMETOOLONG
          else walk m (cur ++ [c]) rest
      | Some (File _) => inl ENOTDIR
      | None => inl ENOENT
      end
  end.

Definition has_nul (p : string) : bool :=
  existsb (fun c => (N_of_ascii c =? 0)%N) (list_ascii_of_string p).

(** The working directory is the root, so a relative path is resolved from
    there like an absolute one. *)
Definition resolve (m : fs) (p : string) : errno + loc :=
  if has_nul p then inl ENUL
  else if String.eqb p "" then inl ENOENT
  else if (PATH_MAX <=? fsencode_length p)%nat then inl ENAMETOOLONG
  else walk m [] (components p).

(** The exception Python raises for a failed call on path [p]. *)
Definition oserror (e : errno) (p : string) : exn :=
  match e with
  | ENOENT =>
      Exn FileNotFoundError
          ("[Errno 2] No such file or directory: " +:+ Py.repr_str p)
  | ENOTDIR =>
      Exn NotADirectoryError ("[Errno 20] Not a directory: " +:+ Py.repr_str p)
  | EISDIR =>
      Exn IsADirectoryError ("[Errno 21] Is a directory: " +:+ Py.repr_str p)
  | EEXIST =>
      Exn FileExistsError ("[Errno 17] File exists: " +:+ Py.repr_str p)
  | ENAMETOOLONG =>
      Exn OSError ("[Errno 36] File name too long: " +:+ Py.repr_str p)
  | ENUL => Exn ValueError "embedded null byte"
  end.

(** The names of [comps] above its last one, when that one is a name with
    separators after it, as in [a/b/]. *)
Fixpoint above_slashed_name (comps : list string) : option (list string) :=
  match comps with
  | [] => None
  | c :: rest =>
      if forallb (String.eqb "") rest
      then match rest with
           | [] => None
           | _ :: _ => if is_dot c || is_dotdot c then None else Some []
           end
      else option_map (cons c) (above_slashed_name rest)
  end.

(** What [open] with [O_CREAT] reports where the resolution of [p] failed
    with [e]: for a name with separators after it the answer is [EISDIR]
    as soon as the directories above it are there, before the name itself
    is looked up. *)
Definition open_creat_errno (m : fs) (p : string) (e : errno) : errno :=
  if has_nul p || (PATH_MAX <=? fsencode_length p)%nat then e
  else
    match above_slashed_name (components p) with
    | Some above =>
        match walk m [] (above ++ ["."]) with
        | inl e' => e'
        | inr _ => EISDIR
        end
    | None => e
    end.

(** [open(p, 'wb')] followed by [f.write(data)] *)
Definition write_file (m : fs) (p : string) (data : list byte) : result fs :=
  match resolve m p with
  | inl e => Raise (oserror (open_creat_errno m p e) p)
  | inr q =>
      match get m q with
      | Some Dir => Raise (oserror EISDIR p)
      | _ => Ok (<[q := File data]> m)
      end
  end.

(** [open(p, 'rb')] followed by [f.read()] *)
Definition read_file (m : fs) (p : string) : result (list byte) :=
  match resolve m p with
  | inl e => Raise (oserror e p)
  | inr q =>
      match get m q with
      | Some (File data) => Ok data
      | Some Dir => Raise (oserror EISDIR p)
      | None => Raise (oserror ENOENT p)
      end
  end.

(** Creating a directory and the missing ones above it. *)
Fixpoint mkdir_p (m : fs) (cur : loc) (comps : list string) : errno + fs :=
  match comps with
  | [] => inr m
  | c :: rest =>
      if is_dot c then mkdir_p m cur rest
      else if is_dotdot c then mkdir_p m (removelast cur) rest
      else if (NAME_MAX <? fsencode_length c)%nat then inl ENAMETOOLONG
      else
        let q := cur ++ [c] in
        match get m q with
        | Some Dir => mkdir_p m q rest
        | Some (File _) =>
            inl (match rest with [] => EEXIST | _ => ENOTDIR end)
        | None => mkdir_p (<[q := Dir]> m) q rest
        end
  end.

(** [os.makedirs(p, exist_ok=True)] *)
Definition makedirs (m : fs) (p : string) : result fs :=
  if has_nul p then Raise (oserror ENUL p)
  else if String.eqb p "" then Raise (oserror ENOENT p)
  else if (PATH_MAX <=? fsencode_length p)%nat
  then Raise (oserror ENAMETOOLONG p)
  else
    match mkdir_p m [] (components p) with
    | inl e => Raise (oserror e p)
    | inr m' => Ok m'
    end.

(** [os.path.exists(p)], [os.path.isfile(p)], [os.path.isdir(p)] *)
Definition stat (m : fs) (p : string) : option node :=
  match resolve m p with
  | inl _ => None
  | inr q => get m q
  end.

Definition exists_ (m : fs) (p : string) : bool :=
  match stat m p with Some _ => true | None => false end.

Definition isfile (m : fs) (p : string) : bool :=
  match stat m p with Some (File _) => true | _ => false end.

Definition isdir (m : fs) (p : string) : bool :=
  match stat m p with Some Dir => true | _ => false end.

(** [os.remove(p)] *)
Definition remove (m : fs) (p : string) : result fs :=
  match resolve m p with
  | inl e => Raise (oserror e p)
  | inr q =>
      match get m q with
      | Some (File _) => Ok (delete q m)
      | Some Dir => Raise (oserror EISDIR p)
      | None => Raise (oserror ENOENT p)
      end
  end.

(** Is [q] the location [d] or a location below it? *)
Fixpoint below (d q : loc) : bool :=
  match d, q with
  | [], _ => true
  | _ :: _, [] => false
  | a :: d', b :: q' => String.eqb a b && below d' q'
  end.

(** [shutil.rmtree(p)] *)
Definition rmtree (m : fs) (p : string) : result fs :=
  match resolve m p with
  | inl e => Raise (oserror e p)
  | inr q =>
      match get m q with
      | Some Dir => Ok (base.filter (fun kv => below q (fst kv) = false) m)
      | Some (File _) => Raise (oserror ENOTDIR p)
      | None => Raise (oserror ENOENT p)
      end
  end.

(** What exists in [m'] and did not exist in [m]. *)
Definition created (m m' : fs) : list loc :=
  filter (fun q => bool_decide (m !! q = None)) (map fst (map_to_list m')).

End FS.

(** ** [datetime] *)

Module Datetime.

(** A naive [datetime]: its calendar fields, and its position on the time
    line in microseconds, from which differences are taken. *)
Record datetime := {
  year : nat;
  month : nat;
  day : nat;
  hour : nat;
  minute : nat;
  second : nat;
  microsecond : nat;
  epoch_us : Z
}.

(** A number in decimal, padded with zeros on the left to [width] digits. *)
Definition pad (width n : nat) : string :=
  let s := NilZero.string_of_uint (Nat.to_uint n) in
  string_of_list_ascii (repeat "0"%char (width - String.length s)) +:+ s.

(** [d.strftime('%Y%m%d_%H%M%S')] *)
Definition strftime (d : datetime) : string :=
  pad 4 (year d) +:+ pad 2 (month d) +:+ pad 2 (day d) +:+ "_"
  +:+ pad 2 (hour d) +:+ pad 2 (minute d) +:+ pad 2 (second d).

(** [d.isoformat()] *)
Definition isoformat (d : datetime) : string :=
  pad 4 (year d) +:+ "-" +:+ pad 2 (month d) +:+ "-" +:+ pad 2 (day d)
  +:+ "T" +:+ pad 2 (hour d) +:+ ":" +:+ pad 2 (minute d)
  +:+ ":" +:+ pad 2 (second d)
  +:+ (if Nat.eqb (microsecond d) 0 then ""
       else "." +:+ pad 6 (microsecond d)).

(** [(a - b).total_seconds()], in microseconds. *)
Definition total_seconds (a b : datetime) : Z := epoch_us a - epoch_us b.

End Datetime.

(** ** The handler *)

Module Handler.

Import Py.
Import Datetime.

(** What one run of the separation tool did: how long it ran, its exit
    status and captured output, and the file system it left behind. *)
Record tool_run := {
  duration_us : Z;
  returncode : Z;
  stdout : string;
  stderr : string;
  fs_after : FS.fs
}.

(** The surroundings of the worker: the device chosen at start-up, the
    clock (the n-th reading of [datetime.now()]), the separation tool and
    [glob.glob]. *)
Record env := {
  device : string;
  now : nat -> datetime;
  tool : list string -> FS.fs -> tool_run;
  glob : FS.fs -> string -> bool -> list string
}.

(** The calls that leave the process, in the order they are made. *)
Inductive event :=
  | EvWrite (p : string)
  | EvRead (p : string)
  | EvMakedirs (p : string)
  | EvRun (command : list string) (timeout : Z)
  | EvGlob (pattern : string) (recursive : bool)
  | EvRemove (p : string)
  | EvRmtree (p : string).

Record state := {
  files : FS.fs;
  clock_reads : nat;
  trace : list event
}.

Definition M (A : Type) : Type := state -> result A * state.

Definition ret {A} (a : A) : M A := fun st => (Ok a, st).

Definition raise {A} (e : exn) : M A := fun st => (Raise e, st).

Definition bind {A B} (m : M A) (k : A -> M B) : M B :=
  fun st =>
    match m st with
    | (Ok a, st') => k a st'
    | (Raise e, st') => (Raise e, st')
    end.

Notation "x <- m ;; k" := (bind m (fun x => k))
  (at level 100, m at next level, right associativity).
Notation "m ;;; k" := (bind m (fun _ => k))
  (at level 100, right associativity).

Definition lift {A} (r : result A) : M A := fun st => (r, st).

(** The state with one more event, and with other files. *)
Definition record (e : event) (st : state) : state :=
  {| files := files st; clock_reads := clock_reads st;
     trace := trace st ++ [e] |}.

Definition with_files (m : FS.fs) (st : state) : state :=
  {| files := m; clock_reads := clock_reads st; trace := trace st |}.

Definition log_event (e : event) : M unit :=
  fun st => (Ok tt, record e st).

Definition set_files (m : FS.fs) : M unit :=
  fun st => (Ok tt, with_files m st).

Definition get_files : M FS.fs := fun st => (Ok (files st), st).

(** The state once the clock has been read. *)
Definition tick (st : state) : state :=
  {| files := files st; clock_reads := S (clock_reads st);
     trace := trace st |}.

(** [datetime.now()] *)
Definition datetime_now (w : env) : M datetime :=
  fun st => (Ok (now w (clock_reads st)), tick st).

(** A call that changes the file system, or raises and leaves it as it was. *)
Definition fs_update (e : event) (f : FS.fs -> result FS.fs) : M unit :=
  log_event e ;;;
  m <- get_files ;;
  m' <- lift (f m) ;;
  set_files m'.

Definition fs_query {A} (e : event) (f : FS.fs -> result A) : M A :=
  log_event e ;;;
  m <- get_files ;;
  lift (f m).

(** [self.temp_dir] *)
Definition temp_dir : string := "/tmp/vocal_removal".

(** [base64.b64decode(v)] for any value. *)
Definition b64decode (v : pyval) : result (list byte) :=
  match v with
  | PStr s => Base64.b64decode s
  | _ =>
      Raise (Exn TypeError
               ("argument should be a bytes-like object or ASCII string, not "
                +:+ repr_str (type_name v)))
  end.

(** [ServerlessVocalRemover.decode_audio_file] *)
Definition decode_audio_file (w : env) (audio_base64 filename : pyval)
  : M string :=
  t <- datetime_now w ;;
  let file_path :=
    PosixPath.join temp_dir
      ["input_" +:+ strftime t +:+ "_" +:+ str filename] in
  audio_data <- lift (b64decode audio_base64) ;;
  fs_update (EvWrite file_path)
            (fun m => FS.write_file m file_path audio_data) ;;;
  ret file_path.

(** [ServerlessVocalRemover.encode_audio_file] *)
Definition encode_audio_file (file_path : string) : M string :=
  audio_data <- fs_query (EvRead file_path)
                         (fun m => FS.read_file m file_path) ;;
  ret (Base64.b64encode audio_data).

(** The [timeout] argument of [subprocess.run], in seconds. *)
Definition timeout : Z := 300.

(** [str(e)] of the [subprocess.TimeoutExpired] raised for [command]. *)
Definition timeout_expired (command : list string) (seconds : Z) : exn :=
  Exn TimeoutExpired
      ("Command '" +:+ repr_str_list command +:+ "' timed out after "
       +:+ show_Z seconds +:+ " seconds").

(** [subprocess.run(command, capture_output=True, text=True, timeout=t)]:
    the tool runs on the current files; when it has not ended after [t]
    seconds it is killed and [TimeoutExpired] is raised. *)
Definition subprocess_run (w : env) (command : list string) (t : Z)
  : M tool_run :=
  log_event (EvRun command t) ;;;
  m <- get_files ;;
  let r := tool w command m in
  set_files (fs_after r) ;;;
  if (t * 1000000 <? duration_us r)%Z
  then raise (timeout_expired command t)
  else ret r.

(** [glob.glob(pattern)] and [glob.glob(pattern, recursive=True)] *)
Definition glob_glob (w : env) (pattern : string) (recursive : bool)
  : M (list string) :=
  log_event (EvGlob pattern recursive) ;;;
  m <- get_files ;;
  ret (glob w m pattern recursive).

(** The command line of the separation tool. *)
Definition demucs_command (w : env) (model output_dir input_path : string)
  : list string :=
  ["python"; "-m"; "demucs";
   "--mp3";
   "--two-stems=vocals";
   "-n"; model;
   "-o"; output_dir;
   "--device"; device w;
   "--shifts"; "1";
   "--overlap"; "0.25";
   "--jobs"; "1";
   input_path].

(** [' '.join(command)] needs every item to be a [str]; item 6 is the model. *)
Definition model_as_str (model : pyval) : result string :=
  match model with
  | PStr m => Ok m
  | _ =>
      Raise (Exn TypeError
               ("sequence item 6: expected str instance, "
                +:+ type_name model +:+ " found"))
  end.

(** [ServerlessVocalRemover.remove_vocals_serverless] *)
Definition remove_vocals_serverless (w : env) (input_path : string)
    (model : pyval) : M string :=
  t <- datetime_now w ;;
  let output_dir :=
    PosixPath.join temp_dir ["demucs_output_" +:+ strftime t] in
  fs_update (EvMakedirs output_dir) (fun m => FS.makedirs m output_dir) ;;;
  model <- lift (model_as_str model) ;;
  let command := demucs_command w model output_dir input_path in
  result <- subprocess_run w command timeout ;;
  if negb (returncode result =? 0)%Z
  then raise (Exn RuntimeError
                ("Demucs processing failed: " +:+ stderr result))
  else
    let input_filename :=
      fst (PosixPath.splitext (PosixPath.basename input_path)) in
    let no_vocals_pattern :=
      PosixPath.join output_dir [model; input_filename; "no_vocals.*"] in
    matching_files <- glob_glob w no_vocals_pattern false ;;
    matching_files <-
      match matching_files with
      | [] =>
          let no_vocals_pattern :=
            PosixPath.join output_dir ["**"; "no_vocals.*"] in
          glob_glob w no_vocals_pattern true
      | _ => ret matching_files
      end ;;
    match matching_files with
    | [] => raise (Exn RuntimeError "Could not find Demucs output file")
    | output_path :: _ => ret output_path
    end.

(** [try: body except: pass] *)
Definition swallow (body : M unit) : M unit :=
  fun st =>
    match body st with
    | (_, st') => (Ok tt, st')
    end.

(** One round of the loop of [cleanup_files]. *)
Definition cleanup_file (file_path : string) : M unit :=
  swallow (
    m <- get_files ;;
    if FS.exists_ m file_path then
      if FS.isfile m file_path then
        fs_update (EvRemove file_path) (fun m => FS.remove m file_path)
      else if FS.isdir m file_path then
        fs_update (EvRmtree file_path) (fun m => FS.rmtree m file_path)
      else ret tt
    else ret tt).

(** [ServerlessVocalRemover.cleanup_files] *)
Fixpoint cleanup_files (file_paths : list string) : M unit :=
  match file_paths with
  | [] => ret tt
  | file_path :: rest => cleanup_file file_path ;;; cleanup_files rest
  end.

(** The values of a response. *)
Inductive rval :=
  | RBool (b : bool)
  | RStr (s : string)
  | RSeconds (micros : Z).

Definition response := list (string * rval).

Fixpoint field (r : response) (key : string) : option rval :=
  match r with
  | [] => None
  | (k, v) :: r' => if String.eqb k key then Some v else field r' key
  end.

Definition fields (r : response) : list string := map fst r.

(** Lines 191 to 199 of [handler]: the parameters of the job, or the
    response returned at once. *)
Inductive job_params :=
  | Params (audio_data filename method : pyval)
  | Return (r : response).

Definition get_params (job : dict) : result job_params :=
  match dict_get_default job "input" (PDict []) with
  | PDict job_input =>
      let audio_data := dict_get_default job_input "audio_data" PNone in
      let filename := dict_get_default job_input "filename" (PStr "audio.mp3") in
      let method := dict_get_default job_input "method" (PStr "htdemucs_ft") in
      if negb (truthy audio_data)
      then Ok (Return [("error", RStr "No audio data provided")])
      else Ok (Params audio_data filename method)
  | v =>
      Raise (Exn AttributeError
               ("'" +:+ type_name v +:+ "' object has no attribute 'get'"))
  end.

(** [os.path.splitext(filename)] for any value. *)
Definition splitext_val (filename : pyval) : result (string * string) :=
  match filename with
  | PStr s => Ok (PosixPath.splitext s)
  | _ =>
      Raise (Exn TypeError
               ("expected str, bytes or os.PathLike object, not "
                +:+ type_name filename))
  end.

(** Lines 206 to 232: what follows the decoding of the input. *)
Definition process (w : env) (start_time : datetime) (input_path : string)
    (filename method : pyval) : M response :=
  output_path <- remove_vocals_serverless w input_path method ;;
  result_data <- encode_audio_file output_path ;;
  t <- datetime_now w ;;
  let processing_time := total_seconds t start_time in
  stem <- lift (splitext_val filename) ;;
  t' <- datetime_now w ;;
  let response :=
    [("success", RBool true);
     ("processed_audio", RStr result_data);
     ("processing_time", RSeconds processing_time);
     ("method", RStr (str method));
     ("gpu_used", RStr (device w));
     ("output_filename", RStr (fst stem +:+ "_no_vocals.wav"));
     ("timestamp", RStr (isoformat t'));
     ("serverless", RBool true)] in
  cleanup_files [input_path; PosixPath.dirname output_path] ;;;
  ret response.

(** Lines 234 to 252: the [except Exception] clause.  [input_path] is the
    value the variable holds when the exception arrives. *)
Definition on_exception (w : env) (start_time : datetime)
    (input_path : option string) (e : exn) (st : state) : response * state :=
  let st1 :=
    match input_path with
    | Some p =>
        if negb (String.eqb p "")
        then snd (swallow (fs_update (EvRemove p)
                                     (fun m => FS.remove m p)) st)
        else st
    | None => st
    end in
  let t := now w (clock_reads st1) in
  let t' := now w (S (clock_reads st1)) in
  ([("success", RBool false);
    ("error", RStr (exn_str e));
    ("processing_time", RSeconds (total_seconds t start_time));
    ("timestamp", RStr (isoformat t'));
    ("serverless", RBool true)],
   tick (tick st1)).

(** [handler(job)] *)
Definition handler (w : env) (job : dict) (st : state) : response * state :=
  let start_time := now w (clock_reads st) in
  let st0 := tick st in
  match get_params job with
  | Raise e => on_exception w start_time None e st0
  | Ok (Return r) => (r, st0)
  | Ok (Params audio_data filename method) =>
      match decode_audio_file w audio_data filename st0 with
      | (Raise e, st1) => on_exception w start_time None e st1
      | (Ok input_path, st1) =>
          match process w start_time input_path filename method st1 with
          | (Raise e, st2) => on_exception w start_time (Some input_path) e st2
          | (Ok r, st2) => (r, st2)
          end
      end
  end.

End Handler.

(** ** The paths and the responses of a job, by name *)

Module Layout.

Import Py Datetime Handler.

(** The file the payload is decoded to. *)
Definition input_path_at (w : env) (filename : pyval) (st : state) : string :=
  PosixPath.join temp_dir
    ["input_" +:+ strftime (now w (clock_reads st)) +:+ "_" +:+ str filename].

(** The directory the tool is told to write to. *)
Definition output_dir_at (w : env) (st : state) : string :=
  PosixPath.join temp_dir
    ["demucs_output_" +:+ strftime (now w (clock_reads st))].

Definition primary_pattern (output_dir model input_path : string) : string :=
  PosixPath.join output_dir
    [model; fst (PosixPath.splitext (PosixPath.basename input_path));
     "no_vocals.*"].

Definition fallback_pattern (output_dir : string) : string :=
  PosixPath.join output_dir ["**"; "no_vocals.*"].

(** The response of a job that went through. *)
Definition success_response (w : env) (start_time : datetime)
    (result_data : string) (filename : string) (method : pyval)
    (st : state) : response :=
  [("success", RBool true);
   ("processed_audio", RStr result_data);
   ("processing_time",
    RSeconds (total_seconds (now w (clock_reads st)) start_time));
   ("method", RStr (str method));
   ("gpu_used", RStr (device w));
   ("output_filename",
    RStr (fst (PosixPath.splitext filename) +:+ "_no_vocals.wav"));
   ("timestamp", RStr (isoformat (now w (S (clock_reads st)))));
   ("serverless", RBool true)].

(** The response of a job that met exception [e]. *)
Definition failure_response (w : env) (start_time : datetime) (e : exn)
    (st : state) : response :=
  [("success", RBool false);
   ("error", RStr (exn_str e));
   ("processing_time",
    RSeconds (total_seconds (now w (clock_reads st)) start_time));
   ("timestamp", RStr (isoformat (now w (S (clock_reads st)))));
   ("serverless", RBool true)].

(** The keys of the two responses [handler] builds. *)
Definition success_fields : list string :=
  ["success"; "processed_audio"; "processing_time"; "method"; "gpu_used";
   "output_filename"; "timestamp"; "serverless"].

Definition failure_fields : list string :=
  ["success"; "error"; "processing_time"; "timestamp"; "serverless"].

Definition has_field (r : response) (key : string) : bool :=
  match field r key with Some _ => true | None => false end.

Definition success_flag (r : response) : option bool :=
  match field r "success" with
  | Some (RBool b) => Some b
  | _ => None
  end.

(** Does the job leave [handler] through the early [return] of line 199? *)
Definition early_return (job : dict) : bool :=
  match get_params job with
  | Ok (Return _) => true
  | _ => false
  end.

(** The [filename] the handler reads from the job. *)
Definition filename_of (job : dict) : pyval :=
  match dict_get_default job "input" (PDict []) with
  | PDict job_input => dict_get_default job_input "filename" (PStr "audio.mp3")
  | _ => PStr "audio.mp3"
  end.

(** What a call of [handler] comes to: the early return, a failure
    response, or a success response. *)
Inductive outcome (w : env) (job : dict) (st : state) : response -> Prop :=
  | Early r :
      get_params job = Ok (Return r) ->
      outcome w job st r
  | Failed e st1 :
      early_return job = false ->
      exn_str e <> "" ->
      outcome w job st
        (failure_response w (now w (clock_reads st)) e st1)
  | Succeeded data name method st1 :
      early_return job = false ->
      filename_of job = PStr name ->
      outcome w job st
        (success_response w (now w (clock_reads st))
           (Base64.b64encode data) name method st1).

End Layout.

(** ** The response shapes of the specification *)

Module Spec.

Import Handler Layout.

(** The shapes as the specification words them. *)
Definition spec_success_shape (r : response) : bool :=
  match success_flag r with
  | Some true =>
      forallb (has_field r)
        ["processed_audio"; "processing_time"; "profile_used"; "device_used";
         "output_filename"; "timestamp"]
  | _ => false
  end.

Definition spec_failure_shape (r : response) : bool :=
  match success_flag r with
  | Some false => forallb (has_field r) ["error"; "processing_time"; "timestamp"]
  | _ => false
  end.

End Spec.

(** ** A plain [glob] and a stub of the separation tool, for the examples *)

Module Glob.

(** [fnmatch] for a pattern made of plain characters, [*] and [?]. *)
Fixpoint fnmatch (pat : list ascii) : list ascii -> bool :=
  match pat with
  | [] => fun name => match name with [] => true | _ => false end
  | c :: pat' =>
      if Ascii.eqb c "*" then
        fix star (name : list ascii) : bool :=
          fnmatch pat' name
          || match name with
             | [] => false
             | _ :: name' => star name'
             end
      else
        fun name =>
          match name with
          | [] => false
          | x :: name' =>
              (Ascii.eqb c "?" || Ascii.eqb c x) && fnmatch pat' name'
          end
  end.

Definition matches (pat name : string) : bool :=
  fnmatch (list_ascii_of_string pat) (list_ascii_of_string name).

(** Names that start with a dot are not listed. *)
Definition ishidden (name : string) : bool :=
  match name with
  | String c _ => Ascii.eqb c "."
  | EmptyString => false
  end.

Definition last_name (q : FS.loc) : string := List.last q "".

(** The locations at or below [d], as the names that lead there from [d]. *)
Fixpoint relative (d q : FS.loc) : option FS.loc :=
  match d, q with
  | [], _ => Some q
  | _ :: _, [] => None
  | a :: d', b :: q' => if String.eqb a b then relative d' q' else None
  end.

(** [glob.glob] on patterns [<dir>/<name pattern>] and, when [recursive],
    [<dir>/**/<name pattern>], where [<dir>] has no wildcard and the name
    pattern has no bracket. *)
Definition glob (m : FS.fs) (pattern : string) (recursive : bool)
  : list string :=
  let dir := PosixPath.dirname pattern in
  let pat := PosixPath.basename pattern in
  let deep := recursive && String.eqb (PosixPath.basename dir) "**" in
  let top := if deep then PosixPath.dirname dir else dir in
  match FS.resolve m top with
  | inl _ => []
  | inr d =>
      flat_map
        (fun kv =>
           match relative d (fst kv) with
           | Some (n :: ns) =>
               let rel := n :: ns in
               if (deep || match ns with [] => true | _ => false end)
                  && negb (existsb ishidden rel)
                  && matches pat (last_name rel)
               then [PosixPath.join top rel]
               else []
           | _ => []
           end)
        (map_to_list m)
  end.

End Glob.

Module Stub.

Import Handler.

(** A tool that behaves as the separation tool is documented to: called as
    [... -n <model> -o <out> ... <input>], it writes
    [<out>/<model>/<stem of input>/no_vocals.mp3] and [vocals.mp3]. *)
Definition track_dir (model out input : string) : string :=
  PosixPath.join out
    [model; fst (PosixPath.splitext (PosixPath.basename input))].

Definition write_stems (m : FS.fs) (dir : string) (data : list byte) : FS.fs :=
  match FS.makedirs m dir with
  | Ok m1 =>
      match FS.write_file m1 (PosixPath.join dir ["no_vocals.mp3"]) data with
      | Ok m2 =>
          match FS.write_file m2 (PosixPath.join dir ["vocals.mp3"]) data with
          | Ok m3 => m3
          | Raise _ => m2
          end
      | Raise _ => m1
      end
  | Raise _ => m
  end.

Definition demucs (data : list byte) (command : list string) (m : FS.fs)
  : tool_run :=
  match command with
  | [_; _; _; _; _; _; model; _; out; _; _; _; _; _; _; _; _; input] =>
      {| duration_us := 12000000; returncode := 0;
         stdout := "Separated tracks will be stored in " +:+ out;
         stderr := "";
         fs_after := write_stems m (track_dir model out input) data |}
  | _ =>
      {| duration_us := 1000; returncode := 2; stdout := "";
         stderr := "usage: demucs"; fs_after := m |}
  end.

(** A tool that names the track directory after the file name of the
    request, [test], and not after its input file. *)
Definition demucs_other_layout (data : list byte) (command : list string)
    (m : FS.fs) : tool_run :=
  match command with
  | [_; _; _; _; _; _; model; _; out; _; _; _; _; _; _; _; _; input] =>
      {| duration_us := 12000000; returncode := 0;
         stdout := ""; stderr := "";
         fs_after :=
           write_stems m (PosixPath.join out [model; "test"]) data |}
  | _ =>
      {| duration_us := 1000; returncode := 2; stdout := "";
         stderr := "usage: demucs"; fs_after := m |}
  end.

(** A tool that fails after having written to its standard streams. *)
Definition failing (command : list string) (m : FS.fs) : tool_run :=
  {| duration_us := 2000000; returncode := 1;
     stdout := "Selected model is a bag of 4 models";
     stderr := "FATAL: unknown model";
     fs_after := m |}.

(** A tool that is still running after 301 seconds. *)
Definition hanging (command : list string) (m : FS.fs) : tool_run :=
  {| duration_us := 301000000; returncode := 0; stdout := ""; stderr := "";
     fs_after := m |}.

(** A clock that advances one second per reading, from 2024-01-02 03:04:05. *)
Definition clock (n : nat) : Datetime.datetime :=
  {| Datetime.year := 2024; Datetime.month := 1; Datetime.day := 2;
     Datetime.hour := 3; Datetime.minute := 4; Datetime.second := 5 + n;
     Datetime.microsecond := 0;
     Datetime.epoch_us := 1704164645000000 + Z.of_nat n * 1000000 |}.

Definition world (t : list string -> FS.fs -> tool_run) : env :=
  {| device := "cuda"; now := clock; tool := t; glob := Glob.glob |}.

(** The worker after start-up: the scratch root exists and is empty. *)
Definition fresh : state :=
  {| files := {[ ["tmp"] := FS.Dir; ["tmp"; "vocal_removal"] := FS.Dir ]};
     clock_reads := 0;
     trace := [] |}.

Definition job_of (input : Py.dict) : Py.dict := [("input", Py.PDict input)].

(** The job of the documented scenario, with a three-byte payload. *)
Definition job_test : Py.dict :=
  job_of [("audio_data", Py.PStr "TWFu");
          ("filename", Py.PStr "test.wav");
          ("method", Py.PStr "htdemucs_ft")].

(** The documented job on a tool that succeeds, fails, or hangs, and the
    job without a payload. *)
Definition run_ok : response * state :=
  handler (world (demucs [x01; x02])) job_test fresh.

Definition run_failing : response * state :=
  handler (world failing) job_test fresh.

Definition run_hanging : response * state :=
  handler (world hanging) job_test fresh.

Definition run_other_layout : response * state :=
  handler (world (demucs_other_layout [x01; x02])) job_test fresh.

Definition run_empty : response * state :=
  handler (world (demucs [x01; x02])) (job_of []) fresh.

(** The state once [job_test] has been decoded, and the file it was
    decoded to. *)
Definition decoded (w : env) : result string * state :=
  decode_audio_file w (Py.PStr "TWFu") (Py.PStr "test.wav") (tick fresh).

Definition test_input : string :=
  "/tmp/vocal_removal/input_20240102_030406_test.wav".

Definition test_output_dir : string :=
  "/tmp/vocal_removal/demucs_output_20240102_030407".

(** A worker on which the input file of [job_test] is there already, with
    the clock where it stood when that file was written. *)
Definition same_second : state :=
  {| files := files (snd (decoded (world failing)));
     clock_reads := 1;
     trace := [] |}.

(** A worker whose scratch root holds a directory named like an input
    file. *)
Definition with_directory : state :=
  {| files := <[ ["tmp"; "vocal_removal"; "input_20240102_030405_x"]
                 := FS.Dir ]> (files fresh);
     clock_reads := 0;
     trace := [] |}.

(** The files once the output directory has been made. *)
Definition files_before_run (w : env) : FS.fs :=
  match FS.makedirs (files (snd (decoded w))) test_output_dir with
  | Ok m => m
  | Raise _ => files (snd (decoded w))
  end.

End Stub.

(** ** Checks that run over every byte and every sextet *)

Module Checks.

Import Base64.

(** The numbers below [n]. *)
Definition below_n (n : nat) : list N := map N.of_nat (seq 0 n).

(** The sextets of a group of bytes, and what the decoder rebuilds from
    them, checked on every pair of byte values. *)
Definition sextets_ok (a b : N) : bool :=
  let s2 := N.lor (N.shiftl (N.land a 3) 4) (N.shiftr b 4) in
  let s3 := N.lor (N.shiftl (N.land a 15) 2) (N.shiftr b 6) in
  (N.shiftr a 2 <? 64)%N
  && (s2 <? 64)%N
  && (s3 <? 64)%N
  && (N.land a 63 <? 64)%N
  && (N.shiftl (N.land a 3) 4 <? 64)%N
  && (N.shiftl (N.land a 15) 2 <? 64)%N
  && (N.lor (N.shiftl (N.shiftr a 2) 2) (N.shiftr s2 4) =? a)%N
  && (N.lor (N.shiftl (N.shiftr a 2) 2)
            (N.shiftr (N.shiftl (N.land a 3) 4) 4) =? a)%N
  && (N.land s2 15 =? N.shiftr b 4)%N
  && (N.land (N.shiftl (N.land a 3) 4) 15 =? 0)%N
  && (N.lor (N.shiftl (N.shiftr a 4) 4) (N.shiftr s3 2) =? a)%N
  && (N.lor (N.shiftl (N.shiftr a 4) 4)
            (N.shiftr (N.shiftl (N.land a 15) 2) 2) =? a)%N
  && (N.land s3 3 =? N.shiftr b 6)%N
  && (N.lor (N.shiftl (N.shiftr a 6) 6) (N.land a 63) =? a)%N.

(** The alphabet character of a sextet decodes to it, is not the pad, and
    is ASCII. *)
Definition alphabet_ok (v : N) : bool :=
  negb (Ascii.eqb (b2a v) BASE64_PAD)
  && match a2b (b2a v) with
     | Some v' => (v' =? v)%N
     | None => false
     end
  && (N_of_ascii (b2a v) <? 128)%N.

(** The bytes rebuilt from a group of sextets, and the sextets they encode
    to, checked on every pair of sextet values. *)
Definition bytes_ok (x y : N) : bool :=
  let a := N.lor (N.shiftl x 2) (N.shiftr y 4) in
  let b := N.lor (N.shiftl (N.land x 15) 4) (N.shiftr y 2) in
  let c := N.lor (N.shiftl (N.land x 3) 6) y in
  (a <? 256)%N && (b <? 256)%N && (c <? 256)%N
  && (N.shiftr a 2 =? x)%N
  && (N.land a 3 =? N.shiftr y 4)%N
  && (N.shiftr b 4 =? N.land x 15)%N
  && (N.land b 15 =? N.shiftr y 2)%N
  && (N.shiftr c 6 =? N.land x 3)%N
  && (N.land c 63 =? y)%N
  && (N.lor (N.shiftl (N.shiftr x 4) 4) (N.land x 15) =? x)%N
  && (N.lor (N.shiftl (N.shiftr x 2) 2) (N.land x 3) =? x)%N.

(** A character the decoding table knows stands for a sextet, and is the
    alphabet character of that sextet. *)
Definition sextet_ok (n : N) : bool :=
  let c := ascii_of_N n in
  match a2b c with
  | Some v => (v <? 64)%N && Ascii.eqb (b2a v) c
  | None => true
  end.

End Checks.

(** ** Start-up of the worker, and counting calls *)

Module Startup.

Import Handler.

(** Lines 28 to 32 of [ServerlessVocalRemover.__init__]: the scratch root is
    made, and the device is chosen from [torch.cuda.is_available()].  What
    follows in [__init__] loads models into the memory of the process, with
    every exception caught, and is not part of the model. *)
Definition init (cuda_is_available : bool) : M string :=
  fs_update (EvMakedirs temp_dir) (fun m => FS.makedirs m temp_dir) ;;;
  ret (if cuda_is_available then "cuda" else "cpu").

End Startup.

Module Events.

Import Handler.

Definition is_run (e : event) : bool :=
  match e with EvRun _ _ => true | _ => false end.

Definition is_write (e : event) : bool :=
  match e with EvWrite _ => true | _ => false end.

Definition is_makedirs (e : event) : bool :=
  match e with EvMakedirs _ => true | _ => false end.

(** The calls [cleanup_files] makes are removals. *)
Definition is_removal (e : event) : bool :=
  match e with
  | EvRemove _ | EvRmtree _ => true
  | _ => false
  end.

(** How many events of a kind a trace holds. *)
Definition count (kind : event -> bool) (evs : list event) : nat :=
  List.length (List.filter kind evs).

End Events.

Module Names.

(** Is the character neither a separator nor NUL? *)
Definition name_char (c : ascii) : bool :=
  negb (PosixPath.is_sep c) && negb (N_of_ascii c =? 0)%N.

(** A file name without separator and NUL. *)
Definition plain_name (s : string) : bool :=
  forallb name_char (list_ascii_of_string s).

(** Does the path end in a name, and not in a separator, [.] or [..]? *)
Definition ends_in_name (p : string) : bool :=
  match rev (FS.components p) with
  | c :: _ => negb (FS.is_dot c) && negb (FS.is_dotdot c)
  | [] => false
  end.

(** The bits of the last sextet of a two-byte group that encode no byte
    are zero, checked on every byte value. *)
Definition pad_bits_ok (b : N) : bool :=
  (N.land (N.shiftl (N.land b 15) 2) 3 =? 0)%N.

End Names.

Module Job.

Import Py Datetime Handler.

(** The [method] the handler reads from the job. *)
Definition method_of (job : dict) : pyval :=
  match dict_get_default job "input" (PDict []) with
  | PDict job_input => dict_get_default job_input "method" (PStr "htdemucs_ft")
  | _ => PStr "htdemucs_ft"
  end.

(** The names of the input file and of the output directory under the
    scratch root. *)
Definition input_name (w : env) (filename : pyval) (st : state) : string :=
  "input_" +:+ strftime (now w (clock_reads st)) +:+ "_" +:+ str filename.

Definition output_name (w : env) (st : state) : string :=
  "demucs_output_" +:+ strftime (now w (clock_reads st)).

End Job.

(** ** The payloads the decoder takes *)

Module Payload.

Import Py.

(** The alphabet characters of a text: what the decoder reads as data. *)
Definition data_count (s : list ascii) : nat :=
  length (List.filter Base64.is_alphabet s).

(** Is there a pad that closes the text: a [=] that comes after three
    characters of a group, or after two characters and one more [=]?
    [n] counts the alphabet characters passed so far, and [pad] tells
    whether a [=] came after the last of them. *)
Fixpoint closed_by_pad (s : list ascii) (n : nat) (pad : bool) : bool :=
  match s with
  | [] => false
  | c :: s' =>
      if Ascii.eqb c Base64.BASE64_PAD
      then Nat.eqb (n mod 4) 3 || (Nat.eqb (n mod 4) 2 && pad)
           || closed_by_pad s' n true
      else if Base64.is_alphabet c then closed_by_pad s' (S n) false
      else closed_by_pad s' n pad
  end.

(** A text is well grouped when its alphabet characters come in whole
    groups of four, up to its end or up to the pad that closes it; what is
    neither of the alphabet nor a pad does not count. *)
Definition well_grouped (s : string) : bool :=
  let cs := list_ascii_of_string s in
  closed_by_pad cs 0 false || Nat.eqb (data_count cs mod 4) 0.

(** The payloads that decode: texts in ASCII that are well grouped. *)
Definition accepted (v : pyval) : bool :=
  match v with
  | PStr s => Base64.is_ascii s && well_grouped s
  | _ => false
  end.

End Payload.

(** * Properties *)

(** ** The library functions on examples *)

Example b64encode_Man :
  Base64.b64encode [x4d; x61; x6e] = "TWFu".
Proof. reflexivity. Qed.

Example b64encode_Ma :
  Base64.b64encode [x4d; x61] = "TWE=".
Proof. reflexivity. Qed.

Example b64decode_TWE :
  Base64.b64decode "TWE=" = Ok [x4d; x61].
Proof. reflexivity. Qed.

Example b64decode_skips_garbage :
  Base64.b64decode "!!T W*F-u!!" = Ok [x4d; x61; x6e].
Proof. reflexivity. Qed.

Example b64decode_bad_padding :
  Base64.b64decode "abc" = Raise (Exn BinasciiError "Incorrect padding").
Proof. reflexivity. Qed.

Example b64decode_one_extra :
  Base64.b64decode "abcde" =
  Raise (Exn BinasciiError
    "Invalid base64-encoded string: number of data characters (5) cannot be 1 more than a multiple of 4").
Proof. reflexivity. Qed.

Example repr_examples :
  Py.repr (Py.PDict [("a", Py.PInt (-3)); ("b", Py.PList [Py.PStr "x'y"; Py.PNone])])
  = String.append "{'a': -3, 'b': [" (String.append (String (ascii_of_nat 34) "x'y") (String (ascii_of_nat 34) ", None]}")).
Proof. reflexivity. Qed.

Example path_examples :
  PosixPath.join "/tmp/vocal_removal" ["input_1_a.mp3"] = "/tmp/vocal_removal/input_1_a.mp3"
  /\ PosixPath.join "/tmp/out" ["/abs"; "x"] = "/abs/x"
  /\ PosixPath.basename "/tmp/a/b.tar.gz" = "b.tar.gz"
  /\ PosixPath.dirname "/tmp/a/b.tar.gz" = "/tmp/a"
  /\ PosixPath.dirname "/x" = "/"
  /\ PosixPath.dirname "x" = ""
  /\ PosixPath.splitext "/tmp/a/b.tar.gz" = ("/tmp/a/b.tar", ".gz")
  /\ PosixPath.splitext ".bashrc" = (".bashrc", "")
  /\ PosixPath.splitext "a.b/c" = ("a.b/c", "")
  /\ PosixPath.splitext "..x.y" = ("..x", ".y").
Proof. repeat split; reflexivity. Qed.


Example canonical_examples :
  Base64.is_canonical "TWFu" = true
  /\ Base64.is_canonical "TWE=" = true
  /\ Base64.is_canonical "TQ==" = true
  /\ Base64.is_canonical "TWF=" = false
  /\ Base64.is_canonical "TWFu " = false
  /\ Base64.is_canonical "TWF" = false.
Proof. repeat split; reflexivity. Qed.

(** The decoder also accepts texts that are not canonical; those do not
    come back from the encoder. *)
Example lenient_decode_no_round_trip :
  Base64.b64decode "TWF=" = Ok [x4d; x61]
  /\ Base64.b64encode [x4d; x61] = "TWE=".
Proof. split; reflexivity. Qed.

(** Which texts the decoder takes. *)
Example well_grouped_examples :
  map Payload.well_grouped
      [""; "!!!!"; "TWFu"; "TW Fu"; "TWE="; "TQ=="; "TWE"; "TQ="; "T"]
  = [true; true; true; true; true; true; false; false; false]
  /\ map (fun s => is_ok (Base64.b64decode s))
         [""; "!!!!"; "TWFu"; "TW Fu"; "TWE="; "TQ=="; "TWE"; "TQ="; "T"]
     = [true; true; true; true; true; true; false; false; false].
Proof. split; vm_compute; reflexivity. Qed.

(** The limits of the file system, on the file [decode_audio_file] writes:
    the name [input_20240102_030405_] has 22 bytes, so a file name of 233
    bytes is the longest that can be written. *)
Example long_name_examples :
  is_ok (fst (Handler.decode_audio_file (Stub.world Stub.failing)
                (Py.PStr "TWFu")
                (Py.PStr (string_of_list_ascii (repeat "a"%char 233)))
                Stub.fresh)) = true
  /\ fst (Handler.decode_audio_file (Stub.world Stub.failing)
            (Py.PStr "TWFu")
            (Py.PStr (string_of_list_ascii (repeat "a"%char 234)))
            Stub.fresh)
     = Raise (Exn OSError
                ("[Errno 36] File name too long: "
                 +:+ "'/tmp/vocal_removal/input_20240102_030405_"
                 +:+ string_of_list_ascii (repeat "a"%char 234) +:+ "'")).
Proof. split; vm_compute; reflexivity. Qed.

(** Opening for writing a name with a separator after it. *)
Example trailing_separator_examples :
  fst (Handler.decode_audio_file (Stub.world Stub.failing) (Py.PStr "TWFu")
         (Py.PStr "x/") Stub.fresh)
  = Raise (Exn IsADirectoryError
             "[Errno 21] Is a directory: '/tmp/vocal_removal/input_20240102_030405_x/'")
  /\ fst (Handler.decode_audio_file (Stub.world Stub.failing) (Py.PStr "TWFu")
            (Py.PStr "x/y") Stub.fresh)
     = Raise (Exn FileNotFoundError
                "[Errno 2] No such file or directory: '/tmp/vocal_removal/input_20240102_030405_x/y'")
  /\ fst (Handler.decode_audio_file (Stub.world Stub.failing) (Py.PStr "TWFu")
            (Py.PStr "x/y/") Stub.fresh)
     = Raise (Exn FileNotFoundError
                "[Errno 2] No such file or directory: '/tmp/vocal_removal/input_20240102_030405_x/y/'")
  /\ fst (Handler.decode_audio_file (Stub.world Stub.failing) (Py.PStr "TWFu")
            (Py.PStr "test.wav/") Stub.same_second)
     = Raise (Exn IsADirectoryError
                "[Errno 21] Is a directory: '/tmp/vocal_removal/input_20240102_030406_test.wav/'").
Proof. repeat split; vm_compute; reflexivity. Qed.

(** ** Base64: decoding what was encoded *)

Module Base64Facts.

Import Base64 Checks.

Lemma below_n_complete (n : nat) (x : N) :
  (x < N.of_nat n)%N -> In x (below_n n).
Proof.
  intros H. unfold below_n. apply in_map_iff.
  exists (N.to_nat x). split; [lia | apply in_seq; lia].
Qed.

Lemma check1 (n : nat) (f : N -> bool) :
  forallb f (below_n n) = true ->
  forall x, (x < N.of_nat n)%N -> f x = true.
Proof.
  intros H x Hx. rewrite forallb_forall in H.
  apply H, below_n_complete, Hx.
Qed.

Lemma check2 (n : nat) (f : N -> N -> bool) :
  forallb (fun x => forallb (f x) (below_n n)) (below_n n) = true ->
  forall x y, (x < N.of_nat n)%N -> (y < N.of_nat n)%N -> f x y = true.
Proof.
  intros H x y Hx Hy. rewrite forallb_forall in H.
  specialize (H x (below_n_complete n x Hx)).
  apply (check1 n (f x) H y Hy).
Qed.

Lemma sextets_ok_all (a b : byte) :
  sextets_ok (Byte.to_N a) (Byte.to_N b) = true.
Proof.
  apply (check2 256 sextets_ok).
  - vm_compute. reflexivity.
  - pose proof (Byte.to_N_bounded a). lia.
  - pose proof (Byte.to_N_bounded b). lia.
Qed.

Lemma alphabet_ok_all (v : N) : (v < 64)%N -> alphabet_ok v = true.
Proof.
  apply (check1 64 alphabet_ok). vm_compute. reflexivity.
Qed.

Lemma b2a_not_pad (v : N) :
  (v < 64)%N -> Ascii.eqb (b2a v) BASE64_PAD = false.
Proof.
  intros H. pose proof (alphabet_ok_all v H) as E. unfold alphabet_ok in E.
  apply andb_prop in E as [E _]. apply andb_prop in E as [E _].
  now apply negb_true_iff in E.
Qed.

Lemma a2b_b2a (v : N) : (v < 64)%N -> a2b (b2a v) = Some v.
Proof.
  intros H. pose proof (alphabet_ok_all v H) as E. unfold alphabet_ok in E.
  apply andb_prop in E as [E _]. apply andb_prop in E as [_ E].
  destruct (a2b (b2a v)) as [v'|]; [|discriminate].
  apply N.eqb_eq in E. now subst.
Qed.

Lemma b2a_is_ascii (v : N) : (v < 64)%N -> (N_of_ascii (b2a v) <? 128)%N = true.
Proof.
  intros H. pose proof (alphabet_ok_all v H) as E. unfold alphabet_ok in E.
  now apply andb_prop in E as [_ E].
Qed.

Lemma to_byte_to_N (a : byte) : to_byte (Byte.to_N a) = a.
Proof.
  unfold to_byte. pose proof (Byte.to_N_bounded a).
  rewrite N.mod_small by lia. now rewrite Byte.of_to_N.
Qed.

(** One round of the decoder on an alphabet character. *)
Lemma a2b_loop_alphabet (v : N) (s : list ascii) (quad_pos : nat)
    (leftchar : N) (pads : nat) (out : list byte) :
  (v < 64)%N ->
  a2b_loop (b2a v :: s) quad_pos leftchar pads out =
  match quad_pos with
  | 0 => a2b_loop s 1 v 0 out
  | 1 =>
      a2b_loop s 2 (N.land v 15) 0
        (to_byte (N.lor (N.shiftl leftchar 2) (N.shiftr v 4)) :: out)
  | 2 =>
      a2b_loop s 3 (N.land v 3) 0
        (to_byte (N.lor (N.shiftl leftchar 4) (N.shiftr v 2)) :: out)
  | _ =>
      a2b_loop s 0 0 0 (to_byte (N.lor (N.shiftl leftchar 6) v) :: out)
  end.
Proof.
  intros H. cbn [a2b_loop].
  rewrite (b2a_not_pad v H), (a2b_b2a v H). reflexivity.
Qed.

Lemma list_ind3 {A} (P : list A -> Prop) :
  P [] ->
  (forall a, P [a]) ->
  (forall a b, P [a; b]) ->
  (forall a b c l, P l -> P (a :: b :: c :: l)) ->
  forall l, P l.
Proof.
  intros H0 H1 H2 H3.
  fix IH 1. intros [|a [|b [|c l]]].
  - exact H0.
  - apply H1.
  - apply H2.
  - apply H3, IH.
Qed.

Ltac sextet_facts a b :=
  let E := fresh "E" in
  pose proof (sextets_ok_all a b) as E; unfold sextets_ok in E;
  repeat match type of E with
         | (_ && _ = true) =>
             let E1 := fresh "E" in
             apply andb_prop in E as [E E1]
         end;
  repeat match goal with
         | H : (_ <? _)%N = true |- _ => apply N.ltb_lt in H
         | H : (_ =? _)%N = true |- _ => apply N.eqb_eq in H
         end.

Lemma a2b_loop_b2a_base64 (bs : list byte) :
  forall leftchar pads out,
    a2b_loop (b2a_base64 bs) 0 leftchar pads out = Ok (rev out ++ bs).
Proof.
  induction bs as [|a|a b|a b c bs IH] using list_ind3; intros lc p out.
  - cbn. now rewrite app_nil_r.
  - sextet_facts a a.
    cbn [b2a_base64].
    rewrite !a2b_loop_alphabet by assumption.
    cbn [a2b_loop]. cbn [Ascii.eqb BASE64_PAD Bool.eqb andb Nat.leb Nat.add].
    match goal with |- Ok (rev (to_byte ?x :: _)) = _ =>
      replace x with (Byte.to_N a) by (symmetry; assumption) end.
    rewrite to_byte_to_N. cbn [rev]. rewrite <- ?app_assoc. reflexivity.
  - sextet_facts a b. sextet_facts b b.
    cbn [b2a_base64].
    rewrite !a2b_loop_alphabet by assumption.
    cbn [a2b_loop]. cbn [Ascii.eqb BASE64_PAD Bool.eqb andb Nat.leb Nat.add].
    repeat match goal with H : N.land _ _ = _ |- _ => rewrite H end.
    repeat match goal with H : N.lor _ _ = _ |- _ => rewrite H end.
    rewrite !to_byte_to_N. cbn [rev]. rewrite <- ?app_assoc. reflexivity.
  - sextet_facts a b. sextet_facts b c. sextet_facts c c.
    cbn [b2a_base64].
    rewrite !a2b_loop_alphabet by assumption.
    repeat match goal with H : N.land _ _ = _ |- _ => rewrite H end.
    repeat match goal with H : N.lor _ _ = _ |- _ => rewrite H end.
    rewrite !to_byte_to_N, IH. cbn [rev]. rewrite <- ?app_assoc. reflexivity.
Qed.

Lemma b2a_base64_is_ascii (bs : list byte) :
  forallb (fun c => (N_of_ascii c <? 128)%N) (b2a_base64 bs) = true.
Proof.
  induction bs as [|a|a b|a b c bs IH] using list_ind3.
  - reflexivity.
  - sextet_facts a a. cbn [b2a_base64 forallb].
    rewrite !b2a_is_ascii by assumption. reflexivity.
  - sextet_facts a b. sextet_facts b b. cbn [b2a_base64 forallb].
    rewrite !b2a_is_ascii by assumption. reflexivity.
  - sextet_facts a b. sextet_facts b c. sextet_facts c c.
    cbn [b2a_base64 forallb].
    rewrite !b2a_is_ascii by assumption. exact IH.
Qed.

(** Decoding an encoding gives the bytes back. *)
Lemma b64decode_b64encode (bs : list byte) :
  b64decode (b64encode bs) = Ok bs.
Proof.
  unfold b64decode, b64encode, is_ascii, a2b_base64.
  rewrite list_ascii_of_string_of_list_ascii.
  rewrite b2a_base64_is_ascii.
  apply (a2b_loop_b2a_base64 bs 0%N 0 []).
Qed.

Lemma bytes_ok_all (x y : N) :
  (x < 64)%N -> (y < 64)%N -> bytes_ok x y = true.
Proof.
  apply (check2 64 bytes_ok). vm_compute. reflexivity.
Qed.

Lemma sextet_ok_all (c : ascii) : sextet_ok (N_of_ascii c) = true.
Proof.
  apply (check1 256 sextet_ok).
  - vm_compute. reflexivity.
  - apply N_ascii_bounded.
Qed.

Lemma sextet_lt (c : ascii) : (sextet c < 64)%N.
Proof.
  pose proof (sextet_ok_all c) as E. unfold sextet_ok in E.
  rewrite ascii_N_embedding in E. unfold sextet.
  destruct (a2b c); [|lia].
  apply andb_prop in E as [E _]. now apply N.ltb_lt in E.
Qed.

Lemma b2a_sextet (c : ascii) : is_alphabet c = true -> b2a (sextet c) = c.
Proof.
  pose proof (sextet_ok_all c) as E. unfold sextet_ok in E.
  rewrite ascii_N_embedding in E. unfold sextet, is_alphabet.
  destruct (a2b c); [|discriminate]. intros _.
  apply andb_prop in E as [_ E]. now apply Ascii.eqb_eq in E.
Qed.

Lemma to_N_to_byte (n : N) : (n < 256)%N -> Byte.to_N (to_byte n) = n.
Proof.
  intros H. unfold to_byte. rewrite N.mod_small by assumption.
  destruct (Byte.of_N n) as [b|] eqn:E.
  - now apply Byte.to_of_N.
  - apply Byte.of_N_None_iff in E. lia.
Qed.

Ltac byte_facts x y :=
  let E := fresh "B" in
  pose proof (bytes_ok_all (sextet x) (sextet y) (sextet_lt x) (sextet_lt y))
    as E;
  unfold bytes_ok in E;
  repeat match type of E with
         | (_ && _ = true) =>
             let E1 := fresh "B" in
             apply andb_prop in E as [E E1]
         end;
  repeat match goal with
         | H : (_ <? _)%N = true |- _ => apply N.ltb_lt in H
         | H : (_ =? _)%N = true |- _ => apply N.eqb_eq in H
         end.

Lemma list_ind4 {A} (P : list A -> Prop) :
  P [] ->
  (forall a, P [a]) ->
  (forall a b, P [a; b]) ->
  (forall a b c, P [a; b; c]) ->
  (forall a b c d l, P l -> P (a :: b :: c :: d :: l)) ->
  forall l, P l.
Proof.
  intros H0 H1 H2 H3 H4.
  fix IH 1. intros [|a [|b [|c [|d l]]]].
  - exact H0.
  - apply H1.
  - apply H2.
  - apply H3.
  - apply H4, IH.
Qed.

(** A canonical text is the encoding of the bytes it stands for. *)
Lemma b2a_base64_bytes_of_groups (s : list ascii) :
  canonical_groups s = true -> b2a_base64 (bytes_of_groups s) = s.
Proof.
  induction s as [|c1|c1 c2|c1 c2 c3|c1 c2 c3 c4 rest IH] using list_ind4;
    try discriminate; [reflexivity|].
  cbn [canonical_groups bytes_of_groups]. intros H.
  apply andb_prop in H as [H H4]. apply andb_prop in H as [A1 A2].
  byte_facts c1 c2. byte_facts c2 c3. byte_facts c3 c4.
  destruct (Ascii.eqb c4 BASE64_PAD) eqn:P4.
  - apply Ascii.eqb_eq in P4. subst c4.
    destruct rest; [|discriminate].
    destruct (Ascii.eqb c3 BASE64_PAD) eqn:P3.
    + apply Ascii.eqb_eq in P3. subst c3. apply N.eqb_eq in H4.
      cbn [b2a_base64]. rewrite !to_N_to_byte by assumption.
      repeat match goal with
             | H : N.shiftr (N.lor _ _) _ = _ |- _ => rewrite H
             | H : N.land (N.lor _ _) _ = _ |- _ => rewrite H
             end.
      rewrite (b2a_sextet c1 A1).
      replace (N.shiftl (N.shiftr (sextet c2) 4) 4) with (sextet c2).
      * now rewrite (b2a_sextet c2 A2).
      * match goal with
        | H : N.lor (N.shiftl (N.shiftr (sextet c2) 4) 4) _ = _ |- _ =>
            rewrite <- H at 1
        end.
        rewrite H4. now rewrite N.lor_0_r.
    + apply andb_prop in H4 as [A3 H4]. apply N.eqb_eq in H4.
      cbn [b2a_base64]. rewrite !to_N_to_byte by assumption.
      repeat match goal with
             | H : N.shiftr (N.lor _ _) _ = _ |- _ => rewrite H
             | H : N.land (N.lor _ _) _ = _ |- _ => rewrite H
             end.
      rewrite (b2a_sextet c1 A1).
      match goal with
      | H : N.lor (N.shiftl (N.shiftr (sextet c2) 4) 4) _ = _ |- _ =>
          rewrite H
      end.
      rewrite (b2a_sextet c2 A2).
      replace (N.shiftl (N.shiftr (sextet c3) 2) 2) with (sextet c3).
      * now rewrite (b2a_sextet c3 A3).
      * match goal with
        | H : N.lor (N.shiftl (N.shiftr (sextet c3) 2) 2) _ = _ |- _ =>
            rewrite <- H at 1
        end.
        rewrite H4. now rewrite N.lor_0_r.
  - apply andb_prop in H4 as [H4 C]. apply andb_prop in H4 as [A3 A4].
    cbn [b2a_base64]. rewrite !to_N_to_byte by assumption.
    repeat match goal with
           | H : N.shiftr (N.lor _ _) _ = _ |- _ => rewrite H
           | H : N.land (N.lor _ _) _ = _ |- _ => rewrite H
           end.
    repeat match goal with
           | H : N.lor (N.shiftl (N.shiftr _ _) _) (N.land _ _) = _ |- _ =>
               rewrite H
           end.
    rewrite (b2a_sextet c1 A1), (b2a_sextet c2 A2), (b2a_sextet c3 A3),
      (b2a_sextet c4 A4), (IH C).
    reflexivity.
Qed.

(** Encoding what a canonical text decodes to gives the text back. *)
Lemma b64encode_b64decode (s : string) :
  is_canonical s = true ->
  exists bs, b64decode s = Ok bs /\ b64encode bs = s.
Proof.
  intros H. unfold is_canonical in H.
  exists (bytes_of_groups (list_ascii_of_string s)).
  assert (E : b64encode (bytes_of_groups (list_ascii_of_string s)) = s).
  { unfold b64encode. rewrite b2a_base64_bytes_of_groups by assumption.
    apply string_of_list_ascii_of_string. }
  split; [|exact E].
  rewrite <- E at 1. apply b64decode_b64encode.
Qed.

Lemma data_count_cons (c : ascii) (s : list ascii) :
  Payload.data_count (c :: s)
  = (if is_alphabet c then 1 else 0) + Payload.data_count s.
Proof.
  unfold Payload.data_count. cbn [List.filter].
  now destruct (is_alphabet c).
Qed.

(** The decoder takes a text exactly when it is well grouped. *)
Lemma a2b_loop_well_grouped (s : list ascii) :
  forall n pad quad_pos leftchar pads out,
    quad_pos = n mod 4 ->
    (quad_pos = 2 -> (0 < pads <-> pad = true)) ->
    is_ok (a2b_loop s quad_pos leftchar pads out)
    = Payload.closed_by_pad s n pad
      || Nat.eqb ((n + Payload.data_count s) mod 4) 0.
Proof.
  induction s as [|c s IH]; intros n pad q lc p out Hq Hp.
  - cbn [a2b_loop Payload.closed_by_pad orb].
    change (Payload.data_count []) with 0. rewrite Nat.add_0_r, <- Hq.
    now destruct q as [|[|q]].
  - assert (Hlt : q < 4) by (subst q; apply Nat.mod_upper_bound; lia).
    cbn [a2b_loop Payload.closed_by_pad]. rewrite data_count_cons.
    destruct (Ascii.eqb c BASE64_PAD) eqn:Ec.
    + apply Ascii.eqb_eq in Ec. subst c.
      change (is_alphabet BASE64_PAD) with false. cbv iota.
      rewrite Nat.add_0_l, <- Hq.
      destruct q as [|[|[|[|q]]]]; try lia; cbn [Nat.leb Nat.eqb orb andb].
      * apply IH; [assumption | discriminate].
      * apply IH; [assumption | discriminate].
      * destruct p as [|p].
        -- destruct pad.
           { exfalso. destruct (Hp eq_refl) as [_ H].
             specialize (H eq_refl). lia. }
           cbn [Nat.add Nat.leb]. apply IH; [assumption|].
           intros _. split; [reflexivity | lia].
        -- destruct pad; [reflexivity|].
           exfalso. destruct (Hp eq_refl) as [H _].
           assert (F : false = true) by (apply H; lia). discriminate F.
      * replace (Nat.leb 4 (3 + S p)) with true
          by (symmetry; apply Nat.leb_le; lia).
        reflexivity.
    + unfold is_alphabet. destruct (a2b c) as [v|] eqn:Ea.
      * replace (n + (1 + Payload.data_count s))
          with (S n + Payload.data_count s) by lia.
        assert (Hs : S n mod 4 = (q + 1) mod 4).
        { subst q. replace (S n) with (n + 1) by lia.
          now rewrite Nat.Div0.add_mod_idemp_l. }
        destruct q as [|[|[|[|q]]]]; try lia;
          apply IH; try (symmetry; exact Hs); try discriminate.
        intros _. split; [lia | discriminate].
      * rewrite Nat.add_0_l. now apply IH.
Qed.

Lemma b64decode_well_grouped (s : string) :
  is_ok (b64decode s) = is_ascii s && Payload.well_grouped s.
Proof.
  unfold b64decode, a2b_base64, Payload.well_grouped.
  destruct (is_ascii s); [|reflexivity]. cbn [andb].
  apply (a2b_loop_well_grouped _ 0 false); [reflexivity | discriminate].
Qed.

End Base64Facts.

(** ** Strings inside strings *)

Module StringFacts.

Import Py.

Lemma list_ascii_app (a b : string) :
  list_ascii_of_string (a +:+ b)
  = list_ascii_of_string a ++ list_ascii_of_string b.
Proof.
  induction a as [|c a IH]; [reflexivity|].
  change (c :: list_ascii_of_string (a +:+ b)
          = c :: (list_ascii_of_string a ++ list_ascii_of_string b)).
  now f_equal.
Qed.

Lemma contains_at_app (n h t : list ascii) :
  contains_at n h = true -> contains_at n (h ++ t) = true.
Proof.
  revert h. induction n as [|a n IH]; intros [|b h] H; cbn in *;
    try reflexivity; try discriminate.
  apply andb_prop in H as [H1 H2]. now rewrite H1, IH.
Qed.

Lemma contains_list_app_l (n h t : list ascii) :
  contains_list n h = true -> contains_list n (h ++ t) = true.
Proof.
  induction h as [|b h IH]; intros H.
  - cbn in H. rewrite orb_false_r in H.
    destruct n; [|discriminate]. now destruct t.
  - cbn [contains_list app] in *.
    apply orb_prop in H as [H|H].
    + pose proof (contains_at_app n (b :: h) t H) as E.
      cbn [app] in E. now rewrite E.
    + rewrite (IH H). apply orb_true_r.
Qed.

Lemma contains_list_app_r (n h t : list ascii) :
  contains_list n t = true -> contains_list n (h ++ t) = true.
Proof.
  intros H. induction h as [|b h IH]; [exact H|].
  cbn [contains_list app]. rewrite IH. apply orb_true_r.
Qed.

(** A text contains what it ends with and what it starts with. *)
Lemma contains_append_r (needle a b : string) :
  contains needle b = true -> contains needle (a +:+ b) = true.
Proof.
  unfold contains. rewrite list_ascii_app. apply contains_list_app_r.
Qed.

Lemma contains_append_l (needle a b : string) :
  contains needle a = true -> contains needle (a +:+ b) = true.
Proof.
  unfold contains. rewrite list_ascii_app. apply contains_list_app_l.
Qed.

Lemma contains_refl (s : string) : contains s s = true.
Proof.
  unfold contains. generalize (list_ascii_of_string s) as l.
  assert (H : forall l : list ascii, contains_at l l = true).
  { induction l as [|c l IH]; [reflexivity|].
    cbn. now rewrite Ascii.eqb_refl. }
  intros l. destruct l; cbn; [reflexivity|].
  rewrite Ascii.eqb_refl. cbn. now rewrite H.
Qed.

End StringFacts.

(** ** Joining plain names *)

Module PathFacts.

Import PosixPath.

Lemma append_assoc (a b c : string) : (a +:+ b) +:+ c = a +:+ b +:+ c.
Proof.
  induction a as [|x a IH]; [reflexivity|].
  change (String x ((a +:+ b) +:+ c) = String x (a +:+ b +:+ c)).
  now f_equal.
Qed.

Lemma append_nonempty_r (a b : string) : b <> "" -> a +:+ b <> "".
Proof.
  intros Hb. destruct a as [|x a]; [exact Hb | discriminate].
Qed.

Lemma append_nonempty_l (a b : string) : a <> "" -> a +:+ b <> "".
Proof.
  intros Ha. destruct a as [|x a]; [congruence | discriminate].
Qed.

(** A text ends as its last part does. *)
Lemma endswith_sep_append (a b : string) :
  b <> "" -> endswith_sep (a +:+ b) = endswith_sep b.
Proof.
  intros Hb. unfold endswith_sep.
  rewrite StringFacts.list_ascii_app, rev_app_distr.
  destruct (rev (list_ascii_of_string b)) as [|c t] eqn:E; [|reflexivity].
  exfalso. apply Hb.
  apply (f_equal (@rev ascii)) in E. rewrite rev_involutive in E.
  rewrite <- (string_of_list_ascii_of_string b), E. reflexivity.
Qed.

(** A name is plain when it is not empty and neither starts nor ends with
    a separator. *)
Definition plain (x : string) : Prop :=
  x <> "" /\ startswith_sep x = false /\ endswith_sep x = false.

Lemma join_step_plain (a b : string) :
  a <> "" -> endswith_sep a = false -> startswith_sep b = false ->
  join_step a b = a +:+ "/" +:+ b.
Proof.
  intros Ha Ea Sb. unfold join_step. rewrite Sb, Ea.
  apply String.eqb_neq in Ha. now rewrite Ha.
Qed.

(** Under a directory whose name does not end with a separator, joining
    plain names puts one separator between them. *)
Lemma join_plain (d a b : string) :
  d <> "" -> endswith_sep d = false -> plain a -> plain b ->
  join d [a; b; "no_vocals.*"]
  = d +:+ "/" +:+ a +:+ "/" +:+ b +:+ "/no_vocals.*".
Proof.
  intros Hd Ed (Ha & Sa & Ea) (Hb & Sb & Eb).
  unfold join. cbn [fold_left].
  rewrite (join_step_plain d a Hd Ed Sa).
  assert (H1 : d +:+ "/" +:+ a <> "")
    by now apply append_nonempty_l.
  assert (E1 : endswith_sep (d +:+ "/" +:+ a) = false).
  { rewrite endswith_sep_append by now apply append_nonempty_r.
    now rewrite endswith_sep_append. }
  rewrite (join_step_plain _ b H1 E1 Sb).
  rewrite join_step_plain.
  - now rewrite !append_assoc.
  - now apply append_nonempty_l.
  - rewrite endswith_sep_append by now apply append_nonempty_r.
    now rewrite endswith_sep_append.
  - reflexivity.
Qed.

(** Decimal numbers have digits only, and at least one. *)
Lemma string_of_uint_no_sep (u : Decimal.uint) :
  forallb (fun c => negb (is_sep c))
          (list_ascii_of_string (NilEmpty.string_of_uint u)) = true.
Proof.
  induction u; cbn [NilEmpty.string_of_uint list_ascii_of_string forallb];
    try reflexivity; rewrite IHu; reflexivity.
Qed.

Lemma no_sep_endswith (s : string) :
  forallb (fun c => negb (is_sep c)) (list_ascii_of_string s) = true ->
  endswith_sep s = false.
Proof.
  intros H. unfold endswith_sep.
  destruct (rev (list_ascii_of_string s)) as [|c t] eqn:E; [reflexivity|].
  rewrite forallb_forall in H.
  assert (I : In c (list_ascii_of_string s)).
  { apply in_rev. rewrite E. now left. }
  specialize (H c I). now apply negb_true_iff in H.
Qed.

Lemma pad_ends_plain (width n : nat) :
  Datetime.pad width n <> "" /\ endswith_sep (Datetime.pad width n) = false.
Proof.
  unfold Datetime.pad. set (u := Nat.to_uint n).
  assert (N : NilZero.string_of_uint u <> "")
    by (destruct u; discriminate).
  split; [now apply append_nonempty_r|].
  rewrite endswith_sep_append by assumption.
  apply no_sep_endswith.
  destruct u; try reflexivity; apply (string_of_uint_no_sep _).
Qed.

(** The stamp of a timestamp does not end with a separator. *)
Lemma strftime_ends_plain (d : Datetime.datetime) :
  Datetime.strftime d <> ""
  /\ endswith_sep (Datetime.strftime d) = false.
Proof.
  destruct (pad_ends_plain 2 (Datetime.second d)) as [N E].
  unfold Datetime.strftime.
  generalize dependent (Datetime.pad 2 (Datetime.second d)). intros s N E.
  split.
  - repeat apply append_nonempty_r. exact N.
  - repeat (rewrite endswith_sep_append;
            [|repeat apply append_nonempty_r; exact N]).
    exact E.
Qed.

End PathFacts.

(** ** The file system: reading what was written *)

Module FSFacts.

Import FS.

Lemma get_insert_ne (m : fs) (q p : loc) (n : node) :
  p <> q -> get (<[q := n]> m) p = get m p.
Proof.
  intros H. destruct p as [|c p]; [reflexivity|].
  cbn [get]. apply lookup_insert_ne. congruence.
Qed.

Lemma get_insert_eq (m : fs) (q : loc) (n : node) :
  q <> [] -> get (<[q := n]> m) q = Some n.
Proof.
  intros H. destruct q as [|c q]; [congruence|].
  cbn [get]. apply lookup_insert_eq.
Qed.

(** Resolution only looks at directories, so putting a file where there
    was no directory does not change where a path leads. *)
Lemma walk_insert_file (m : fs) (q : loc) (data : list byte)
    (comps : list string) :
  get m q <> Some Dir ->
  forall cur, walk m cur comps = inr q ->
              walk (<[q := File data]> m) cur comps = inr q.
Proof.
  intros Hq. induction comps as [|c rest IH]; intros cur H.
  - exact H.
  - cbn [walk] in *.
    destruct (get m cur) as [[data'|]|] eqn:E; try discriminate.
    assert (cur <> q) by (intros ->; congruence).
    rewrite get_insert_ne, E by assumption.
    destruct (is_dot c); [now apply IH|].
    destruct (is_dotdot c); [now apply IH|].
    destruct (Nat.ltb _ _); [discriminate | now apply IH].
Qed.

Lemma read_file_write_file (m m' : fs) (p : string) (data : list byte) :
  write_file m p data = Ok m' -> read_file m' p = Ok data.
Proof.
  unfold write_file, read_file, resolve.
  destruct (has_nul p); [discriminate|].
  destruct (String.eqb p ""); [discriminate|].
  destruct (Nat.leb _ _); [discriminate|].
  destruct (walk m [] (components p)) as [e|q] eqn:W; [discriminate|].
  intros H.
  assert (Hq : get m q <> Some Dir).
  { intros E. rewrite E in H. discriminate. }
  assert (m' = <[q := File data]> m) as ->.
  { destruct (get m q) as [[?|]|]; congruence. }
  rewrite (walk_insert_file m q data _ Hq [] W).
  rewrite get_insert_eq; [reflexivity|].
  intros ->. now apply Hq.
Qed.

(** What a successful write has done: the file is put at the location the
    path leads to, where no directory was. *)
Lemma write_file_ok (m m' : fs) (p : string) (data : list byte) :
  write_file m p data = Ok m' ->
  exists q,
    resolve m p = inr q
    /\ get m q <> Some Dir
    /\ m' = <[q := File data]> m.
Proof.
  unfold write_file.
  destruct (resolve m p) as [e|q]; [discriminate|].
  intros H. exists q. split; [reflexivity|].
  destruct (get m q) as [[?|]|]; try discriminate;
    injection H as <-; split; congruence.
Qed.

Lemma get_delete_ne (m : fs) (q p : loc) :
  p <> q -> get (delete q m) p = get m p.
Proof.
  intros H. destruct p as [|c p]; [reflexivity|].
  cbn [get]. apply lookup_delete_ne. congruence.
Qed.

(** Removing a file does not change where a path leads either. *)
Lemma walk_delete_file (m : fs) (q : loc) (data : list byte)
    (comps : list string) :
  get m q = Some (File data) ->
  forall cur q', walk m cur comps = inr q' ->
                 walk (delete q m) cur comps = inr q'.
Proof.
  intros Hq. induction comps as [|c rest IH]; intros cur q' H; [exact H|].
  cbn [walk] in *.
  destruct (get m cur) as [[data'|]|] eqn:E; try discriminate.
  assert (cur <> q) by (intros ->; congruence).
  rewrite get_delete_ne, E by assumption.
  destruct (is_dot c); [now apply IH|].
  destruct (is_dotdot c); [now apply IH|].
  destruct (Nat.ltb _ _); [discriminate | now apply IH].
Qed.

(** A directory is still there after [os.remove], whatever was removed. *)
Lemma isdir_remove (m m' : fs) (p d : string) :
  remove m p = Ok m' -> isdir m d = true -> isdir m' d = true.
Proof.
  unfold remove, isdir, stat.
  destruct (resolve m p) as [e|q]; [discriminate|].
  destruct (get m q) as [[data|]|] eqn:Hq; try discriminate.
  intros [= <-]. unfold resolve.
  destruct (has_nul d); [discriminate|].
  destruct (String.eqb d ""); [discriminate|].
  destruct (Nat.leb _ _); [discriminate|].
  destruct (walk m [] (components d)) as [e|q'] eqn:W; [discriminate|].
  rewrite (walk_delete_file m q data _ Hq [] q' W).
  destruct (get m q') as [[?|]|] eqn:Hq'; try discriminate.
  intros _. rewrite get_delete_ne, Hq'; [reflexivity|].
  intros ->. congruence.
Qed.

End FSFacts.

(** ** The handler, step by step *)

Module HandlerFacts.

Import Py Datetime Handler Layout.

Ltac run_monad :=
  cbv [bind ret raise lift fs_update fs_query log_event set_files get_files
       datetime_now subprocess_run glob_glob];
  cbn [files clock_reads trace fst snd].

Ltac reduce :=
  cbv beta iota zeta; cbn [files clock_reads trace fst snd].

Lemma files_record e st : files (record e st) = files st.
Proof. reflexivity. Qed.

Lemma files_tick st : files (tick st) = files st.
Proof. reflexivity. Qed.

Lemma files_with_files m st : files (with_files m st) = m.
Proof. reflexivity. Qed.

Lemma clock_record e st : clock_reads (record e st) = clock_reads st.
Proof. reflexivity. Qed.

Lemma clock_tick st : clock_reads (tick st) = S (clock_reads st).
Proof. reflexivity. Qed.

Lemma clock_with_files m st : clock_reads (with_files m st) = clock_reads st.
Proof. reflexivity. Qed.

Lemma trace_record e st : trace (record e st) = trace st ++ [e].
Proof. reflexivity. Qed.

Lemma trace_tick st : trace (tick st) = trace st.
Proof. reflexivity. Qed.

Lemma trace_with_files m st : trace (with_files m st) = trace st.
Proof. reflexivity. Qed.

Create Rewrite HintDb state.

#[export] Hint Rewrite files_record files_tick files_with_files
  clock_record clock_tick clock_with_files
  trace_record trace_tick trace_with_files : state.

(** [decode_audio_file], step by step. *)
Lemma decode_audio_file_eq (w : env) (audio filename : pyval) (st : state) :
  decode_audio_file w audio filename st =
  let p := input_path_at w filename st in
  match b64decode audio with
  | Raise e => (Raise e, tick st)
  | Ok data =>
      match FS.write_file (files st) p data with
      | Raise e => (Raise e, record (EvWrite p) (tick st))
      | Ok m => (Ok p, with_files m (record (EvWrite p) (tick st)))
      end
  end.
Proof.
  unfold decode_audio_file, input_path_at. run_monad.
  destruct (b64decode audio) as [data|e]; reduce; [|reflexivity].
  destruct (FS.write_file _ _ data); reflexivity.
Qed.

(** [encode_audio_file], step by step. *)
Lemma encode_audio_file_eq (p : string) (st : state) :
  encode_audio_file p st =
  match FS.read_file (files st) p with
  | Raise e => (Raise e, record (EvRead p) st)
  | Ok data => (Ok (Base64.b64encode data), record (EvRead p) st)
  end.
Proof.
  unfold encode_audio_file. run_monad.
  destruct (FS.read_file _ p); reflexivity.
Qed.

(** [remove_vocals_serverless], step by step. *)
Lemma remove_vocals_serverless_eq (w : env) (input_path : string)
    (method : pyval) (st : state) :
  remove_vocals_serverless w input_path method st =
  let output_dir := output_dir_at w st in
  let st1 := record (EvMakedirs output_dir) (tick st) in
  match FS.makedirs (files st) output_dir with
  | Raise e => (Raise e, st1)
  | Ok m1 =>
      match model_as_str method with
      | Raise e => (Raise e, with_files m1 st1)
      | Ok model =>
          let command := demucs_command w model output_dir input_path in
          let run := tool w command m1 in
          let st2 :=
            with_files (fs_after run)
                       (record (EvRun command timeout) (with_files m1 st1)) in
          if (timeout * 1000000 <? duration_us run)%Z
          then (Raise (timeout_expired command timeout), st2)
          else if negb (returncode run =? 0)%Z
          then (Raise (Exn RuntimeError
                         ("Demucs processing failed: " +:+ stderr run)), st2)
          else
            let primary := primary_pattern output_dir model input_path in
            let fallback := fallback_pattern output_dir in
            let st3 := record (EvGlob primary false) st2 in
            match glob w (fs_after run) primary false with
            | p :: _ => (Ok p, st3)
            | [] =>
                let st4 := record (EvGlob fallback true) st3 in
                match glob w (fs_after run) fallback true with
                | p :: _ => (Ok p, st4)
                | [] =>
                    (Raise (Exn RuntimeError
                              "Could not find Demucs output file"), st4)
                end
            end
      end
  end.
Proof.
  unfold remove_vocals_serverless, output_dir_at, primary_pattern,
    fallback_pattern. run_monad.
  destruct (FS.makedirs _ _) as [m1|e]; reduce; [|reflexivity].
  destruct (model_as_str method) as [model|e]; reduce; [|reflexivity].
  destruct (_ <? _)%Z; reduce; [reflexivity|].
  destruct (negb _); reduce; [reflexivity|].
  destruct (glob w _ _ false) as [|p ps]; reduce; [|reflexivity].
  destruct (glob w _ _ true) as [|p' ps']; reflexivity.
Qed.

(** Cleaning up never raises and does not read the clock. *)
Lemma cleanup_file_ok (p : string) (st : state) :
  fst (cleanup_file p st) = Ok tt
  /\ clock_reads (snd (cleanup_file p st)) = clock_reads st.
Proof.
  unfold cleanup_file, swallow. run_monad.
  destruct (FS.exists_ _ p); reduce; [|split; reflexivity].
  destruct (FS.isfile _ p); reduce.
  - destruct (FS.remove _ p); split; reflexivity.
  - destruct (FS.isdir _ p); reduce; [|split; reflexivity].
    destruct (FS.rmtree _ p); split; reflexivity.
Qed.

Lemma cleanup_files_ok (ps : list string) (st : state) :
  fst (cleanup_files ps st) = Ok tt
  /\ clock_reads (snd (cleanup_files ps st)) = clock_reads st.
Proof.
  revert st. induction ps as [|p ps IH]; intros st; [split; reflexivity|].
  cbn [cleanup_files]. unfold bind.
  destruct (cleanup_file_ok p st) as [E1 E2].
  destruct (cleanup_file p st) as [r st']. cbn [fst snd] in *. subst r.
  destruct (IH st') as [E3 E4]. split; [exact E3 | congruence].
Qed.

(** [process], step by step. *)
Lemma process_eq (w : env) (start_time : datetime) (input_path : string)
    (filename method : pyval) (st : state) :
  process w start_time input_path filename method st =
  match remove_vocals_serverless w input_path method st with
  | (Raise e, st1) => (Raise e, st1)
  | (Ok output_path, st1) =>
      let st2 := record (EvRead output_path) st1 in
      match FS.read_file (files st1) output_path with
      | Raise e => (Raise e, st2)
      | Ok data =>
          match filename with
          | PStr name =>
              (Ok (success_response w start_time (Base64.b64encode data)
                     name method st2),
               snd (cleanup_files
                      [input_path; PosixPath.dirname output_path]
                      (tick (tick st2))))
          | _ =>
              (Raise (Exn TypeError
                        ("expected str, bytes or os.PathLike object, not "
                         +:+ type_name filename)), tick st2)
          end
      end
  end.
Proof.
  unfold process. unfold bind at 1.
  destruct (remove_vocals_serverless w input_path method st)
    as [[output_path|e] st1]; [|reflexivity].
  unfold bind at 1. rewrite encode_audio_file_eq.
  destruct (FS.read_file _ output_path) as [data|e]; [|reflexivity].
  run_monad. unfold splitext_val.
  destruct filename; reduce; try reflexivity.
  pose proof (cleanup_files_ok [input_path; PosixPath.dirname output_path]
                (tick (tick (record (EvRead output_path) st1)))) as [E _].
  destruct (cleanup_files _ _) as [r st']. cbn [fst snd] in *. subst r.
  reflexivity.
Qed.

(** The exception clause answers with a failure response, after at most
    one attempt to remove the input file. *)
Lemma on_exception_eq (w : env) (start_time : datetime)
    (input_path : option string) (e : exn) (st : state) :
  fst (on_exception w start_time input_path e st)
  = failure_response w start_time e st.
Proof.
  unfold on_exception, failure_response. cbn [fst].
  destruct input_path as [p|]; [|reflexivity].
  destruct (negb (String.eqb p "")); [|reflexivity].
  unfold swallow. run_monad.
  destruct (FS.remove _ p); reflexivity.
Qed.

(** The paths the handler makes up, spelled out. *)
Lemma input_path_at_eq (w : env) (filename : pyval) (st : state) :
  input_path_at w filename st
  = "/tmp/vocal_removal/input_"
    +:+ strftime (now w (clock_reads st)) +:+ "_" +:+ str filename.
Proof. reflexivity. Qed.

Lemma output_dir_at_eq (w : env) (st : state) :
  output_dir_at w st
  = "/tmp/vocal_removal/demucs_output_" +:+ strftime (now w (clock_reads st)).
Proof. reflexivity. Qed.

(** What a successful [decode_audio_file] has done. *)
Lemma decode_audio_file_ok (w : env) (audio filename : pyval)
    (st st1 : state) (p : string) :
  decode_audio_file w audio filename st = (Ok p, st1) ->
  p = input_path_at w filename st
  /\ clock_reads st1 = S (clock_reads st)
  /\ trace st1 = trace st ++ [EvWrite p]
  /\ exists data,
       b64decode audio = Ok data
       /\ FS.write_file (files st) p data = Ok (files st1).
Proof.
  rewrite decode_audio_file_eq. cbv zeta.
  destruct (b64decode audio) as [data|e]; [|discriminate].
  destruct (FS.write_file _ _ data) as [m|e] eqn:W; [|discriminate].
  intros [= <- <-]. repeat split. now exists data.
Qed.

(** What a successful [remove_vocals_serverless] has done before it
    searched for the artifact. *)
Lemma remove_vocals_serverless_ok (w : env) (input_path : string)
    (method : pyval) (st st2 : state) (output_path : string) :
  remove_vocals_serverless w input_path method st = (Ok output_path, st2) ->
  exists model searches,
    method = PStr model
    /\ clock_reads st2 = S (clock_reads st)
    /\ trace st2
       = trace st
         ++ EvMakedirs (output_dir_at w st)
         :: EvRun (demucs_command w model (output_dir_at w st) input_path)
                  timeout
         :: searches.
Proof.
  rewrite remove_vocals_serverless_eq. cbv zeta.
  destruct (FS.makedirs _ _) as [m1|e]; [|discriminate].
  destruct method as [| | |model| |]; cbn [model_as_str]; try discriminate.
  destruct (_ <? _)%Z; [discriminate|].
  destruct (negb _); [discriminate|].
  destruct (glob w _ _ false) as [|p1 ps1].
  - destruct (glob w _ _ true) as [|p2 ps2]; [discriminate|].
    intros [= <- <-]. eexists model, _. repeat split.
    autorewrite with state. rewrite <- !app_assoc. reflexivity.
  - intros [= <- <-]. eexists model, _. repeat split.
    autorewrite with state. rewrite <- !app_assoc. reflexivity.
Qed.

Lemma cleanup_file_trace (p : string) (st : state) :
  exists evs, trace (snd (cleanup_file p st)) = trace st ++ evs.
Proof.
  unfold cleanup_file, swallow. run_monad.
  destruct (FS.exists_ _ p); reduce; [|exists []; now rewrite app_nil_r].
  destruct (FS.isfile _ p); reduce.
  - exists [EvRemove p]. destruct (FS.remove _ p); reflexivity.
  - destruct (FS.isdir _ p); reduce; [|exists []; now rewrite app_nil_r].
    exists [EvRmtree p]. destruct (FS.rmtree _ p); reflexivity.
Qed.

Lemma cleanup_files_trace (ps : list string) (st : state) :
  exists evs, trace (snd (cleanup_files ps st)) = trace st ++ evs.
Proof.
  revert st. induction ps as [|p ps IH]; intros st.
  - exists []. cbn. now rewrite app_nil_r.
  - cbn [cleanup_files]. unfold bind.
    destruct (cleanup_file_ok p st) as [E1 _].
    destruct (cleanup_file_trace p st) as [evs1 E2].
    destruct (cleanup_file p st) as [r st']. cbn [fst snd] in *. subst r.
    destruct (IH st') as [evs2 E3].
    exists (evs1 ++ evs2). now rewrite E3, E2, app_assoc.
Qed.

(** The exception clause tries to remove the input file once. *)
Lemma on_exception_trace (w : env) (start_time : datetime) (p : string)
    (e : exn) (st : state) :
  String.eqb p "" = false ->
  trace (snd (on_exception w start_time (Some p) e st))
  = trace st ++ [EvRemove p].
Proof.
  intros H. unfold on_exception. rewrite H. cbn [negb snd].
  unfold swallow. run_monad.
  destruct (FS.remove _ p); reflexivity.
Qed.

Lemma input_path_at_nonempty (w : env) (filename : pyval) (st : state) :
  String.eqb (input_path_at w filename st) "" = false.
Proof. reflexivity. Qed.

(** What a job that got a success response went through. *)
Lemma handler_success (w : env) (job : dict) (st st' : state) (r : response) :
  handler w job st = (r, st') ->
  field r "success" = Some (RBool true) ->
  exists audio name method input_path st1 output_path st2 data,
    get_params job = Ok (Params audio (PStr name) method)
    /\ decode_audio_file w audio (PStr name) (tick st) = (Ok input_path, st1)
    /\ remove_vocals_serverless w input_path method st1
       = (Ok output_path, st2)
    /\ FS.read_file (files st2) output_path = Ok data
    /\ r = success_response w (now w (clock_reads st))
             (Base64.b64encode data) name method
             (record (EvRead output_path) st2)
    /\ st' = snd (cleanup_files [input_path; PosixPath.dirname output_path]
                    (tick (tick (record (EvRead output_path) st2)))).
Proof.
  unfold handler.
  destruct (get_params job) as [[audio filename method|r0]|e] eqn:G.
  - destruct (decode_audio_file w audio filename (tick st))
      as [[input_path|e] st1] eqn:D.
    + rewrite process_eq.
      destruct (remove_vocals_serverless w input_path method st1)
        as [[output_path|e] st2] eqn:S.
      * cbv zeta.
        destruct (FS.read_file (files st2) output_path) as [data|e] eqn:R.
        -- destruct filename as [| | |name| |];
             try (intros H F; apply (f_equal fst) in H;
                  rewrite on_exception_eq in H; cbn [fst] in H; subst r;
                  discriminate).
           intros [= <- <-] _.
           now exists audio, name, method, input_path, st1, output_path,
             st2, data.
        -- intros H F. apply (f_equal fst) in H.
           rewrite on_exception_eq in H. cbn [fst] in H. subst r.
           discriminate.
      * intros H F. apply (f_equal fst) in H.
        rewrite on_exception_eq in H. cbn [fst] in H. subst r. discriminate.
    + intros H F. apply (f_equal fst) in H.
      rewrite on_exception_eq in H. cbn [fst] in H. subst r. discriminate.
  - unfold get_params in G.
    destruct (dict_get_default job "input" (PDict [])); try discriminate.
    destruct (negb _); [|discriminate]. injection G as <-.
    intros [= <- <-]. discriminate.
  - intros H F. apply (f_equal fst) in H.
    rewrite on_exception_eq in H. cbn [fst] in H. subst r. discriminate.
Qed.

End HandlerFacts.

(** ** What a call of the handler comes to *)

Module ShapeFacts.

Import Py Datetime Handler Layout HandlerFacts.

Lemma get_params_filename (job : dict) (audio filename method : pyval) :
  get_params job = Ok (Params audio filename method) ->
  filename = filename_of job.
Proof.
  unfold get_params, filename_of.
  destruct (dict_get_default job "input" (PDict [])); try discriminate.
  destruct (negb _); [discriminate|]. now intros [= _ <- _].
Qed.

(** Every exception the handler can meet has a text. *)
Lemma a2b_loop_error (s : list ascii) :
  forall quad_pos leftchar pads out e,
    Base64.a2b_loop s quad_pos leftchar pads out = Raise e ->
    exn_str e <> "".
Proof.
  induction s as [|c s IH]; intros q lc p out e.
  - cbn [Base64.a2b_loop].
    destruct q as [|[|q]]; intros [= <-]; discriminate.
  - cbn [Base64.a2b_loop].
    destruct (Ascii.eqb c Base64.BASE64_PAD).
    + destruct (2 <=? q)%nat; [|apply IH].
      destruct (4 <=? q + S p)%nat; [discriminate | apply IH].
    + destruct (Base64.a2b c) as [v|]; [|apply IH].
      destruct q as [|[|[|q]]]; apply IH.
Qed.

Lemma b64decode_error (v : pyval) (e : exn) :
  b64decode v = Raise e -> exn_str e <> "".
Proof.
  destruct v; cbn [b64decode]; try (intros [= <-]; discriminate).
  unfold Base64.b64decode, Base64.a2b_base64.
  destruct (Base64.is_ascii s); [apply a2b_loop_error|].
  intros [= <-]. discriminate.
Qed.

Lemma oserror_nonempty (e : FS.errno) (p : string) :
  exn_str (FS.oserror e p) <> "".
Proof. destruct e; discriminate. Qed.

Lemma write_file_error (m : FS.fs) (p : string) (data : list byte) (e : exn) :
  FS.write_file m p data = Raise e -> exn_str e <> "".
Proof.
  unfold FS.write_file.
  destruct (FS.resolve m p) as [x|q];
    [intros [= <-]; first [apply oserror_nonempty | discriminate]|].
  destruct (FS.get m q) as [[?|]|]; try discriminate.
  intros [= <-]. first [apply oserror_nonempty | discriminate].
Qed.

Lemma read_file_error (m : FS.fs) (p : string) (e : exn) :
  FS.read_file m p = Raise e -> exn_str e <> "".
Proof.
  unfold FS.read_file.
  destruct (FS.resolve m p) as [x|q];
    [intros [= <-]; first [apply oserror_nonempty | discriminate]|].
  destruct (FS.get m q) as [[?|]|]; try discriminate;
    intros [= <-]; first [apply oserror_nonempty | discriminate].
Qed.

Lemma makedirs_error (m : FS.fs) (p : string) (e : exn) :
  FS.makedirs m p = Raise e -> exn_str e <> "".
Proof.
  unfold FS.makedirs.
  destruct (FS.has_nul p); [intros [= <-]; first [apply oserror_nonempty | discriminate]|].
  destruct (String.eqb p ""); [intros [= <-]; first [apply oserror_nonempty | discriminate]|].
  destruct (Nat.leb _ _); [intros [= <-]; first [apply oserror_nonempty | discriminate]|].
  destruct (FS.mkdir_p m [] (FS.components p)); [|discriminate].
  intros [= <-]. first [apply oserror_nonempty | discriminate].
Qed.

Lemma get_params_error (job : dict) (e : exn) :
  get_params job = Raise e -> exn_str e <> "".
Proof.
  unfold get_params.
  destruct (dict_get_default job "input" (PDict []));
    try (intros [= <-]; discriminate).
  destruct (negb _); discriminate.
Qed.

Lemma decode_audio_file_error (w : env) (audio filename : pyval)
    (st st1 : state) (e : exn) :
  decode_audio_file w audio filename st = (Raise e, st1) -> exn_str e <> "".
Proof.
  rewrite decode_audio_file_eq. cbv zeta.
  destruct (b64decode audio) as [data|e'] eqn:B.
  - destruct (FS.write_file _ _ data) as [m|e'] eqn:W; [discriminate|].
    intros [= <- _]. apply (write_file_error _ _ _ _ W).
  - intros [= <- _]. apply (b64decode_error _ _ B).
Qed.

Lemma remove_vocals_serverless_error (w : env) (input_path : string)
    (method : pyval) (st st1 : state) (e : exn) :
  remove_vocals_serverless w input_path method st = (Raise e, st1) ->
  exn_str e <> "".
Proof.
  rewrite remove_vocals_serverless_eq. cbv zeta.
  destruct (FS.makedirs _ _) as [m1|e'] eqn:Mk;
    [|intros [= <- _]; apply (makedirs_error _ _ _ Mk)].
  destruct method; cbn [model_as_str]; try (intros [= <- _]; discriminate).
  destruct (_ <? _)%Z; [intros [= <- _]; discriminate|].
  destruct (negb _); [intros [= <- _]; discriminate|].
  destruct (glob w _ _ false); [|discriminate].
  destruct (glob w _ _ true); [|discriminate].
  intros [= <- _]. discriminate.
Qed.

Lemma handler_outcome (w : env) (job : dict) (st : state) :
  outcome w job st (fst (handler w job st)).
Proof.
  unfold handler.
  destruct (get_params job) as [[audio filename method|r]|e] eqn:G.
  - assert (Hearly : early_return job = false)
      by (unfold early_return; now rewrite G).
    destruct (decode_audio_file w audio filename (tick st))
      as [[input_path|e] st1] eqn:D.
    + rewrite process_eq.
      destruct (remove_vocals_serverless w input_path method st1)
        as [[output_path|e] st2] eqn:S.
      * cbv zeta.
        destruct (FS.read_file (files st2) output_path) as [data|e] eqn:R.
        -- destruct filename as [| | |name| |] eqn:F;
             try (rewrite on_exception_eq; apply Failed;
                  [assumption | discriminate]).
           cbn [fst]. apply Succeeded; [assumption|].
           symmetry. now apply (get_params_filename _ _ _ _ G).
        -- rewrite on_exception_eq. apply Failed; [assumption|].
           apply (read_file_error _ _ _ R).
      * rewrite on_exception_eq. apply Failed; [assumption|].
        apply (remove_vocals_serverless_error _ _ _ _ _ _ S).
    + rewrite on_exception_eq. apply Failed; [assumption|].
      apply (decode_audio_file_error _ _ _ _ _ _ D).
  - cbn [fst]. now apply Early.
  - rewrite on_exception_eq. apply Failed.
    + unfold early_return. now rewrite G.
    + apply (get_params_error _ _ G).
Qed.

(** Every response with [success] false carries an [error] text that is
    not empty. *)
Lemma failure_error_nonempty (w : env) (job : dict) (st : state) :
  success_flag (fst (handler w job st)) = Some false ->
  exists text,
    field (fst (handler w job st)) "error" = Some (RStr text)
    /\ text <> "".
Proof.
  destruct (handler_outcome w job st) as [r G | e st1 _ N | data name m st1 _ _].
  - unfold get_params in G.
    destruct (dict_get_default job "input" (PDict [])); try discriminate.
    destruct (negb _); [|discriminate]. injection G as <-. discriminate.
  - intros _. now exists (exn_str e).
  - discriminate.
Qed.

End ShapeFacts.

(** ** Names made of plain characters *)

Module NameFacts.

Import Names.

Lemma string_of_list_ascii_app (a b : list ascii) :
  string_of_list_ascii (a ++ b)
  = string_of_list_ascii a +:+ string_of_list_ascii b.
Proof.
  induction a as [|c a IH]; [reflexivity|].
  change (String c (string_of_list_ascii (a ++ b))
          = String c (string_of_list_ascii a +:+ string_of_list_ascii b)).
  now f_equal.
Qed.

Lemma plain_name_append (a b : string) :
  plain_name (a +:+ b) = plain_name a && plain_name b.
Proof.
  unfold plain_name. now rewrite StringFacts.list_ascii_app, forallb_app.
Qed.

(** A text of plain characters is one component and has no NUL. *)
Lemma split_sep_plain (s cur : list ascii) :
  forallb name_char s = true ->
  FS.split_sep s cur = [string_of_list_ascii (rev cur ++ s)].
Proof.
  revert cur. induction s as [|c s IH]; intros cur H.
  - cbn. now rewrite app_nil_r.
  - cbn [forallb] in H. apply andb_prop in H as [Hc H].
    unfold name_char in Hc. apply andb_prop in Hc as [Hc _].
    apply negb_true_iff in Hc.
    cbn [FS.split_sep]. rewrite Hc, (IH (c :: cur) H).
    cbn [rev]. now rewrite <- app_assoc.
Qed.

Lemma has_nul_plain (s : string) : plain_name s = true -> FS.has_nul s = false.
Proof.
  unfold plain_name, FS.has_nul.
  induction (list_ascii_of_string s) as [|c l IH]; [reflexivity|].
  cbn [forallb existsb]. intros H. apply andb_prop in H as [Hc H].
  unfold name_char in Hc. apply andb_prop in Hc as [_ Hc].
  apply negb_true_iff in Hc. now rewrite Hc, IH.
Qed.

(** Decimal numbers and time stamps are plain. *)
Lemma string_of_uint_plain (u : Decimal.uint) :
  plain_name (NilEmpty.string_of_uint u) = true.
Proof.
  unfold plain_name.
  induction u; cbn [NilEmpty.string_of_uint list_ascii_of_string forallb];
    try reflexivity; rewrite IHu; reflexivity.
Qed.

Lemma zeros_plain (n : nat) :
  plain_name (string_of_list_ascii (repeat "0"%char n)) = true.
Proof.
  unfold plain_name. rewrite list_ascii_of_string_of_list_ascii.
  induction n as [|n IH]; [reflexivity|].
  cbn [repeat forallb]. now rewrite IH.
Qed.

Lemma pad_plain (width n : nat) : plain_name (Datetime.pad width n) = true.
Proof.
  unfold Datetime.pad. rewrite plain_name_append, zeros_plain.
  destruct (Nat.to_uint n); try reflexivity; apply string_of_uint_plain.
Qed.

Lemma strftime_plain (d : Datetime.datetime) :
  plain_name (Datetime.strftime d) = true.
Proof.
  unfold Datetime.strftime.
  rewrite !plain_name_append, !pad_plain. reflexivity.
Qed.

Lemma has_nul_append (a b : string) :
  FS.has_nul (a +:+ b) = FS.has_nul a || FS.has_nul b.
Proof.
  unfold FS.has_nul. now rewrite StringFacts.list_ascii_app, existsb_app.
Qed.

Lemma split_sep_nonempty (s cur : list ascii) : FS.split_sep s cur <> [].
Proof.
  revert cur. induction s as [|c s IH]; intros cur; [discriminate|].
  cbn [FS.split_sep]. destruct (PosixPath.is_sep c); [discriminate | apply IH].
Qed.

(** Appending plain characters to a path extends its last component. *)
Lemma split_sep_app_plain (pre s cur : list ascii) :
  forallb name_char s = true ->
  FS.split_sep (pre ++ s) cur
  = removelast (FS.split_sep pre cur)
    ++ [List.last (FS.split_sep pre cur) "" +:+ string_of_list_ascii s].
Proof.
  intros H. revert cur. induction pre as [|c pre IH]; intros cur.
  - cbn [app FS.split_sep removelast List.last].
    rewrite (split_sep_plain s cur H). now rewrite string_of_list_ascii_app.
  - cbn [app FS.split_sep]. destruct (PosixPath.is_sep c); [|apply IH].
    rewrite IH.
    pose proof (split_sep_nonempty pre []) as N.
    destruct (FS.split_sep pre []) as [|x l]; [congruence|].
    reflexivity.
Qed.

Lemma fsencode_length_append (a b : string) :
  FS.fsencode_length (a +:+ b) = FS.fsencode_length a + FS.fsencode_length b.
Proof.
  unfold FS.fsencode_length.
  now rewrite StringFacts.list_ascii_app, map_app, list_sum_app.
Qed.

(** A name within [NAME_MAX] under the scratch root is a path within
    [PATH_MAX]. *)
Lemma path_under_temp_dir_fits (name : string) :
  FS.fsencode_length name <= FS.NAME_MAX ->
  Nat.leb FS.PATH_MAX (FS.fsencode_length ("/tmp/vocal_removal/" +:+ name))
  = false.
Proof.
  intros H. rewrite fsencode_length_append.
  replace (FS.fsencode_length "/tmp/vocal_removal/") with 19
    by (vm_compute; reflexivity).
  apply Nat.leb_gt. unfold FS.NAME_MAX in H. unfold FS.PATH_MAX. lia.
Qed.

(** The components of a plain name under the scratch root. *)
Lemma components_under_temp_dir (name : string) :
  plain_name name = true ->
  FS.components ("/tmp/vocal_removal/" +:+ name)
  = [""; "tmp"; "vocal_removal"; name].
Proof.
  intros H. unfold FS.components.
  rewrite StringFacts.list_ascii_app, (split_sep_app_plain _ _ [] H).
  replace (FS.split_sep (list_ascii_of_string "/tmp/vocal_removal/") [])
    with [""; "tmp"; "vocal_removal"; ""] by (vm_compute; reflexivity).
  cbn [removelast List.last app].
  now rewrite string_of_list_ascii_of_string.
Qed.

(** Where a plain name under the scratch root leads, if it leads anywhere:
    to that name in the scratch root. *)
Lemma resolve_plain_name (m : FS.fs) (name : string) (q : FS.loc) :
  plain_name name = true ->
  FS.is_dot name = false -> FS.is_dotdot name = false ->
  FS.resolve m ("/tmp/vocal_removal/" +:+ name) = inr q ->
  q = ["tmp"; "vocal_removal"; name].
Proof.
  intros Hname Hd Hdd. unfold FS.resolve.
  destruct (FS.has_nul _); [discriminate|].
  destruct (String.eqb _ ""); [discriminate|].
  destruct (Nat.leb _ _); [discriminate|].
  rewrite (components_under_temp_dir name Hname).
  cbn [FS.walk FS.get app].
  change (FS.is_dot "") with true.
  change (FS.is_dot "tmp") with false.
  change (FS.is_dotdot "tmp") with false.
  change (FS.is_dot "vocal_removal") with false.
  change (FS.is_dotdot "vocal_removal") with false.
  change (Nat.ltb FS.NAME_MAX (FS.fsencode_length "tmp")) with false.
  change (Nat.ltb FS.NAME_MAX (FS.fsencode_length "vocal_removal")) with false.
  cbn [FS.walk FS.get app].
  destruct (m !! ["tmp"]) as [[?|]|]; try discriminate.
  cbn [FS.walk FS.get app].
  destruct (m !! ["tmp"; "vocal_removal"]) as [[?|]|]; try discriminate.
  rewrite Hd, Hdd. destruct (Nat.ltb _ _); [discriminate|].
  now intros [= <-].
Qed.

End NameFacts.

(** ** The claims of the specification *)

Module Claims.

Import Py Datetime Handler Layout Spec HandlerFacts ShapeFacts.

(** Two ways to name the outcome of a run without computing its state. *)
Lemma pair_of_fst {A B} (x : A * B) (a : A) : fst x = a -> x = (a, snd x).
Proof. destruct x. cbn. now intros ->. Qed.

Lemma decoded_ok (w : env) (p : string) :
  fst (Stub.decoded w) = Ok p ->
  decode_audio_file w (PStr "TWFu") (PStr "test.wav") (tick Stub.fresh)
  = (Ok p, snd (Stub.decoded w)).
Proof. intros H. exact (pair_of_fst (Stub.decoded w) (Ok p) H). Qed.

Lemma files_before_run_ok (w : env) :
  is_ok (FS.makedirs (files (snd (Stub.decoded w))) Stub.test_output_dir)
  = true ->
  FS.makedirs (files (snd (Stub.decoded w))) Stub.test_output_dir
  = Ok (Stub.files_before_run w).
Proof.
  unfold Stub.files_before_run.
  destruct (FS.makedirs _ _); [reflexivity | discriminate].
Qed.

(** *** Jobs without a payload *)

(** Any job whose input is a mapping with no [audio_data], or with one that
    is empty, leaves through the early return: nothing is decoded, written
    or run, and the response is the bare error mapping. *)
Lemma handler_without_audio (w : env) (job : dict) (st : state) (r : response) :
  get_params job = Ok (Return r) ->
  handler w job st = ([("error", RStr "No audio data provided")], tick st).
Proof.
  unfold handler. intros G. rewrite G.
  unfold get_params in G.
  destruct (dict_get_default job "input" (PDict [])); try discriminate.
  destruct (negb _); [|discriminate]. now injection G as <-.
Qed.

(** C1: [handler] answers every job with a response, whatever goes wrong
    (the model returns a response for every job, state and world), but for
    the job [{"input": {}}], which has no [audio_data], the response is the
    bare mapping [{"error": ...}]: it has no [success] key, so it is not a
    response with [success] false. *)
Theorem missing_audio_data_has_no_success_flag (w : env) (st : state) :
  fst (handler w (Stub.job_of []) st)
  = [("error", RStr "No audio data provided")]
  /\ field (fst (handler w (Stub.job_of []) st)) "success" = None.
Proof. split; reflexivity. Qed.

(** C3: for the job [{"input": {}}] nothing is processed (no file is
    touched and no call leaves the process), and the response describes the
    error, but it carries neither the elapsed time nor a timestamp. *)
Theorem missing_audio_data_response_lacks_times (w : env) (st : state) :
  let res := handler w (Stub.job_of []) st in
  files (snd res) = files st
  /\ trace (snd res) = trace st
  /\ field (fst res) "error" = Some (RStr "No audio data provided")
  /\ field (fst res) "processing_time" = None
  /\ field (fst res) "timestamp" = None.
Proof. repeat split; reflexivity. Qed.

(** *** What stays under the scratch root *)

(** C2: on the documented job, with a tool that writes its stems where it
    is documented to, [handler] answers with a success response and leaves
    two directories it created under the scratch root: the output
    directory and the model directory in it. *)
Theorem scratch_left_behind_after_success :
  success_flag (fst Stub.run_ok) = Some true
  /\ FS.created (files Stub.fresh) (files (snd Stub.run_ok))
     = [["tmp"; "vocal_removal"; "demucs_output_20240102_030407";
         "htdemucs_ft"];
        ["tmp"; "vocal_removal"; "demucs_output_20240102_030407"]].
Proof. split; vm_compute; reflexivity. Qed.

(** The same happens when the tool fails or is killed: the exception clause
    removes the input file only, and the output directory stays. *)
Lemma scratch_left_behind_after_failure :
  success_flag (fst Stub.run_failing) = Some false
  /\ FS.created (files Stub.fresh) (files (snd Stub.run_failing))
     = [["tmp"; "vocal_removal"; "demucs_output_20240102_030407"]]
  /\ success_flag (fst Stub.run_hanging) = Some false
  /\ FS.created (files Stub.fresh) (files (snd Stub.run_hanging))
     = [["tmp"; "vocal_removal"; "demucs_output_20240102_030407"]].
Proof. repeat split; vm_compute; reflexivity. Qed.

(** This does not hang on the tool of the example: whenever the run of the
    tool has failed, what the exception clause does after it leaves every
    directory in place, the output directory among them. *)
Lemma on_exception_keeps_directories (w : env) (start_time : datetime)
    (input_path : option string) (e : exn) (st : state) (d : string) :
  FS.isdir (files st) d = true ->
  FS.isdir (files (snd (on_exception w start_time input_path e st))) d = true.
Proof.
  intros H. unfold on_exception. cbn [snd].
  destruct input_path as [p|]; [|exact H].
  destruct (negb (String.eqb p "")); [|exact H].
  unfold swallow. run_monad. cbv [record with_files tick]. cbn [files].
  destruct (FS.remove (files st) p) as [m'|e'] eqn:R; cbn [snd files].
  - apply (FSFacts.isdir_remove _ _ _ _ R H).
  - exact H.
Qed.

Lemma output_dir_survives_failure (w : env) (job : dict) (st st1 st2 : state)
    (audio filename method : pyval) (input_path : string) (e : exn) :
  get_params job = Ok (Params audio filename method) ->
  decode_audio_file w audio filename (tick st) = (Ok input_path, st1) ->
  remove_vocals_serverless w input_path method st1 = (Raise e, st2) ->
  FS.isdir (files st2) (output_dir_at w st1) = true ->
  FS.isdir (files (snd (handler w job st))) (output_dir_at w st1) = true.
Proof.
  intros G D S H. unfold handler. rewrite G, D, process_eq, S.
  now apply on_exception_keeps_directories.
Qed.

(** *** Response shapes *)

(** C8, as stated, fails: the success response of the documented job has
    the keys [method] and [gpu_used] where the specification has
    [profile_used] and [device_used], and the response of the job without a
    payload has neither shape. *)
Lemma response_shapes_counterexample :
  (success_flag (fst Stub.run_ok) = Some true
   /\ spec_success_shape (fst Stub.run_ok) = false
   /\ has_field (fst Stub.run_ok) "profile_used" = false
   /\ has_field (fst Stub.run_ok) "device_used" = false)
  /\ (spec_success_shape (fst Stub.run_empty) = false
      /\ spec_failure_shape (fst Stub.run_empty) = false).
Proof. repeat split; vm_compute; reflexivity. Qed.

(** C8, amended: every job that does not leave through the early return
    gets exactly one of two responses: with [success] true, the keys
    [success], [processed_audio], [processing_time], [method], [gpu_used],
    [output_filename], [timestamp], [serverless]; or with [success] false,
    the keys [success], [error], [processing_time], [timestamp],
    [serverless]. *)
Theorem response_has_one_of_two_shapes (w : env) (job : dict) (st : state) :
  early_return job = false ->
  let r := fst (handler w job st) in
  (success_flag r = Some true /\ fields r = success_fields)
  \/ (success_flag r = Some false /\ fields r = failure_fields).
Proof.
  intros Hearly r. subst r.
  destruct (handler_outcome w job st)
    as [r G | e st1 _ _ | data name m st1 _ _].
  - unfold early_return in Hearly. rewrite G in Hearly. discriminate.
  - right. split; reflexivity.
  - left. split; reflexivity.
Qed.

Lemma response_has_one_of_two_shapes_witness :
  early_return Stub.job_test = false
  /\ ((success_flag (fst Stub.run_failing) = Some true
       /\ fields (fst Stub.run_failing) = success_fields)
      \/ (success_flag (fst Stub.run_failing) = Some false
          /\ fields (fst Stub.run_failing) = failure_fields)).
Proof.
  split; [vm_compute; reflexivity|].
  apply (response_has_one_of_two_shapes (Stub.world Stub.failing)
           Stub.job_test Stub.fresh).
  vm_compute. reflexivity.
Defined.

(** *** The separation tool *)

(** The output directory has a name that does not end with a separator, so
    for a model and an input stem that are plain names the first pattern
    is [<output_dir>/<model>/<stem>/no_vocals.*], letter for letter. *)
Lemma output_dir_at_ends_plain (w : env) (st : state) :
  output_dir_at w st <> ""
  /\ PosixPath.endswith_sep (output_dir_at w st) = false.
Proof.
  rewrite output_dir_at_eq.
  destruct (PathFacts.strftime_ends_plain (now w (clock_reads st))) as [N E].
  split; [now apply PathFacts.append_nonempty_r|].
  now rewrite PathFacts.endswith_sep_append.
Qed.

Lemma primary_pattern_plain (w : env) (st : state) (model input_path : string) :
  PathFacts.plain model ->
  PathFacts.plain (fst (PosixPath.splitext (PosixPath.basename input_path))) ->
  primary_pattern (output_dir_at w st) model input_path
  = output_dir_at w st +:+ "/" +:+ model +:+ "/"
    +:+ fst (PosixPath.splitext (PosixPath.basename input_path))
    +:+ "/no_vocals.*".
Proof.
  intros Hm Hs. unfold primary_pattern.
  destruct (output_dir_at_ends_plain w st) as [N E].
  now apply PathFacts.join_plain.
Qed.

Lemma fallback_pattern_eq (w : env) (st : state) :
  fallback_pattern (output_dir_at w st)
  = output_dir_at w st +:+ "/**/no_vocals.*".
Proof.
  unfold fallback_pattern, PosixPath.join. cbn [fold_left].
  destruct (output_dir_at_ends_plain w st) as [N E].
  rewrite (PathFacts.join_step_plain _ "**" N E eq_refl).
  rewrite PathFacts.join_step_plain.
  - now rewrite !PathFacts.append_assoc.
  - now apply PathFacts.append_nonempty_l.
  - now rewrite PathFacts.endswith_sep_append.
  - reflexivity.
Qed.

(** C5: after a run of the tool that ended in time with status 0, the
    artifact is looked for at [<output_dir>/<model>/<input stem>/no_vocals.*];
    the recursive search for [no_vocals.*] under the output directory is made
    exactly when the first search found nothing; the first match of the
    search that found something is returned, and when neither did the call
    raises that the output file could not be found. *)
Theorem separate_search_order (w : env) (input_path model : string)
    (st : state) (m1 : FS.fs) :
  let output_dir := output_dir_at w st in
  let command := demucs_command w model output_dir input_path in
  let primary := primary_pattern output_dir model input_path in
  let fallback := fallback_pattern output_dir in
  FS.makedirs (files st) output_dir = Ok m1 ->
  let run := tool w command m1 in
  (duration_us run <= timeout * 1000000)%Z ->
  returncode run = 0%Z ->
  let found := glob w (fs_after run) primary false in
  let found' := glob w (fs_after run) fallback true in
  let res := remove_vocals_serverless w input_path (PStr model) st in
  fst res =
    match found, found' with
    | p :: _, _ => Ok p
    | [], p :: _ => Ok p
    | [], [] => Raise (Exn RuntimeError "Could not find Demucs output file")
    end
  /\ trace (snd res) =
       trace st
       ++ [EvMakedirs output_dir; EvRun command timeout; EvGlob primary false]
       ++ match found with
          | [] => [EvGlob fallback true]
          | _ :: _ => []
          end.
Proof.
  intros output_dir command primary fallback Hmk run Hdur Hrc found found' res.
  subst res. rewrite remove_vocals_serverless_eq. reduce.
  fold output_dir. rewrite Hmk. cbn [model_as_str]. reduce.
  fold command. fold run.
  apply Z.ltb_ge in Hdur. rewrite Hdur, Hrc. cbn [Z.eqb negb]. reduce.
  fold primary. fold found. fold fallback. fold found'.
  destruct found as [|p ps]; [destruct found' as [|p' ps']|];
    reduce; autorewrite with state; rewrite <- ?app_assoc;
    split; reflexivity.
Qed.


(** With a tool that writes [<out>/<model>/test/no_vocals.mp3], the first
    search finds nothing and the recursive one finds the artifact. *)
Example fallback_search_finds_other_layout :
  success_flag (fst Stub.run_other_layout) = Some true
  /\ trace (snd Stub.run_other_layout)
     = [EvWrite Stub.test_input;
        EvMakedirs Stub.test_output_dir;
        EvRun (demucs_command (Stub.world Stub.failing) "htdemucs_ft"
                 Stub.test_output_dir Stub.test_input) 300;
        EvGlob (Stub.test_output_dir
                +:+ "/htdemucs_ft/input_20240102_030406_test/no_vocals.*")
               false;
        EvGlob (Stub.test_output_dir +:+ "/**/no_vocals.*") true;
        EvRead (Stub.test_output_dir +:+ "/htdemucs_ft/test/no_vocals.mp3");
        EvRemove Stub.test_input;
        EvRmtree (Stub.test_output_dir +:+ "/htdemucs_ft/test")].
Proof. split; vm_compute; reflexivity. Qed.

Lemma separate_search_order_witness :
  FS.makedirs (files (snd (Stub.decoded (Stub.world (Stub.demucs [x01])))))
              Stub.test_output_dir
  = Ok (Stub.files_before_run (Stub.world (Stub.demucs [x01])))
  /\ fst (remove_vocals_serverless (Stub.world (Stub.demucs [x01]))
            Stub.test_input (PStr "htdemucs_ft")
            (snd (Stub.decoded (Stub.world (Stub.demucs [x01])))))
     = Ok (Stub.test_output_dir
           +:+ "/htdemucs_ft/input_20240102_030406_test/no_vocals.mp3").
Proof.
  assert (Hmk : FS.makedirs
                  (files (snd (Stub.decoded (Stub.world (Stub.demucs [x01])))))
                  Stub.test_output_dir
                = Ok (Stub.files_before_run (Stub.world (Stub.demucs [x01]))))
    by (apply files_before_run_ok; vm_compute; reflexivity).
  split; [exact Hmk|].
  pose proof (separate_search_order (Stub.world (Stub.demucs [x01]))
                Stub.test_input "htdemucs_ft"
                (snd (Stub.decoded (Stub.world (Stub.demucs [x01]))))
                (Stub.files_before_run (Stub.world (Stub.demucs [x01]))))
    as H.
  cbv zeta in H.
  destruct H as [H _];
    [exact Hmk | vm_compute; discriminate | vm_compute; reflexivity |].
  rewrite H. vm_compute. reflexivity.
Defined.

(** C4, as stated, fails: the error raised for a failed run carries the
    standard error of the tool, and not its standard output. *)
Lemma nonzero_exit_counterexample :
  fst (remove_vocals_serverless (Stub.world Stub.failing) Stub.test_input
         (PStr "htdemucs_ft") (snd (Stub.decoded (Stub.world Stub.failing))))
  = Raise (Exn RuntimeError "Demucs processing failed: FATAL: unknown model")
  /\ stdout (Stub.failing [] ∅) = "Selected model is a bag of 4 models"
  /\ contains "Selected model is a bag of 4 models"
       "Demucs processing failed: FATAL: unknown model" = false.
Proof. repeat split; vm_compute; reflexivity. Qed.

(** C4, amended: when the tool ends in time with a status that is not 0,
    [remove_vocals_serverless] raises an error whose text is
    [Demucs processing failed: ] followed by the captured standard error
    (the standard output is only logged); after the run the handler makes
    no search for the artifact, only the removal of the input file, and the
    response is a failure whose [error] is that text. *)
Theorem nonzero_exit_fails (w : env) (job : dict) (st st1 : state)
    (audio filename : pyval) (model input_path : string) (m1 : FS.fs) :
  get_params job = Ok (Params audio filename (PStr model)) ->
  decode_audio_file w audio filename (tick st) = (Ok input_path, st1) ->
  let output_dir := output_dir_at w st1 in
  let command := demucs_command w model output_dir input_path in
  FS.makedirs (files st1) output_dir = Ok m1 ->
  let run := tool w command m1 in
  (duration_us run <= timeout * 1000000)%Z ->
  returncode run <> 0%Z ->
  let text := "Demucs processing failed: " +:+ stderr run in
  fst (remove_vocals_serverless w input_path (PStr model) st1)
  = Raise (Exn RuntimeError text)
  /\ contains (stderr run) text = true
  /\ trace (snd (handler w job st))
     = trace st1
       ++ [EvMakedirs output_dir; EvRun command timeout; EvRemove input_path]
  /\ field (fst (handler w job st)) "success" = Some (RBool false)
  /\ field (fst (handler w job st)) "error" = Some (RStr text).
Proof.
  intros G D output_dir command Hmk run Hdur Hrc text.
  destruct (decode_audio_file_ok _ _ _ _ _ _ D) as (Hp & _ & _ & _).
  assert (S : remove_vocals_serverless w input_path (PStr model) st1
              = (Raise (Exn RuntimeError text),
                 with_files (fs_after run)
                   (record (EvRun command timeout)
                      (with_files m1
                         (record (EvMakedirs output_dir) (tick st1)))))).
  { rewrite remove_vocals_serverless_eq. cbv zeta.
    fold output_dir. rewrite Hmk. cbn [model_as_str].
    fold command. fold run.
    apply Z.ltb_ge in Hdur. rewrite Hdur.
    apply Z.eqb_neq in Hrc. rewrite Hrc. reflexivity. }
  split; [now rewrite S|].
  split; [apply StringFacts.contains_append_r, StringFacts.contains_refl|].
  unfold handler. rewrite G, D, process_eq, S.
  split; [|split; [now rewrite on_exception_eq | now rewrite on_exception_eq]].
  rewrite on_exception_trace by (subst input_path; reflexivity).
  autorewrite with state. rewrite <- !app_assoc. reflexivity.
Qed.

Lemma nonzero_exit_fails_witness :
  get_params Stub.job_test
  = Ok (Params (PStr "TWFu") (PStr "test.wav") (PStr "htdemucs_ft"))
  /\ field (fst Stub.run_failing) "error"
     = Some (RStr "Demucs processing failed: FATAL: unknown model").
Proof.
  split; [vm_compute; reflexivity|].
  pose proof (nonzero_exit_fails (Stub.world Stub.failing) Stub.job_test
                Stub.fresh (snd (Stub.decoded (Stub.world Stub.failing)))
                (PStr "TWFu") (PStr "test.wav") "htdemucs_ft" Stub.test_input
                (Stub.files_before_run (Stub.world Stub.failing))) as H.
  cbv zeta in H.
  destruct H as (_ & _ & _ & _ & H).
  - vm_compute. reflexivity.
  - apply decoded_ok. vm_compute. reflexivity.
  - apply files_before_run_ok. vm_compute. reflexivity.
  - vm_compute. discriminate.
  - vm_compute. discriminate.
  - vm_compute in H. vm_compute. exact H.
Defined.

(** C6: the tool is run with a time limit of 300 seconds; when it is still
    running after that, [remove_vocals_serverless] raises the timeout error
    of [subprocess], the tool is run once and not again, and the response is
    a failure whose [error] says that the command timed out after 300
    seconds. *)
Theorem timeout_fails (w : env) (job : dict) (st st1 : state)
    (audio filename : pyval) (model input_path : string) (m1 : FS.fs) :
  get_params job = Ok (Params audio filename (PStr model)) ->
  decode_audio_file w audio filename (tick st) = (Ok input_path, st1) ->
  let output_dir := output_dir_at w st1 in
  let command := demucs_command w model output_dir input_path in
  FS.makedirs (files st1) output_dir = Ok m1 ->
  let run := tool w command m1 in
  (300 * 1000000 < duration_us run)%Z ->
  let e := timeout_expired command 300 in
  fst (remove_vocals_serverless w input_path (PStr model) st1) = Raise e
  /\ exn_cls e = TimeoutExpired
  /\ contains "timed out after 300 seconds" (exn_str e) = true
  /\ trace (snd (handler w job st))
     = trace st1
       ++ [EvMakedirs output_dir; EvRun command 300; EvRemove input_path]
  /\ field (fst (handler w job st)) "success" = Some (RBool false)
  /\ field (fst (handler w job st)) "error" = Some (RStr (exn_str e)).
Proof.
  intros G D output_dir command Hmk run Hdur e.
  destruct (decode_audio_file_ok _ _ _ _ _ _ D) as (Hp & _ & _ & _).
  assert (S : remove_vocals_serverless w input_path (PStr model) st1
              = (Raise e,
                 with_files (fs_after run)
                   (record (EvRun command 300)
                      (with_files m1
                         (record (EvMakedirs output_dir) (tick st1)))))).
  { rewrite remove_vocals_serverless_eq. cbv zeta.
    fold output_dir. rewrite Hmk. cbn [model_as_str].
    fold command. fold run.
    apply Z.ltb_lt in Hdur. unfold timeout. rewrite Hdur. reflexivity. }
  split; [now rewrite S|].
  split; [reflexivity|].
  split.
  { unfold e, timeout_expired. cbn [exn_str].
    do 2 apply StringFacts.contains_append_r. reflexivity. }
  unfold handler. rewrite G, D, process_eq, S.
  split; [|split; [now rewrite on_exception_eq | now rewrite on_exception_eq]].
  rewrite on_exception_trace by (subst input_path; reflexivity).
  autorewrite with state. rewrite <- !app_assoc. reflexivity.
Qed.

Lemma timeout_fails_witness :
  (300 * 1000000 < duration_us (Stub.hanging [] ∅))%Z
  /\ field (fst Stub.run_hanging) "success" = Some (RBool false).
Proof.
  split; [vm_compute; reflexivity|].
  pose proof (timeout_fails (Stub.world Stub.hanging) Stub.job_test
                Stub.fresh (snd (Stub.decoded (Stub.world Stub.hanging)))
                (PStr "TWFu") (PStr "test.wav") "htdemucs_ft" Stub.test_input
                (Stub.files_before_run (Stub.world Stub.hanging))) as H.
  cbv zeta in H.
  destruct H as (_ & _ & _ & _ & H & _).
  - vm_compute. reflexivity.
  - apply decoded_ok. vm_compute. reflexivity.
  - apply files_before_run_ok. vm_compute. reflexivity.
  - vm_compute. reflexivity.
  - vm_compute in H. vm_compute. exact H.
Defined.

(** A run that ends within the 300 seconds is not timed out. *)
Lemma within_timeout_no_timeout (w : env) (command : list string) (st : state) :
  (duration_us (tool w command (files st)) <= 300 * 1000000)%Z ->
  fst (subprocess_run w command timeout st) = Ok (tool w command (files st)).
Proof.
  intros H. unfold subprocess_run. run_monad.
  cbv [record with_files]. cbn [files].
  apply Z.ltb_ge in H. unfold timeout. now rewrite H.
Qed.

(** *** The payload codec *)

(** C7: for a payload that is canonical Base64 text, encoding the file that
    [decode_audio_file] has just written gives the payload back. *)
Theorem decode_encode_round_trip (w : env) (payload : string)
    (filename : pyval) (st st1 : state) (p : string) :
  Base64.is_canonical payload = true ->
  decode_audio_file w (PStr payload) filename st = (Ok p, st1) ->
  fst (encode_audio_file p st1) = Ok payload.
Proof.
  intros C D.
  destruct (decode_audio_file_ok _ _ _ _ _ _ D)
    as (_ & _ & _ & data & B & W).
  destruct (Base64Facts.b64encode_b64decode payload C) as (bs & B' & E).
  cbn [b64decode] in B. rewrite B' in B. injection B as ->.
  rewrite encode_audio_file_eq.
  rewrite (FSFacts.read_file_write_file _ _ _ _ W). cbn [fst].
  now rewrite E.
Qed.

Lemma decode_encode_round_trip_witness :
  Base64.is_canonical "TWFu" = true
  /\ fst (Stub.decoded (Stub.world Stub.failing)) = Ok Stub.test_input
  /\ fst (encode_audio_file Stub.test_input
            (snd (Stub.decoded (Stub.world Stub.failing))))
     = Ok "TWFu".
Proof.
  assert (D : fst (Stub.decoded (Stub.world Stub.failing))
              = Ok Stub.test_input) by (vm_compute; reflexivity).
  split; [vm_compute; reflexivity|]. split; [exact D|].
  apply (decode_encode_round_trip (Stub.world Stub.failing) "TWFu"
           (PStr "test.wav") (tick Stub.fresh)).
  - vm_compute. reflexivity.
  - apply decoded_ok. exact D.
Defined.

(** C9, as stated, fails, in four ways.  [decode_audio_file] does not reject
    an empty payload: it writes an empty file and returns its path.  It
    does not reject a text that is no Base64 either: the four characters
    of [!!!!] are skipped and an empty file is written.  The file it writes
    need not be new: a file of the same name, written in the same second,
    is overwritten.  And the file need not be inside the scratch root: a
    file name with separators leads out of it when the directory it names
    is there. *)
Lemma decode_audio_file_counterexample :
  (fst (decode_audio_file (Stub.world Stub.failing) (PStr "") (PStr "a.mp3")
          Stub.fresh)
   = Ok "/tmp/vocal_removal/input_20240102_030405_a.mp3"
   /\ FS.read_file
        (files (snd (decode_audio_file (Stub.world Stub.failing) (PStr "")
                       (PStr "a.mp3") Stub.fresh)))
        "/tmp/vocal_removal/input_20240102_030405_a.mp3"
      = Ok [])
  /\ (Base64.is_canonical "!!!!" = false
      /\ forallb Base64.is_alphabet (list_ascii_of_string "!!!!") = false
      /\ fst (decode_audio_file (Stub.world Stub.failing) (PStr "!!!!")
                (PStr "a.mp3") Stub.fresh)
         = Ok "/tmp/vocal_removal/input_20240102_030405_a.mp3"
      /\ FS.read_file
           (files (snd (decode_audio_file (Stub.world Stub.failing)
                          (PStr "!!!!") (PStr "a.mp3") Stub.fresh)))
           "/tmp/vocal_removal/input_20240102_030405_a.mp3"
         = Ok [])
  /\ (FS.read_file (files Stub.same_second) Stub.test_input
      = Ok [x4d; x61; x6e]
      /\ fst (decode_audio_file (Stub.world Stub.failing) (PStr "AQI=")
                (PStr "test.wav") Stub.same_second)
         = Ok Stub.test_input
      /\ FS.read_file
           (files (snd (decode_audio_file (Stub.world Stub.failing)
                          (PStr "AQI=") (PStr "test.wav") Stub.same_second)))
           Stub.test_input
         = Ok [x01; x02])
  /\ (fst (decode_audio_file (Stub.world Stub.failing) (PStr "TWFu")
             (PStr "x/../../escaped.wav") Stub.with_directory)
      = Ok "/tmp/vocal_removal/input_20240102_030405_x/../../escaped.wav"
      /\ files (snd (decode_audio_file (Stub.world Stub.failing) (PStr "TWFu")
                       (PStr "x/../../escaped.wav") Stub.with_directory))
         !! ["tmp"; "escaped.wav"]
         = Some (FS.File [x4d; x61; x6e])
      /\ FS.below ["tmp"; "vocal_removal"] ["tmp"; "escaped.wav"] = false).
Proof. repeat split; vm_compute; reflexivity. Qed.

(** C9, amended.  [decode_audio_file] makes no check that the payload is
    not empty.  It fails with the error of the decoder, and has written
    nothing, exactly when the decoder does not take the payload: when it
    is no text, holds a character outside ASCII, or is not well grouped
    (its alphabet characters do not fill whole groups of four up to the
    end or up to a closing pad; every other character is skipped).
    Whenever it fails, for the payload or for the file, no file has
    changed.  When it returns, the path is
    [/tmp/vocal_removal/input_<timestamp>_<filename>], the payload was
    decodable, the file at that path holds the decoded bytes, and the one
    location that path leads to is all that changed.  That location is
    directly inside the scratch root when the file name has neither a
    separator nor a NUL; the file is new when nothing was at the path, and
    otherwise a regular file was there and is overwritten. *)
Theorem decode_audio_file_spec (w : env) (audio filename : pyval) (st : state) :
  is_ok (b64decode audio) = Payload.accepted audio
  /\ (forall e, b64decode audio = Raise e ->
                decode_audio_file w audio filename st = (Raise e, tick st))
  /\ (forall e st1,
        decode_audio_file w audio filename st = (Raise e, st1) ->
        files st1 = files st)
  /\ (forall p st1,
        decode_audio_file w audio filename st = (Ok p, st1) ->
        p = "/tmp/vocal_removal/input_"
            +:+ strftime (now w (clock_reads st)) +:+ "_" +:+ str filename
        /\ exists data q,
             b64decode audio = Ok data
             /\ FS.read_file (files st1) p = Ok data
             /\ FS.resolve (files st) p = inr q
             /\ files st1 = <[q := FS.File data]> (files st)
             /\ (Names.plain_name (str filename) = true ->
                 q = ["tmp"; "vocal_removal"; Job.input_name w filename st])
             /\ (FS.exists_ (files st) p = false -> files st !! q = None)
             /\ (FS.exists_ (files st) p = true ->
                 exists old, files st !! q = Some (FS.File old))).
Proof.
  split; [|split; [|split]].
  - destruct audio; try reflexivity.
    apply Base64Facts.b64decode_well_grouped.
  - intros e B. rewrite decode_audio_file_eq. cbv zeta. now rewrite B.
  - intros e st1. rewrite decode_audio_file_eq. cbv zeta.
    destruct (b64decode audio) as [data|e']; [|now intros [= _ <-]].
    destruct (FS.write_file _ _ data); [discriminate | now intros [= _ <-]].
  - intros p st1 D.
    destruct (decode_audio_file_ok _ _ _ _ _ _ D)
      as (Hp & _ & _ & data & B & W).
    split; [exact Hp|].
    destruct (FSFacts.write_file_ok _ _ _ _ W) as (q & R & Hq & Hm).
    exists data, q.
    split; [exact B|].
    split; [apply (FSFacts.read_file_write_file _ _ _ _ W)|].
    split; [exact R|].
    split; [exact Hm|].
    split; [|split].
    + intros Hname. subst p.
      apply (NameFacts.resolve_plain_name (files st)
               (Job.input_name w filename st)); try reflexivity; [|exact R].
      unfold Job.input_name.
      rewrite !NameFacts.plain_name_append, NameFacts.strftime_plain, Hname.
      reflexivity.
    + unfold FS.exists_, FS.stat. rewrite R.
      destruct q as [|c q]; [discriminate|]. cbn [FS.get].
      now destruct (files st !! (c :: q)).
    + unfold FS.exists_, FS.stat. rewrite R.
      destruct q as [|c q]; [now destruct Hq|]. cbn [FS.get] in *.
      destruct (files st !! (c :: q)) as [[old|]|];
        [now exists old | now destruct Hq | discriminate].
Qed.

Lemma decode_audio_file_spec_witness :
  Payload.accepted (PStr "abc") = false
  /\ fst (decode_audio_file (Stub.world Stub.failing) (PStr "abc")
            (PStr "test.wav") Stub.fresh)
     = Raise (Exn BinasciiError "Incorrect padding")
  /\ FS.read_file (files (snd (Stub.decoded (Stub.world Stub.failing))))
       Stub.test_input
     = Ok [x4d; x61; x6e]
  /\ FS.resolve (files (tick Stub.fresh)) Stub.test_input
     = inr ["tmp"; "vocal_removal"; "input_20240102_030406_test.wav"].
Proof.
  destruct (decode_audio_file_spec (Stub.world Stub.failing) (PStr "abc")
              (PStr "test.wav") Stub.fresh) as (A & H & _).
  assert (B : b64decode (PStr "abc")
              = Raise (Exn BinasciiError "Incorrect padding"))
    by (vm_compute; reflexivity).
  split; [rewrite <- A, B; reflexivity|].
  split; [now rewrite (H _ B)|].
  destruct (decode_audio_file_spec (Stub.world Stub.failing) (PStr "TWFu")
              (PStr "test.wav") (tick Stub.fresh)) as (_ & _ & _ & H').
  destruct (H' Stub.test_input (snd (Stub.decoded (Stub.world Stub.failing))))
    as (_ & data & q & B' & R & L & _ & P & _).
  - apply decoded_ok. vm_compute. reflexivity.
  - split.
    + rewrite R. vm_compute in B'. injection B' as <-. reflexivity.
    + rewrite L. f_equal. apply P. vm_compute. reflexivity.
Defined.

(** *** The name of the result *)

(** C10: in every success response, [output_filename] is the stem of the
    [filename] of the request followed by [_no_vocals.wav]; nothing of the
    artifact that was found enters it.  The tool was run for that job with
    [--mp3] as its output-format flag. *)
Theorem output_filename_from_request (w : env) (job : dict)
    (st st' : state) (r : response) :
  handler w job st = (r, st') ->
  field r "success" = Some (RBool true) ->
  exists name,
    filename_of job = PStr name
    /\ field r "output_filename"
       = Some (RStr (fst (PosixPath.splitext name) +:+ "_no_vocals.wav"))
    /\ exists before command after,
         trace st' = trace st ++ before ++ EvRun command timeout :: after
         /\ nth_error command 3 = Some "--mp3".
Proof.
  intros H F.
  destruct (handler_success w job st st' r H F)
    as (audio & name & method & input_path & st1 & output_path & st2 & data
        & G & D & S & R & -> & ->).
  exists name. split; [symmetry; apply (get_params_filename _ _ _ _ G)|].
  split; [reflexivity|].
  destruct (decode_audio_file_ok _ _ _ _ _ _ D) as (_ & _ & T1 & _).
  destruct (remove_vocals_serverless_ok _ _ _ _ _ _ S)
    as (model & searches & _ & _ & T2).
  destruct (cleanup_files_trace [input_path; PosixPath.dirname output_path]
              (tick (tick (record (EvRead output_path) st2))))
    as [evs T3].
  exists [EvWrite input_path; EvMakedirs (output_dir_at w st1)],
    (demucs_command w model (output_dir_at w st1) input_path),
    (searches ++ [EvRead output_path] ++ evs).
  split; [|reflexivity].
  rewrite T3. autorewrite with state. rewrite T2, T1.
  autorewrite with state. rewrite <- !app_assoc. reflexivity.
Qed.

Lemma output_filename_from_request_witness :
  field (fst Stub.run_ok) "success" = Some (RBool true)
  /\ field (fst Stub.run_ok) "output_filename"
     = Some (RStr "test_no_vocals.wav").
Proof.
  assert (F : field (fst Stub.run_ok) "success" = Some (RBool true))
    by (vm_compute; reflexivity).
  split; [exact F|].
  destruct (output_filename_from_request (Stub.world (Stub.demucs [x01; x02]))
              Stub.job_test Stub.fresh (snd Stub.run_ok) (fst Stub.run_ok))
    as (name & N & O & _).
  - unfold Stub.run_ok. now destruct (handler _ _ _).
  - exact F.
  - rewrite O. vm_compute in N. injection N as <-. vm_compute. reflexivity.
Defined.

(** On the documented job the artifact that is found and encoded is
    [no_vocals.mp3], while the response names the result [test_no_vocals.wav]. *)
Lemma artifact_is_mp3_named_wav :
  In (EvRead (Stub.test_output_dir
              +:+ "/htdemucs_ft/input_20240102_030406_test/no_vocals.mp3"))
     (trace (snd Stub.run_ok))
  /\ field (fst Stub.run_ok) "output_filename"
     = Some (RStr "test_no_vocals.wav").
Proof. split; vm_compute; tauto. Qed.

End Claims.

(** ** More on the payload codec *)

Module CodecFacts.

Import Py Datetime Handler Layout HandlerFacts Base64 Checks Base64Facts.

Lemma pad_bits_ok_all (b : byte) : Names.pad_bits_ok (Byte.to_N b) = true.
Proof.
  apply (check1 256 Names.pad_bits_ok).
  - vm_compute. reflexivity.
  - pose proof (Byte.to_N_bounded b). lia.
Qed.

Lemma is_alphabet_b2a (v : N) : (v < 64)%N -> is_alphabet (b2a v) = true.
Proof. intros H. unfold is_alphabet. now rewrite (a2b_b2a v H). Qed.

Lemma sextet_b2a (v : N) : (v < 64)%N -> sextet (b2a v) = v.
Proof. intros H. unfold sextet. now rewrite (a2b_b2a v H). Qed.

(** What the encoder writes is canonical. *)
Lemma canonical_groups_b2a_base64 (bs : list byte) :
  canonical_groups (b2a_base64 bs) = true.
Proof.
  induction bs as [|a|a b|a b c bs IH] using list_ind3.
  - reflexivity.
  - sextet_facts a a.
    cbn [b2a_base64 canonical_groups].
    rewrite !is_alphabet_b2a, !sextet_b2a by assumption.
    rewrite Ascii.eqb_refl.
    match goal with H : N.land (N.shiftl _ _) 15 = 0%N |- _ => rewrite H end.
    reflexivity.
  - sextet_facts a b. sextet_facts b b.
    pose proof (pad_bits_ok_all b) as P. unfold Names.pad_bits_ok in P.
    cbn [b2a_base64 canonical_groups].
    rewrite !is_alphabet_b2a, !sextet_b2a by assumption.
    rewrite Ascii.eqb_refl, b2a_not_pad by assumption.
    rewrite P. reflexivity.
  - sextet_facts a b. sextet_facts b c. sextet_facts c c.
    cbn [b2a_base64 canonical_groups].
    rewrite !is_alphabet_b2a by assumption.
    rewrite (b2a_not_pad (N.land (Byte.to_N c) 63)) by assumption.
    rewrite IH. reflexivity.
Qed.

Lemma is_canonical_b64encode (bs : list byte) :
  is_canonical (b64encode bs) = true.
Proof.
  unfold is_canonical, b64encode.
  rewrite list_ascii_of_string_of_list_ascii.
  apply canonical_groups_b2a_base64.
Qed.

End CodecFacts.

(** ** Deleting from the file system *)

Module DeletionFacts.

Import FS.

Lemma get_subseteq (m m' : fs) (q : loc) (n : node) :
  m' ⊆ m -> get m' q = Some n -> get m q = Some n.
Proof.
  intros Hsub. destruct q as [|c q]; [trivial|].
  cbn [get]. intros H. exact (lookup_weaken m' m (c :: q) n H Hsub).
Qed.

(** Where a path leads does not depend on what the file system holds. *)
Lemma walk_same_loc (m m' : fs) (comps : list string) :
  forall cur q q',
    walk m cur comps = inr q -> walk m' cur comps = inr q' -> q = q'.
Proof.
  induction comps as [|c rest IH]; intros cur q q' H H'.
  - cbn in *. congruence.
  - cbn [walk] in *.
    destruct (get m cur) as [[?|]|]; try discriminate.
    destruct (get m' cur) as [[?|]|]; try discriminate.
    destruct (is_dot c); [now apply (IH cur)|].
    destruct (is_dotdot c); [now apply (IH (removelast cur))|].
    destruct (Nat.ltb _ _); [discriminate|].
    now apply (IH (cur ++ [c])).
Qed.

(** A path that leads somewhere still does after files were added back. *)
Lemma walk_subseteq (m m' : fs) (comps : list string) :
  m' ⊆ m ->
  forall cur q, walk m' cur comps = inr q -> walk m cur comps = inr q.
Proof.
  intros Hsub. induction comps as [|c rest IH]; intros cur q H; [exact H|].
  cbn [walk] in *.
  destruct (get m' cur) as [[?|]|] eqn:E; try discriminate.
  rewrite (get_subseteq m m' cur Dir Hsub E).
  destruct (is_dot c); [now apply IH|].
  destruct (is_dotdot c); [now apply IH|].
  destruct (Nat.ltb _ _); [discriminate | now apply IH].
Qed.

Lemma resolve_subseteq (m m' : fs) (p : string) (q : loc) :
  m' ⊆ m -> resolve m' p = inr q -> resolve m p = inr q.
Proof.
  intros Hsub. unfold resolve.
  destruct (has_nul p); [discriminate|].
  destruct (String.eqb p ""); [discriminate|].
  destruct (Nat.leb _ _); [discriminate|].
  now apply walk_subseteq.
Qed.

Lemma resolve_same_loc (m m' : fs) (p : string) (q q' : loc) :
  resolve m p = inr q -> resolve m' p = inr q' -> q = q'.
Proof.
  unfold resolve.
  destruct (has_nul p); [discriminate|].
  destruct (String.eqb p ""); [discriminate|].
  destruct (Nat.leb _ _); [discriminate|].
  apply walk_same_loc.
Qed.

(** What is found after deletions was there before. *)
Lemma stat_subseteq (m m' : fs) (p : string) (n : node) :
  m' ⊆ m -> stat m' p = Some n -> stat m p = Some n.
Proof.
  intros Hsub. unfold stat.
  destruct (resolve m' p) as [e|q] eqn:R; [discriminate|].
  rewrite (resolve_subseteq m m' p q Hsub R).
  now apply get_subseteq.
Qed.

Lemma exists_subseteq (m m' : fs) (p : string) :
  m' ⊆ m -> exists_ m p = false -> exists_ m' p = false.
Proof.
  intros Hsub. unfold exists_.
  destruct (stat m' p) as [n|] eqn:E; [|reflexivity].
  now rewrite (stat_subseteq m m' p n Hsub E).
Qed.

Lemma isfile_subseteq (m m' : fs) (p : string) :
  m' ⊆ m -> isfile m p = false -> isfile m' p = false.
Proof.
  intros Hsub. unfold isfile.
  destruct (stat m' p) as [[data|]|] eqn:E; try reflexivity.
  now rewrite (stat_subseteq m m' p _ Hsub E).
Qed.

Lemma below_refl (q : loc) : below q q = true.
Proof.
  induction q as [|c q IH]; [reflexivity|].
  cbn. now rewrite String.eqb_refl.
Qed.

(** [os.remove] and [shutil.rmtree] only delete. *)
Lemma remove_subseteq (m m' : fs) (p : string) :
  remove m p = Ok m' -> m' ⊆ m.
Proof.
  unfold remove.
  destruct (resolve m p) as [e|q]; [discriminate|].
  destruct (get m q) as [[data|]|]; try discriminate.
  intros [= <-]. apply delete_subseteq.
Qed.

Lemma rmtree_subseteq (m m' : fs) (p : string) :
  rmtree m p = Ok m' -> m' ⊆ m.
Proof.
  unfold rmtree.
  destruct (resolve m p) as [e|q]; [discriminate|].
  destruct (get m q) as [[data|]|]; try discriminate.
  intros [= <-]. apply map_filter_subseteq.
Qed.

(** A regular file can always be removed, and then nothing is at its path. *)
Lemma remove_isfile (m : fs) (p : string) :
  isfile m p = true ->
  exists m', remove m p = Ok m' /\ exists_ m' p = false.
Proof.
  unfold isfile, stat, remove.
  destruct (resolve m p) as [e|q] eqn:R; [discriminate|].
  destruct (get m q) as [[data|]|] eqn:G; try discriminate.
  intros _. exists (delete q m). split; [reflexivity|].
  unfold exists_, stat.
  destruct (resolve (delete q m) p) as [e|q'] eqn:R'; [reflexivity|].
  assert (q' = q) as ->.
  { symmetry. apply (resolve_same_loc m (delete q m) p); assumption. }
  destruct q as [|c q]; [discriminate|].
  cbn [get]. now rewrite lookup_delete_eq.
Qed.

(** A directory other than the root can always be removed with all it
    holds, and then nothing is at its path. *)
Lemma rmtree_isdir (m : fs) (p : string) :
  isdir m p = true ->
  resolve m p <> inr [] ->
  exists m', rmtree m p = Ok m' /\ exists_ m' p = false.
Proof.
  unfold isdir, stat, rmtree.
  destruct (resolve m p) as [e|q] eqn:R; [discriminate|].
  destruct (get m q) as [[data|]|] eqn:G; try discriminate.
  intros _ Hroot. eexists. split; [reflexivity|].
  unfold exists_, stat.
  match goal with |- context [resolve ?m' p] =>
    destruct (resolve m' p) as [e|q'] eqn:R' end; [reflexivity|].
  assert (q' = q) as ->.
  { symmetry. eapply (resolve_same_loc m _ p); eassumption. }
  destruct q as [|c q]; [congruence|].
  cbn [get].
  match goal with |- context [?m' !! (c :: q)] =>
    destruct (m' !! (c :: q)) as [n|] eqn:L end; [|reflexivity].
  apply map_lookup_filter_Some in L as [_ L]. cbn [fst] in L.
  now rewrite below_refl in L.
Qed.

End DeletionFacts.

(** ** [cleanup_files] *)

Module CleanupFacts.

Import Py Datetime Handler Layout HandlerFacts.

(** A path that ends in a name does not lead to the root. *)
Lemma walk_ends_in_name (m : FS.fs) (comps : list string) (c : string) :
  FS.is_dot c = false -> FS.is_dotdot c = false ->
  forall cur q, FS.walk m cur (comps ++ [c]) = inr q -> q <> [].
Proof.
  intros Hd Hdd. induction comps as [|x rest IH]; intros cur q.
  - cbn [app FS.walk]. rewrite Hd, Hdd.
    destruct (FS.get m cur) as [[?|]|]; try discriminate.
    destruct (Nat.ltb _ _); [discriminate|].
    intros [= <-]. now destruct cur.
  - cbn [app FS.walk].
    destruct (FS.get m cur) as [[?|]|]; try discriminate.
    destruct (FS.is_dot x); [apply IH|].
    destruct (FS.is_dotdot x); [apply IH|].
    destruct (Nat.ltb _ _); [discriminate | apply IH].
Qed.

Lemma resolve_ends_in_name (m : FS.fs) (p : string) :
  Names.ends_in_name p = true -> FS.resolve m p <> inr [].
Proof.
  unfold Names.ends_in_name, FS.resolve. intros H.
  destruct (FS.has_nul p); [discriminate|].
  destruct (String.eqb p ""); [discriminate|].
  destruct (Nat.leb _ _); [discriminate|].
  destruct (rev (FS.components p)) as [|c t] eqn:E; [discriminate|].
  apply andb_prop in H as [Hd Hdd].
  apply negb_true_iff in Hd. apply negb_true_iff in Hdd.
  assert (FS.components p = rev t ++ [c]) as ->.
  { rewrite <- (rev_involutive (FS.components p)), E. reflexivity. }
  intros W. now apply (walk_ends_in_name m (rev t) c Hd Hdd [] [] W).
Qed.

(** One round of [cleanup_files] only deletes, and records a removal at
    most. *)
Lemma cleanup_file_subseteq (p : string) (st : state) :
  files (snd (cleanup_file p st)) ⊆ files st.
Proof.
  unfold cleanup_file, swallow. run_monad.
  destruct (FS.exists_ _ p); reduce; [|reflexivity].
  destruct (FS.isfile _ p); reduce.
  - cbv [record with_files]. cbn [files].
    destruct (FS.remove (files st) p) as [m'|e] eqn:R; cbn [snd files];
      [apply (DeletionFacts.remove_subseteq _ _ _ R) | reflexivity].
  - destruct (FS.isdir _ p); reduce; [|reflexivity].
    cbv [record with_files]. cbn [files].
    destruct (FS.rmtree (files st) p) as [m'|e] eqn:R; cbn [snd files];
      [apply (DeletionFacts.rmtree_subseteq _ _ _ R) | reflexivity].
Qed.

Lemma cleanup_file_gone (p : string) (st : state) :
  FS.resolve (files st) p <> inr [] ->
  FS.exists_ (files (snd (cleanup_file p st))) p = false.
Proof.
  intros Hroot. unfold cleanup_file, swallow. run_monad.
  destruct (FS.exists_ (files st) p) eqn:X; reduce; [|exact X].
  destruct (FS.isfile (files st) p) eqn:F; reduce.
  - destruct (DeletionFacts.remove_isfile _ _ F) as (m' & R & G).
    cbv [record with_files]. cbn [files]. rewrite R. exact G.
  - destruct (FS.isdir (files st) p) eqn:D; reduce.
    + destruct (DeletionFacts.rmtree_isdir _ _ D Hroot) as (m' & R & G).
      cbv [record with_files]. cbn [files]. rewrite R. exact G.
    + unfold FS.exists_, FS.isfile, FS.isdir in *.
      destruct (FS.stat (files st) p) as [[?|]|]; discriminate.
Qed.

Lemma cleanup_files_step (p : string) (ps : list string) (st : state) :
  cleanup_files (p :: ps) st = cleanup_files ps (snd (cleanup_file p st)).
Proof.
  cbn [cleanup_files]. unfold bind.
  destruct (cleanup_file_ok p st) as [E _].
  destruct (cleanup_file p st) as [r st']. cbn [fst snd] in *. now subst r.
Qed.

Lemma cleanup_files_subseteq (ps : list string) (st : state) :
  files (snd (cleanup_files ps st)) ⊆ files st.
Proof.
  revert st. induction ps as [|p ps IH]; intros st; [reflexivity|].
  rewrite cleanup_files_step.
  etransitivity; [apply IH | apply cleanup_file_subseteq].
Qed.

Lemma cleanup_files_gone (ps : list string) (p : string) (st : state) :
  In p ps ->
  Names.ends_in_name p = true ->
  FS.exists_ (files (snd (cleanup_files ps st))) p = false.
Proof.
  intros Hin Hname. revert st.
  induction ps as [|a ps IH]; intros st; [destruct Hin|].
  rewrite cleanup_files_step.
  destruct Hin as [->|Hin]; [|now apply IH].
  apply (DeletionFacts.exists_subseteq _ _ _ (cleanup_files_subseteq ps _)).
  apply cleanup_file_gone. now apply resolve_ends_in_name.
Qed.

Lemma cleanup_file_removals (p : string) (st : state) :
  exists evs,
    trace (snd (cleanup_file p st)) = trace st ++ evs
    /\ forallb Events.is_removal evs = true.
Proof.
  unfold cleanup_file, swallow. run_monad.
  destruct (FS.exists_ _ p); reduce;
    [|exists []; split; [now rewrite app_nil_r | reflexivity]].
  destruct (FS.isfile _ p); reduce.
  - exists [EvRemove p]. destruct (FS.remove _ p); split; reflexivity.
  - destruct (FS.isdir _ p); reduce;
      [|exists []; split; [now rewrite app_nil_r | reflexivity]].
    exists [EvRmtree p]. destruct (FS.rmtree _ p); split; reflexivity.
Qed.

Lemma cleanup_files_removals (ps : list string) (st : state) :
  exists evs,
    trace (snd (cleanup_files ps st)) = trace st ++ evs
    /\ forallb Events.is_removal evs = true.
Proof.
  revert st. induction ps as [|p ps IH]; intros st.
  - exists []. split; [cbn; now rewrite app_nil_r | reflexivity].
  - rewrite cleanup_files_step.
    destruct (cleanup_file_removals p st) as (evs1 & E1 & F1).
    destruct (IH (snd (cleanup_file p st))) as (evs2 & E2 & F2).
    exists (evs1 ++ evs2). split.
    + now rewrite E2, E1, app_assoc.
    + now rewrite forallb_app, F1, F2.
Qed.

End CleanupFacts.

(** ** A worker that has started *)

Module StartupFacts.

Import Py Datetime Handler Layout HandlerFacts Names Job.

(** The scratch root is a directory exactly when [/tmp] and
    [/tmp/vocal_removal] are. *)
Lemma isdir_temp_dir (m : FS.fs) :
  FS.isdir m temp_dir = true <->
  m !! ["tmp"] = Some FS.Dir /\ m !! ["tmp"; "vocal_removal"] = Some FS.Dir.
Proof.
  unfold FS.isdir, FS.stat, FS.resolve.
  change (FS.has_nul temp_dir) with false.
  change (String.eqb temp_dir "") with false.
  change (Nat.leb FS.PATH_MAX (FS.fsencode_length temp_dir)) with false.
  change (FS.components temp_dir) with [""; "tmp"; "vocal_removal"].
  cbn [FS.walk FS.get app].
  change (FS.is_dot "") with true.
  change (FS.is_dot "tmp") with false.
  change (FS.is_dotdot "tmp") with false.
  change (FS.is_dot "vocal_removal") with false.
  change (FS.is_dotdot "vocal_removal") with false.
  change (Nat.ltb FS.NAME_MAX (FS.fsencode_length "tmp")) with false.
  change (Nat.ltb FS.NAME_MAX (FS.fsencode_length "vocal_removal")) with false.
  cbn [FS.walk FS.get app].
  destruct (m !! ["tmp"]) as [[?|]|]; cbn [FS.get];
    try (split; [discriminate | intros [? _]; discriminate]).
  destruct (m !! ["tmp"; "vocal_removal"]) as [[?|]|];
    split; try discriminate; try (intros [_ ?]; discriminate); auto.
Qed.

(** Under a scratch root that is a directory, a plain name that is neither
    [.] nor [..] nor empty, and within [NAME_MAX], leads to the location of
    that name. *)
Lemma resolve_under_temp_dir (m : FS.fs) (name : string) :
  FS.isdir m temp_dir = true ->
  plain_name name = true ->
  FS.is_dot name = false -> FS.is_dotdot name = false ->
  FS.fsencode_length name <= FS.NAME_MAX ->
  FS.resolve m ("/tmp/vocal_removal/" +:+ name)
  = inr ["tmp"; "vocal_removal"; name].
Proof.
  intros Hdir Hname Hd Hdd Hlen.
  apply isdir_temp_dir in Hdir as [H1 H2].
  unfold FS.resolve.
  rewrite NameFacts.has_nul_append, (NameFacts.has_nul_plain name Hname).
  replace (FS.has_nul "/tmp/vocal_removal/") with false
    by (vm_compute; reflexivity).
  change (String.eqb ("/tmp/vocal_removal/" +:+ name) "") with false.
  cbn [orb]. rewrite (NameFacts.path_under_temp_dir_fits name Hlen).
  rewrite (NameFacts.components_under_temp_dir name Hname).
  cbn [FS.walk FS.get app].
  change (FS.is_dot "") with true.
  change (FS.is_dot "tmp") with false.
  change (FS.is_dotdot "tmp") with false.
  change (FS.is_dot "vocal_removal") with false.
  change (FS.is_dotdot "vocal_removal") with false.
  change (Nat.ltb FS.NAME_MAX (FS.fsencode_length "tmp")) with false.
  change (Nat.ltb FS.NAME_MAX (FS.fsencode_length "vocal_removal")) with false.
  cbn [FS.walk FS.get app].
  rewrite H1. cbn [FS.walk FS.get app]. rewrite H2, Hd, Hdd.
  apply Nat.ltb_ge in Hlen. now rewrite Hlen.
Qed.

(** The name of the input file is plain when the text of the file name
    is, and so is the name of the output directory. *)
Lemma input_path_at_name (w : env) (filename : pyval) (st : state) :
  input_path_at w filename st
  = "/tmp/vocal_removal/" +:+ input_name w filename st.
Proof. reflexivity. Qed.

Lemma output_dir_at_name (w : env) (st : state) :
  output_dir_at w st = "/tmp/vocal_removal/" +:+ output_name w st.
Proof. reflexivity. Qed.

Lemma input_name_plain (w : env) (filename : pyval) (st : state) :
  plain_name (str filename) = true ->
  plain_name (input_name w filename st) = true.
Proof.
  intros H. unfold input_name.
  rewrite !NameFacts.plain_name_append, NameFacts.strftime_plain, H.
  reflexivity.
Qed.

Lemma output_name_plain (w : env) (st : state) :
  plain_name (output_name w st) = true.
Proof.
  unfold output_name.
  rewrite NameFacts.plain_name_append, NameFacts.strftime_plain.
  reflexivity.
Qed.

Lemma resolve_input_path (w : env) (filename : pyval) (st : state) (m : FS.fs) :
  FS.isdir m temp_dir = true ->
  plain_name (str filename) = true ->
  FS.fsencode_length (input_name w filename st) <= FS.NAME_MAX ->
  FS.resolve m (input_path_at w filename st)
  = inr ["tmp"; "vocal_removal"; input_name w filename st].
Proof.
  intros Hdir Hname Hlen. rewrite input_path_at_name.
  apply resolve_under_temp_dir; try assumption; try reflexivity.
  now apply input_name_plain.
Qed.

Lemma resolve_output_dir (w : env) (st : state) (m : FS.fs) :
  FS.isdir m temp_dir = true ->
  FS.fsencode_length (output_name w st) <= FS.NAME_MAX ->
  FS.resolve m (output_dir_at w st)
  = inr ["tmp"; "vocal_removal"; output_name w st].
Proof.
  intros Hdir Hlen. rewrite output_dir_at_name.
  apply resolve_under_temp_dir; try assumption; try reflexivity.
  apply output_name_plain.
Qed.

(** Writing to a plain name under the scratch root that is longer than
    [NAME_MAX] fails for the length of the name. *)
Lemma write_file_long_name (m : FS.fs) (name : string) (data : list byte) :
  FS.isdir m temp_dir = true ->
  plain_name name = true ->
  FS.is_dot name = false -> FS.is_dotdot name = false ->
  FS.NAME_MAX < FS.fsencode_length name ->
  FS.write_file m ("/tmp/vocal_removal/" +:+ name) data
  = Raise (FS.oserror FS.ENAMETOOLONG ("/tmp/vocal_removal/" +:+ name)).
Proof.
  intros Hdir Hname Hd Hdd Hlen.
  apply isdir_temp_dir in Hdir as [H1 H2].
  assert (Hempty : String.eqb "" name = false).
  { destruct name; [discriminate | reflexivity]. }
  assert (R : FS.resolve m ("/tmp/vocal_removal/" +:+ name)
              = inl FS.ENAMETOOLONG).
  { unfold FS.resolve.
    rewrite NameFacts.has_nul_append, (NameFacts.has_nul_plain name Hname).
    replace (FS.has_nul "/tmp/vocal_removal/") with false
      by (vm_compute; reflexivity).
    change (String.eqb ("/tmp/vocal_removal/" +:+ name) "") with false.
    cbn [orb]. destruct (Nat.leb _ _); [reflexivity|].
    rewrite (NameFacts.components_under_temp_dir name Hname).
    cbn [FS.walk FS.get app].
    change (FS.is_dot "") with true.
    change (FS.is_dot "tmp") with false.
    change (FS.is_dotdot "tmp") with false.
    change (FS.is_dot "vocal_removal") with false.
    change (FS.is_dotdot "vocal_removal") with false.
    change (Nat.ltb FS.NAME_MAX (FS.fsencode_length "tmp")) with false.
    change (Nat.ltb FS.NAME_MAX (FS.fsencode_length "vocal_removal"))
      with false.
    cbn [FS.walk FS.get app].
    rewrite H1. cbn [FS.walk FS.get app]. rewrite H2, Hd, Hdd.
    apply Nat.ltb_lt in Hlen. now rewrite Hlen. }
  unfold FS.write_file. rewrite R. do 2 f_equal.
  unfold FS.open_creat_errno.
  destruct (_ || _); [reflexivity|].
  rewrite (NameFacts.components_under_temp_dir name Hname).
  cbn [FS.above_slashed_name forallb andb].
  change (String.eqb "" "tmp") with false. cbn [andb option_map].
  change (String.eqb "" "vocal_removal") with false. cbn [andb option_map].
  rewrite Hempty. cbn [andb option_map]. reflexivity.
Qed.

(** Making a directory of a plain name within [NAME_MAX] under the scratch
    root goes through unless a regular file has that name; it adds that
    directory at most. *)
Lemma makedirs_under_temp_dir (m : FS.fs) (name : string) :
  FS.isdir m temp_dir = true ->
  plain_name name = true ->
  FS.is_dot name = false -> FS.is_dotdot name = false ->
  FS.fsencode_length name <= FS.NAME_MAX ->
  FS.isfile m ("/tmp/vocal_removal/" +:+ name) = false ->
  exists m1,
    FS.makedirs m ("/tmp/vocal_removal/" +:+ name) = Ok m1
    /\ FS.isdir m1 ("/tmp/vocal_removal/" +:+ name) = true
    /\ FS.isdir m1 temp_dir = true
    /\ m ⊆ m1.
Proof.
  intros Hdir Hname Hd Hdd Hlen Hfile.
  pose proof (resolve_under_temp_dir m name Hdir Hname Hd Hdd Hlen) as R.
  unfold FS.isfile, FS.stat in Hfile. rewrite R in Hfile. cbn [FS.get] in Hfile.
  pose proof Hdir as Hdir'. apply isdir_temp_dir in Hdir' as [H1 H2].
  unfold FS.makedirs.
  rewrite NameFacts.has_nul_append, (NameFacts.has_nul_plain name Hname).
  replace (FS.has_nul "/tmp/vocal_removal/") with false
    by (vm_compute; reflexivity).
  change (String.eqb ("/tmp/vocal_removal/" +:+ name) "") with false.
  cbn [orb]. rewrite (NameFacts.path_under_temp_dir_fits name Hlen).
  rewrite (NameFacts.components_under_temp_dir name Hname).
  cbn [FS.mkdir_p FS.get app].
  change (FS.is_dot "") with true.
  change (FS.is_dot "tmp") with false.
  change (FS.is_dotdot "tmp") with false.
  change (FS.is_dot "vocal_removal") with false.
  change (FS.is_dotdot "vocal_removal") with false.
  change (Nat.ltb FS.NAME_MAX (FS.fsencode_length "tmp")) with false.
  change (Nat.ltb FS.NAME_MAX (FS.fsencode_length "vocal_removal")) with false.
  cbn [FS.mkdir_p FS.get app].
  rewrite H1. cbn [FS.mkdir_p FS.get app]. rewrite H2, Hd, Hdd.
  pose proof Hlen as Hlen'. apply Nat.ltb_ge in Hlen'. rewrite Hlen'.
  destruct (m !! ["tmp"; "vocal_removal"; name]) as [[data|]|] eqn:L;
    [discriminate| |].
  - exists m. repeat split; try assumption; [|reflexivity].
    unfold FS.isdir, FS.stat. rewrite R. cbn [FS.get]. now rewrite L.
  - eexists. split; [reflexivity|].
    assert (Hdir1 : FS.isdir (<[["tmp"; "vocal_removal"; name] := FS.Dir]> m)
                      temp_dir = true).
    { apply isdir_temp_dir. split.
      - rewrite lookup_insert_ne by discriminate. exact H1.
      - rewrite lookup_insert_ne by discriminate. exact H2. }
    repeat split; [|exact Hdir1|now apply insert_subseteq].
    unfold FS.isdir, FS.stat.
    rewrite (resolve_under_temp_dir _ name Hdir1 Hname Hd Hdd Hlen).
    cbn [FS.get]. now rewrite lookup_insert_eq.
Qed.

(** Making the scratch root: when it goes through the root is a directory
    and nothing was taken away; when the root is a directory already nothing
    changes. *)
Lemma makedirs_temp_dir (m m' : FS.fs) :
  FS.makedirs m temp_dir = Ok m' ->
  FS.isdir m' temp_dir = true /\ m ⊆ m'.
Proof.
  unfold FS.makedirs.
  change (FS.has_nul temp_dir) with false.
  change (String.eqb temp_dir "") with false.
  change (Nat.leb FS.PATH_MAX (FS.fsencode_length temp_dir)) with false.
  change (FS.components temp_dir) with [""; "tmp"; "vocal_removal"].
  cbn [FS.mkdir_p FS.get app].
  change (FS.is_dot "") with true.
  change (FS.is_dot "tmp") with false.
  change (FS.is_dotdot "tmp") with false.
  change (FS.is_dot "vocal_removal") with false.
  change (FS.is_dotdot "vocal_removal") with false.
  change (Nat.ltb FS.NAME_MAX (FS.fsencode_length "tmp")) with false.
  change (Nat.ltb FS.NAME_MAX (FS.fsencode_length "vocal_removal")) with false.
  cbn [FS.mkdir_p FS.get app].
  destruct (m !! ["tmp"]) as [[?|]|] eqn:L1; [discriminate| |].
  - cbn [FS.mkdir_p FS.get app].
    destruct (m !! ["tmp"; "vocal_removal"]) as [[?|]|] eqn:L2;
      [discriminate| |]; intros [= <-].
    + split; [now apply isdir_temp_dir | reflexivity].
    + split; [|now apply insert_subseteq].
      apply isdir_temp_dir. split.
      * rewrite lookup_insert_ne by discriminate. exact L1.
      * apply lookup_insert_eq.
  - cbn [FS.mkdir_p FS.get app].
    rewrite lookup_insert_ne by discriminate.
    destruct (m !! ["tmp"; "vocal_removal"]) as [[?|]|] eqn:L2;
      [discriminate| |]; intros [= <-].
    + split; [|now apply insert_subseteq].
      apply isdir_temp_dir. split.
      * apply lookup_insert_eq.
      * rewrite lookup_insert_ne by discriminate. exact L2.
    + split.
      * apply isdir_temp_dir. split.
        -- rewrite lookup_insert_ne by discriminate. apply lookup_insert_eq.
        -- apply lookup_insert_eq.
      * etransitivity; [apply (insert_subseteq m ["tmp"] FS.Dir L1)|].
        apply insert_subseteq. now rewrite lookup_insert_ne by discriminate.
Qed.

Lemma makedirs_temp_dir_again (m : FS.fs) :
  FS.isdir m temp_dir = true -> FS.makedirs m temp_dir = Ok m.
Proof.
  intros H. apply isdir_temp_dir in H as [H1 H2].
  unfold FS.makedirs.
  change (FS.has_nul temp_dir) with false.
  change (String.eqb temp_dir "") with false.
  change (Nat.leb FS.PATH_MAX (FS.fsencode_length temp_dir)) with false.
  change (FS.components temp_dir) with [""; "tmp"; "vocal_removal"].
  cbn [FS.mkdir_p FS.get app].
  change (FS.is_dot "") with true.
  change (FS.is_dot "tmp") with false.
  change (FS.is_dotdot "tmp") with false.
  change (FS.is_dot "vocal_removal") with false.
  change (FS.is_dotdot "vocal_removal") with false.
  change (Nat.ltb FS.NAME_MAX (FS.fsencode_length "tmp")) with false.
  change (Nat.ltb FS.NAME_MAX (FS.fsencode_length "vocal_removal")) with false.
  cbn [FS.mkdir_p FS.get app].
  rewrite H1. cbn [FS.mkdir_p FS.get app]. now rewrite H2.
Qed.

End StartupFacts.

(** ** What a job leaves in the trace and on disk *)

Module JobFacts.

Import Py Datetime Handler Layout HandlerFacts Events.

Lemma count_app (kind : event -> bool) (a b : list event) :
  count kind (a ++ b) = count kind a + count kind b.
Proof. unfold count. now rewrite List.filter_app, length_app. Qed.

Lemma count_removals (kind : event -> bool) (evs : list event) :
  (forall e, is_removal e = true -> kind e = false) ->
  forallb is_removal evs = true -> count kind evs = 0.
Proof.
  intros Hk. unfold count. induction evs as [|e evs IH]; [reflexivity|].
  cbn [forallb List.filter]. intros H. apply andb_prop in H as [He H].
  rewrite (Hk e He). now apply IH.
Qed.

Lemma removal_not_run (e : event) : is_removal e = true -> is_run e = false.
Proof. now destruct e. Qed.

Lemma removal_not_write (e : event) : is_removal e = true -> is_write e = false.
Proof. now destruct e. Qed.

Lemma removal_not_makedirs (e : event) :
  is_removal e = true -> is_makedirs e = false.
Proof. now destruct e. Qed.

(** The parameters of a job whose input is a mapping. *)
Lemma get_params_dict (job job_input : dict) :
  dict_get_default job "input" (PDict []) = PDict job_input ->
  get_params job =
  let audio_data := dict_get_default job_input "audio_data" PNone in
  if negb (truthy audio_data)
  then Ok (Return [("error", RStr "No audio data provided")])
  else Ok (Params audio_data
             (dict_get_default job_input "filename" (PStr "audio.mp3"))
             (dict_get_default job_input "method" (PStr "htdemucs_ft"))).
Proof. intros H. unfold get_params. now rewrite H. Qed.

Lemma get_params_method (job : dict) (audio filename method : pyval) :
  get_params job = Ok (Params audio filename method) ->
  method = Job.method_of job.
Proof.
  unfold get_params, Job.method_of.
  destruct (dict_get_default job "input" (PDict [])); try discriminate.
  destruct (negb _); [discriminate|]. now intros [= _ _ <-].
Qed.

Lemma isfile_exists (m : FS.fs) (p : string) :
  FS.exists_ m p = false -> FS.isfile m p = false.
Proof.
  unfold FS.exists_, FS.isfile. now destruct (FS.stat m p) as [[?|]|].
Qed.

(** What [remove_vocals_serverless] adds to the trace, however it ends. *)
Lemma remove_vocals_serverless_counts (w : env) (input_path : string)
    (method : pyval) (st : state) :
  exists evs,
    trace (snd (remove_vocals_serverless w input_path method st))
    = trace st ++ evs
    /\ count is_run evs <= 1
    /\ count is_write evs = 0
    /\ count is_makedirs evs = 1.
Proof.
  rewrite remove_vocals_serverless_eq. cbv zeta.
  destruct (FS.makedirs _ _) as [m1|e];
    [|eexists [_]; cbn [snd]; autorewrite with state;
      repeat split; cbn; lia].
  destruct (model_as_str method) as [model|e];
    [|eexists [_]; cbn [snd]; autorewrite with state;
      repeat split; cbn; lia].
  destruct (_ <? _)%Z;
    [eexists [_; _]; cbn [snd]; autorewrite with state;
     rewrite <- ?app_assoc; repeat split; cbn; lia|].
  destruct (negb _);
    [eexists [_; _]; cbn [snd]; autorewrite with state;
     rewrite <- ?app_assoc; repeat split; cbn; lia|].
  destruct (glob w _ _ false) as [|p1 ps1];
    [|eexists [_; _; _]; cbn [snd]; autorewrite with state;
      rewrite <- ?app_assoc; repeat split; cbn; lia].
  destruct (glob w _ _ true) as [|p2 ps2];
    eexists [_; _; _; _]; cbn [snd]; autorewrite with state;
    rewrite <- ?app_assoc; repeat split; cbn; lia.
Qed.

(** What the exception clause adds to the trace, and what it leaves of the
    input file. *)
Lemma on_exception_removals (w : env) (start_time : datetime)
    (input_path : option string) (e : exn) (st : state) :
  exists evs,
    trace (snd (on_exception w start_time input_path e st)) = trace st ++ evs
    /\ forallb is_removal evs = true.
Proof.
  unfold on_exception. cbn [snd].
  destruct input_path as [p|];
    [|exists []; split; [cbn; now rewrite app_nil_r | reflexivity]].
  destruct (negb (String.eqb p ""));
    [|exists []; split; [cbn; now rewrite app_nil_r | reflexivity]].
  exists [EvRemove p]. unfold swallow. run_monad.
  destruct (FS.remove _ p); split; reflexivity.
Qed.

Lemma on_exception_subseteq (w : env) (start_time : datetime)
    (input_path : option string) (e : exn) (st : state) :
  files (snd (on_exception w start_time input_path e st)) ⊆ files st.
Proof.
  unfold on_exception. cbn [snd].
  destruct input_path as [p|]; [|reflexivity].
  destruct (negb (String.eqb p "")); [|reflexivity].
  unfold swallow. run_monad. cbv [record with_files tick]. cbn [files].
  destruct (FS.remove (files st) p) as [m'|e'] eqn:R; cbn [snd files];
    [apply (DeletionFacts.remove_subseteq _ _ _ R) | reflexivity].
Qed.

Lemma on_exception_input_gone (w : env) (start_time : datetime)
    (p : string) (e : exn) (st : state) :
  FS.isfile (files (snd (on_exception w start_time (Some p) e st))) p = false.
Proof.
  destruct (FS.isfile (files st) p) eqn:F.
  - unfold on_exception. cbn [snd].
    destruct (String.eqb p "") eqn:E.
    + apply String.eqb_eq in E. subst p. discriminate.
    + cbn [negb]. unfold swallow. run_monad.
      cbv [record with_files tick]. cbn [files].
      destruct (DeletionFacts.remove_isfile _ _ F) as (m' & R & G).
      rewrite R. cbn [snd files]. now apply isfile_exists.
  - apply (DeletionFacts.isfile_subseteq (files st)); [|exact F].
    apply on_exception_subseteq.
Qed.

(** What [process] adds to the trace, however it ends. *)
Lemma process_counts (w : env) (start_time : datetime) (input_path : string)
    (filename method : pyval) (st : state) :
  exists evs,
    trace (snd (process w start_time input_path filename method st))
    = trace st ++ evs
    /\ count is_run evs <= 1
    /\ count is_write evs = 0
    /\ count is_makedirs evs = 1.
Proof.
  rewrite process_eq.
  destruct (remove_vocals_serverless_counts w input_path method st)
    as (evs & T & R & W & M).
  destruct (remove_vocals_serverless w input_path method st)
    as [[output_path|e] st1]; cbn [snd] in T; [|now exists evs].
  cbv zeta.
  destruct (FS.read_file (files st1) output_path) as [data|e].
  - destruct filename;
      try (exists (evs ++ [EvRead output_path]); cbn [snd];
           autorewrite with state; rewrite T, !count_app, <- app_assoc;
           repeat split; cbn; lia).
    cbn [snd].
    destruct (CleanupFacts.cleanup_files_removals
                [input_path; PosixPath.dirname output_path]
                (tick (tick (record (EvRead output_path) st1))))
      as (evs' & T' & F').
    exists (evs ++ [EvRead output_path] ++ evs').
    rewrite T'. autorewrite with state. rewrite T, !count_app.
    rewrite (count_removals is_run evs' removal_not_run F').
    rewrite (count_removals is_write evs' removal_not_write F').
    rewrite (count_removals is_makedirs evs' removal_not_makedirs F').
    rewrite <- !app_assoc. repeat split; cbn; lia.
  - exists (evs ++ [EvRead output_path]). cbn [snd].
    autorewrite with state. rewrite T, !count_app, <- app_assoc.
    repeat split; cbn; lia.
Qed.

End JobFacts.

(** ** Behaviour beyond the claims *)

Module Behaviour.

Import Py Datetime Handler Layout Spec HandlerFacts ShapeFacts Events Names Job.

(** *** Encoding and decoding files *)

(** X1: [encode_audio_file] returns a text exactly when a regular file is
    at the path, and in no case changes a file or reads the clock. *)
Theorem encode_ok_iff_isfile (p : string) (st : state) :
  is_ok (fst (encode_audio_file p st)) = FS.isfile (files st) p
  /\ files (snd (encode_audio_file p st)) = files st
  /\ clock_reads (snd (encode_audio_file p st)) = clock_reads st.
Proof.
  rewrite encode_audio_file_eq.
  unfold FS.read_file, FS.isfile, FS.stat.
  destruct (FS.resolve (files st) p) as [e|q]; [repeat split|].
  destruct (FS.get (files st) q) as [[data|]|]; repeat split.
Qed.

(** X2: the text [encode_audio_file] returns is canonical Base64, and
    decoding it gives the bytes of the file. *)
Theorem encode_result_canonical (p : string) (st : state) (s : string) :
  fst (encode_audio_file p st) = Ok s ->
  Base64.is_canonical s = true
  /\ exists bs,
       FS.read_file (files st) p = Ok bs
       /\ Base64.b64decode s = Ok bs.
Proof.
  rewrite encode_audio_file_eq.
  destruct (FS.read_file (files st) p) as [bs|e]; [|discriminate].
  intros [= <-]. split; [apply CodecFacts.is_canonical_b64encode|].
  exists bs. split; [reflexivity | apply Base64Facts.b64decode_b64encode].
Qed.

Lemma encode_result_canonical_witness :
  fst (encode_audio_file Stub.test_input
         (snd (Stub.decoded (Stub.world Stub.failing)))) = Ok "TWFu"
  /\ Base64.is_canonical "TWFu" = true.
Proof.
  assert (E : fst (encode_audio_file Stub.test_input
                     (snd (Stub.decoded (Stub.world Stub.failing))))
              = Ok "TWFu") by (vm_compute; reflexivity).
  split; [exact E|].
  apply (encode_result_canonical Stub.test_input
           (snd (Stub.decoded (Stub.world Stub.failing))) "TWFu" E).
Defined.

(** X3: a file that was encoded and then decoded comes back byte for byte:
    the file [decode_audio_file] writes from the text of
    [encode_audio_file] holds what the encoded file held. *)
Theorem encode_then_decode (w : env) (p p' : string) (filename : pyval)
    (st st' st'' : state) (s : string) :
  fst (encode_audio_file p st) = Ok s ->
  decode_audio_file w (PStr s) filename st' = (Ok p', st'') ->
  FS.read_file (files st'') p' = FS.read_file (files st) p.
Proof.
  rewrite encode_audio_file_eq.
  destruct (FS.read_file (files st) p) as [bs|e] eqn:R; [|discriminate].
  intros [= <-] D.
  destruct (decode_audio_file_ok _ _ _ _ _ _ D)
    as (_ & _ & _ & data & B & W).
  cbn [b64decode] in B. rewrite Base64Facts.b64decode_b64encode in B.
  injection B as <-.
  apply (FSFacts.read_file_write_file _ _ _ _ W).
Qed.

Lemma encode_then_decode_witness :
  fst (encode_audio_file Stub.test_input
         (snd (Stub.decoded (Stub.world Stub.failing)))) = Ok "TWFu"
  /\ FS.read_file
       (files (snd (decode_audio_file (Stub.world Stub.failing) (PStr "TWFu")
                      (PStr "copy.wav")
                      (snd (Stub.decoded (Stub.world Stub.failing))))))
       "/tmp/vocal_removal/input_20240102_030407_copy.wav"
     = FS.read_file (files (snd (Stub.decoded (Stub.world Stub.failing))))
         Stub.test_input.
Proof.
  assert (E : fst (encode_audio_file Stub.test_input
                     (snd (Stub.decoded (Stub.world Stub.failing))))
              = Ok "TWFu") by (vm_compute; reflexivity).
  split; [exact E|].
  apply (encode_then_decode (Stub.world Stub.failing) Stub.test_input
           "/tmp/vocal_removal/input_20240102_030407_copy.wav"
           (PStr "copy.wav")
           (snd (Stub.decoded (Stub.world Stub.failing)))
           (snd (Stub.decoded (Stub.world Stub.failing))) _ "TWFu" E).
  apply Claims.pair_of_fst. vm_compute. reflexivity.
Defined.

(** X4: when [decode_audio_file] raises, be it for the payload or for the
    file, no file has changed, and the error has a text. *)
Theorem decode_failure_writes_nothing (w : env) (audio filename : pyval)
    (st st1 : state) (e : exn) :
  decode_audio_file w audio filename st = (Raise e, st1) ->
  files st1 = files st /\ exn_str e <> "".
Proof.
  intros D. split; [|apply (decode_audio_file_error _ _ _ _ _ _ D)].
  rewrite decode_audio_file_eq in D. cbv zeta in D.
  destruct (b64decode audio) as [data|e']; [|now injection D as _ <-].
  destruct (FS.write_file _ _ data); [discriminate|].
  now injection D as _ <-.
Qed.

Lemma decode_failure_writes_nothing_witness :
  fst (decode_audio_file (Stub.world Stub.failing) (PStr "TWFu")
         (PStr "no/such/dir.wav") Stub.fresh)
  = Raise (Exn FileNotFoundError
             "[Errno 2] No such file or directory: '/tmp/vocal_removal/input_20240102_030405_no/such/dir.wav'")
  /\ files (snd (decode_audio_file (Stub.world Stub.failing) (PStr "TWFu")
                   (PStr "no/such/dir.wav") Stub.fresh))
     = files Stub.fresh.
Proof.
  assert (E : fst (decode_audio_file (Stub.world Stub.failing) (PStr "TWFu")
                     (PStr "no/such/dir.wav") Stub.fresh)
              = Raise (Exn FileNotFoundError
                  "[Errno 2] No such file or directory: '/tmp/vocal_removal/input_20240102_030405_no/such/dir.wav'"))
    by (vm_compute; reflexivity).
  split; [exact E|].
  apply (decode_failure_writes_nothing (Stub.world Stub.failing) (PStr "TWFu")
           (PStr "no/such/dir.wav") Stub.fresh _ _
           (Claims.pair_of_fst _ _ E)).
Defined.

(** X5: when [decode_audio_file] returns, the one location its path leads
    to is the only one that changed. *)
Theorem decode_changes_one_location (w : env) (audio filename : pyval)
    (st st1 : state) (p : string) :
  decode_audio_file w audio filename st = (Ok p, st1) ->
  exists q,
    FS.resolve (files st) p = inr q
    /\ forall r, r <> q -> files st1 !! r = files st !! r.
Proof.
  intros D.
  destruct (decode_audio_file_ok _ _ _ _ _ _ D)
    as (_ & _ & _ & data & _ & W).
  unfold FS.write_file in W.
  destruct (FS.resolve (files st) p) as [e|q]; [discriminate|].
  exists q. split; [reflexivity|]. intros r Hr.
  destruct (FS.get (files st) q) as [[?|]|]; try discriminate;
    injection W as <-; now rewrite lookup_insert_ne.
Qed.

Lemma decode_changes_one_location_witness :
  fst (Stub.decoded (Stub.world Stub.failing)) = Ok Stub.test_input
  /\ exists q,
       FS.resolve (files (tick Stub.fresh)) Stub.test_input = inr q
       /\ forall r, r <> q ->
            files (snd (Stub.decoded (Stub.world Stub.failing))) !! r
            = files (tick Stub.fresh) !! r.
Proof.
  assert (E : fst (Stub.decoded (Stub.world Stub.failing))
              = Ok Stub.test_input) by (vm_compute; reflexivity).
  split; [exact E|].
  apply (decode_changes_one_location (Stub.world Stub.failing) (PStr "TWFu")
           (PStr "test.wav") (tick Stub.fresh)).
  apply Claims.decoded_ok. exact E.
Defined.

(** *** Jobs that are turned down *)

(** X6: a job whose input is a mapping with no [audio_data], or with one
    that is empty, null, zero or false, gets the bare error mapping at
    once: no file is touched, no call leaves the process, and the clock
    was read once. *)
Theorem empty_audio_data_returns_at_once (w : env) (job job_input : dict)
    (st : state) :
  dict_get_default job "input" (PDict []) = PDict job_input ->
  truthy (dict_get_default job_input "audio_data" PNone) = false ->
  handler w job st = ([("error", RStr "No audio data provided")], tick st).
Proof.
  intros I A. unfold handler.
  rewrite (JobFacts.get_params_dict job job_input I). cbv zeta.
  now rewrite A.
Qed.

Lemma empty_audio_data_returns_at_once_witness :
  truthy (dict_get_default [("audio_data", PStr ""); ("filename", PStr "a.mp3")]
            "audio_data" PNone) = false
  /\ fst (handler (Stub.world Stub.failing)
            (Stub.job_of [("audio_data", PStr ""); ("filename", PStr "a.mp3")])
            Stub.fresh)
     = [("error", RStr "No audio data provided")].
Proof.
  split; [vm_compute; reflexivity|].
  rewrite (empty_audio_data_returns_at_once (Stub.world Stub.failing)
             (Stub.job_of [("audio_data", PStr ""); ("filename", PStr "a.mp3")])
             [("audio_data", PStr ""); ("filename", PStr "a.mp3")]
             Stub.fresh);
    [reflexivity | reflexivity | vm_compute; reflexivity].
Defined.

(** X7: a job whose [input] is not a mapping gets a failure response that
    names the type of the value; no file is touched and no call leaves the
    process. *)
Theorem input_not_a_mapping_fails (w : env) (job : dict) (v : pyval)
    (st : state) :
  dict_get job "input" = Some v ->
  (forall d, v <> PDict d) ->
  fst (handler w job st)
  = failure_response w (now w (clock_reads st))
      (Exn AttributeError
         ("'" +:+ type_name v +:+ "' object has no attribute 'get'"))
      (tick st)
  /\ files (snd (handler w job st)) = files st
  /\ trace (snd (handler w job st)) = trace st.
Proof.
  intros I N. unfold handler, get_params, dict_get_default. rewrite I.
  destruct v; try (repeat split; reflexivity).
  now destruct (N d).
Qed.

Lemma input_not_a_mapping_fails_witness :
  dict_get [("input", PStr "audio")] "input" = Some (PStr "audio")
  /\ field (fst (handler (Stub.world Stub.failing) [("input", PStr "audio")]
                   Stub.fresh)) "error"
     = Some (RStr "'str' object has no attribute 'get'").
Proof.
  split; [reflexivity|].
  destruct (input_not_a_mapping_fails (Stub.world Stub.failing)
              [("input", PStr "audio")] (PStr "audio") Stub.fresh)
    as (H & _); [reflexivity | discriminate |].
  rewrite H. reflexivity.
Defined.

(** X8: every response of [handler] whose [success] is false carries an
    [error] text that is not empty, whatever made the job fail. *)
Theorem failure_carries_error_text (w : env) (job : dict) (st : state) :
  success_flag (fst (handler w job st)) = Some false ->
  exists text,
    field (fst (handler w job st)) "error" = Some (RStr text)
    /\ text <> "".
Proof. apply failure_error_nonempty. Qed.

Lemma failure_carries_error_text_witness :
  success_flag (fst Stub.run_failing) = Some false
  /\ exists text,
       field (fst Stub.run_failing) "error" = Some (RStr text) /\ text <> "".
Proof.
  unfold Stub.run_failing.
  assert (F : success_flag
                (fst (handler (Stub.world Stub.failing) Stub.job_test
                        Stub.fresh)) = Some false)
    by (vm_compute; reflexivity).
  split; [exact F|].
  apply (failure_carries_error_text (Stub.world Stub.failing) Stub.job_test
           Stub.fresh F).
Defined.

(** X9: a job whose payload does not decode gets a failure response with
    the text of the decoder's error; no file is touched and no call leaves
    the process. *)
Theorem undecodable_payload_fails (w : env) (job job_input : dict)
    (st : state) (e : exn) :
  dict_get_default job "input" (PDict []) = PDict job_input ->
  truthy (dict_get_default job_input "audio_data" PNone) = true ->
  b64decode (dict_get_default job_input "audio_data" PNone) = Raise e ->
  fst (handler w job st)
  = failure_response w (now w (clock_reads st)) e (tick (tick st))
  /\ files (snd (handler w job st)) = files st
  /\ trace (snd (handler w job st)) = trace st.
Proof.
  intros I A B. unfold handler.
  rewrite (JobFacts.get_params_dict job job_input I). cbv zeta.
  rewrite A. cbn [negb].
  rewrite decode_audio_file_eq. cbv zeta. rewrite B.
  repeat split; reflexivity.
Qed.

Lemma undecodable_payload_fails_witness :
  b64decode (dict_get_default [("audio_data", PStr "abc")] "audio_data" PNone)
  = Raise (Exn BinasciiError "Incorrect padding")
  /\ field (fst (handler (Stub.world Stub.failing)
                   (Stub.job_of [("audio_data", PStr "abc")]) Stub.fresh))
       "error"
     = Some (RStr "Incorrect padding").
Proof.
  assert (B : b64decode (dict_get_default [("audio_data", PStr "abc")]
                           "audio_data" PNone)
              = Raise (Exn BinasciiError "Incorrect padding"))
    by (vm_compute; reflexivity).
  split; [exact B|].
  destruct (undecodable_payload_fails (Stub.world Stub.failing)
              (Stub.job_of [("audio_data", PStr "abc")])
              [("audio_data", PStr "abc")] Stub.fresh _ eq_refl eq_refl B)
    as (H & _).
  rewrite H. reflexivity.
Defined.

(** X10: a job whose [method] is not a string fails once the output
    directory has been made: the tool is not run, the input file is
    removed, and the error names the type of the value. *)
Theorem method_not_a_string_fails (w : env) (job : dict) (st st1 : state)
    (audio filename method : pyval) (input_path : string) (m1 : FS.fs) :
  get_params job = Ok (Params audio filename method) ->
  (forall s, method <> PStr s) ->
  decode_audio_file w audio filename (tick st) = (Ok input_path, st1) ->
  FS.makedirs (files st1) (output_dir_at w st1) = Ok m1 ->
  field (fst (handler w job st)) "success" = Some (RBool false)
  /\ field (fst (handler w job st)) "error"
     = Some (RStr ("sequence item 6: expected str instance, "
                   +:+ type_name method +:+ " found"))
  /\ trace (snd (handler w job st))
     = trace st1 ++ [EvMakedirs (output_dir_at w st1); EvRemove input_path].
Proof.
  intros G N D Hmk.
  destruct (decode_audio_file_ok _ _ _ _ _ _ D) as (Hp & _ & _ & _).
  assert (S : remove_vocals_serverless w input_path method st1
              = (Raise (Exn TypeError
                          ("sequence item 6: expected str instance, "
                           +:+ type_name method +:+ " found")),
                 with_files m1
                   (record (EvMakedirs (output_dir_at w st1)) (tick st1)))).
  { rewrite remove_vocals_serverless_eq. cbv zeta. rewrite Hmk.
    destruct method; try reflexivity. now destruct (N s). }
  unfold handler. rewrite G, D, process_eq, S.
  split; [now rewrite on_exception_eq|].
  split; [now rewrite on_exception_eq|].
  rewrite on_exception_trace by (subst input_path; reflexivity).
  autorewrite with state. rewrite <- !app_assoc. reflexivity.
Qed.

Lemma method_not_a_string_fails_witness :
  get_params (Stub.job_of [("audio_data", PStr "TWFu");
                           ("filename", PStr "test.wav");
                           ("method", PNone)])
  = Ok (Params (PStr "TWFu") (PStr "test.wav") PNone)
  /\ field (fst (handler (Stub.world Stub.failing)
                   (Stub.job_of [("audio_data", PStr "TWFu");
                                 ("filename", PStr "test.wav");
                                 ("method", PNone)]) Stub.fresh)) "error"
     = Some (RStr "sequence item 6: expected str instance, NoneType found").
Proof.
  split; [vm_compute; reflexivity|].
  destruct (method_not_a_string_fails (Stub.world Stub.failing)
              (Stub.job_of [("audio_data", PStr "TWFu");
                            ("filename", PStr "test.wav");
                            ("method", PNone)])
              Stub.fresh (snd (Stub.decoded (Stub.world Stub.failing)))
              (PStr "TWFu") (PStr "test.wav") PNone Stub.test_input
              (Stub.files_before_run (Stub.world Stub.failing)))
    as (_ & H & _).
  - vm_compute. reflexivity.
  - discriminate.
  - apply Claims.decoded_ok. vm_compute. reflexivity.
  - apply Claims.files_before_run_ok. vm_compute. reflexivity.
  - vm_compute in H. vm_compute. exact H.
Defined.

(** *** Jobs that go through *)

(** X11: in every success response, [processed_audio] is the canonical
    Base64 text of the bytes of the artifact that the separation step
    returned, and decodes to those bytes. *)
Theorem processed_audio_is_the_artifact (w : env) (job : dict)
    (st st' : state) (r : response) :
  handler w job st = (r, st') ->
  field r "success" = Some (RBool true) ->
  exists input_path st1 output_path st2 data,
    remove_vocals_serverless w input_path (method_of job) st1
    = (Ok output_path, st2)
    /\ FS.read_file (files st2) output_path = Ok data
    /\ field r "processed_audio" = Some (RStr (Base64.b64encode data))
    /\ Base64.is_canonical (Base64.b64encode data) = true
    /\ Base64.b64decode (Base64.b64encode data) = Ok data.
Proof.
  intros H F.
  destruct (handler_success w job st st' r H F)
    as (audio & name & method & input_path & st1 & output_path & st2 & data
        & G & D & S & R & -> & _).
  exists input_path, st1, output_path, st2, data.
  rewrite <- (JobFacts.get_params_method _ _ _ _ G).
  repeat split; try assumption.
  - apply CodecFacts.is_canonical_b64encode.
  - apply Base64Facts.b64decode_b64encode.
Qed.

Lemma processed_audio_is_the_artifact_witness :
  field (fst Stub.run_ok) "success" = Some (RBool true)
  /\ exists input_path st1 output_path st2 data,
       remove_vocals_serverless (Stub.world (Stub.demucs [x01; x02]))
         input_path (method_of Stub.job_test) st1 = (Ok output_path, st2)
       /\ FS.read_file (files st2) output_path = Ok data
       /\ field (fst Stub.run_ok) "processed_audio"
          = Some (RStr (Base64.b64encode data))
       /\ Base64.is_canonical (Base64.b64encode data) = true
       /\ Base64.b64decode (Base64.b64encode data) = Ok data.
Proof.
  assert (F : field (fst Stub.run_ok) "success" = Some (RBool true))
    by (vm_compute; reflexivity).
  split; [exact F|].
  apply (processed_audio_is_the_artifact
           (Stub.world (Stub.demucs [x01; x02]))
           Stub.job_test Stub.fresh (snd Stub.run_ok) (fst Stub.run_ok));
    [|exact F].
  unfold Stub.run_ok. now destruct (handler _ _ _).
Defined.

(** X12: every success response names, as [method], the method of the
    request, which is a string and is [htdemucs_ft] when the request has
    none, and, as [gpu_used], the device of the worker. *)
Theorem success_names_method_and_device (w : env) (job : dict)
    (st st' : state) (r : response) :
  handler w job st = (r, st') ->
  field r "success" = Some (RBool true) ->
  exists model,
    method_of job = PStr model
    /\ field r "method" = Some (RStr model)
    /\ field r "gpu_used" = Some (RStr (device w)).
Proof.
  intros H F.
  destruct (handler_success w job st st' r H F)
    as (audio & name & method & input_path & st1 & output_path & st2 & data
        & G & D & S & R & -> & _).
  destruct (remove_vocals_serverless_ok _ _ _ _ _ _ S)
    as (model & searches & -> & _).
  exists model. rewrite <- (JobFacts.get_params_method _ _ _ _ G).
  repeat split; reflexivity.
Qed.

Lemma success_names_method_and_device_witness :
  field (fst (handler (Stub.world (Stub.demucs [x01]))
                (Stub.job_of [("audio_data", PStr "TWFu")]) Stub.fresh))
    "success" = Some (RBool true)
  /\ field (fst (handler (Stub.world (Stub.demucs [x01]))
                   (Stub.job_of [("audio_data", PStr "TWFu")]) Stub.fresh))
       "method" = Some (RStr "htdemucs_ft").
Proof.
  assert (F : field (fst (handler (Stub.world (Stub.demucs [x01]))
                            (Stub.job_of [("audio_data", PStr "TWFu")])
                            Stub.fresh))
                "success" = Some (RBool true)) by (vm_compute; reflexivity).
  split; [exact F|].
  destruct (success_names_method_and_device (Stub.world (Stub.demucs [x01]))
              (Stub.job_of [("audio_data", PStr "TWFu")]) Stub.fresh
              (snd (handler (Stub.world (Stub.demucs [x01]))
                      (Stub.job_of [("audio_data", PStr "TWFu")]) Stub.fresh))
              (fst (handler (Stub.world (Stub.demucs [x01]))
                      (Stub.job_of [("audio_data", PStr "TWFu")]) Stub.fresh)))
    as (model & M & Hm & _).
  - now destruct (handler _ _ _).
  - exact F.
  - rewrite Hm. vm_compute in M. now injection M as <-.
Defined.

(** *** Cleaning up *)

(** X13: [cleanup_files] never raises and never reads the clock, and it
    only deletes: every file or directory that is there afterwards was
    there before, unchanged. *)
Theorem cleanup_files_only_deletes (file_paths : list string) (st : state) :
  fst (cleanup_files file_paths st) = Ok tt
  /\ clock_reads (snd (cleanup_files file_paths st)) = clock_reads st
  /\ files (snd (cleanup_files file_paths st)) ⊆ files st.
Proof.
  destruct (cleanup_files_ok file_paths st) as [E C].
  repeat split; try assumption.
  apply CleanupFacts.cleanup_files_subseteq.
Qed.

(** X14: after [cleanup_files], nothing is left at any of the paths given
    that end in a name, whether a file, a directory with its content, or
    nothing was there. *)
Theorem cleanup_files_removes (file_paths : list string) (p : string)
    (st : state) :
  In p file_paths ->
  ends_in_name p = true ->
  FS.exists_ (files (snd (cleanup_files file_paths st))) p = false.
Proof. apply CleanupFacts.cleanup_files_gone. Qed.

Lemma cleanup_files_removes_witness :
  In Stub.test_output_dir [Stub.test_input; Stub.test_output_dir]
  /\ ends_in_name Stub.test_output_dir = true
  /\ FS.isdir (Stub.files_before_run (Stub.world Stub.failing))
       Stub.test_output_dir = true
  /\ FS.exists_
       (files (snd (cleanup_files [Stub.test_input; Stub.test_output_dir]
                      (with_files
                         (Stub.files_before_run (Stub.world Stub.failing))
                         Stub.fresh))))
       Stub.test_output_dir = false.
Proof.
  assert (I : In Stub.test_output_dir [Stub.test_input; Stub.test_output_dir])
    by (right; left; reflexivity).
  assert (N : ends_in_name Stub.test_output_dir = true)
    by (vm_compute; reflexivity).
  split; [exact I|]. split; [exact N|].
  split; [vm_compute; reflexivity|].
  apply (cleanup_files_removes [Stub.test_input; Stub.test_output_dir]
           Stub.test_output_dir _ I N).
Defined.

(** X15: once the payload of a job has been decoded to its input file,
    that file is no longer there when [handler] returns, whether the job
    went through or failed. *)
Theorem input_file_is_removed (w : env) (job : dict) (st st1 : state)
    (audio filename method : pyval) (input_path : string) :
  get_params job = Ok (Params audio filename method) ->
  decode_audio_file w audio filename (tick st) = (Ok input_path, st1) ->
  FS.isfile (files (snd (handler w job st))) input_path = false.
Proof.
  intros G D.
  destruct (decode_audio_file_ok _ _ _ _ _ _ D)
    as (_ & _ & _ & data & _ & W).
  assert (Hroot : forall m, FS.resolve m input_path <> inr []).
  { intros m R. unfold FS.write_file in W.
    destruct (FS.resolve (files (tick st)) input_path) as [e|q] eqn:R0;
      [discriminate|].
    rewrite (DeletionFacts.resolve_same_loc _ _ _ _ _ R0 R) in W.
    discriminate. }
  unfold handler. rewrite G, D, process_eq.
  destruct (remove_vocals_serverless w input_path method st1)
    as [[output_path|e] st2]; [|apply JobFacts.on_exception_input_gone].
  cbv zeta.
  destruct (FS.read_file (files st2) output_path) as [bs|e];
    [|apply JobFacts.on_exception_input_gone].
  destruct filename; try apply JobFacts.on_exception_input_gone.
  cbn [snd]. apply JobFacts.isfile_exists.
  rewrite CleanupFacts.cleanup_files_step.
  apply (DeletionFacts.exists_subseteq _ _ _
           (CleanupFacts.cleanup_files_subseteq _ _)).
  apply CleanupFacts.cleanup_file_gone. apply Hroot.
Qed.

Lemma input_file_is_removed_witness :
  FS.isfile (files (snd (Stub.decoded (Stub.world (Stub.demucs [x01; x02])))))
    Stub.test_input = true
  /\ FS.isfile (files (snd Stub.run_ok)) Stub.test_input = false.
Proof.
  split; [vm_compute; reflexivity|].
  unfold Stub.run_ok.
  apply (input_file_is_removed (Stub.world (Stub.demucs [x01; x02]))
           Stub.job_test Stub.fresh
           (snd (Stub.decoded (Stub.world (Stub.demucs [x01; x02]))))
           (PStr "TWFu") (PStr "test.wav") (PStr "htdemucs_ft")).
  - vm_compute. reflexivity.
  - apply Claims.decoded_ok. vm_compute. reflexivity.
Defined.

(** X16: when the separation step fails, every directory that is there
    after it is still there when [handler] returns: the exception clause
    removes the input file and no directory, so the output directory of
    the job stays. *)
Theorem failure_keeps_directories (w : env) (job : dict) (st st1 st2 : state)
    (audio filename method : pyval) (input_path d : string) (e : exn) :
  get_params job = Ok (Params audio filename method) ->
  decode_audio_file w audio filename (tick st) = (Ok input_path, st1) ->
  remove_vocals_serverless w input_path method st1 = (Raise e, st2) ->
  FS.isdir (files st2) d = true ->
  FS.isdir (files (snd (handler w job st))) d = true
  /\ field (fst (handler w job st)) "success" = Some (RBool false).
Proof.
  intros G D S H. unfold handler. rewrite G, D, process_eq, S.
  split; [now apply Claims.on_exception_keeps_directories|].
  now rewrite on_exception_eq.
Qed.

Lemma failure_keeps_directories_witness :
  fst (remove_vocals_serverless (Stub.world Stub.failing) Stub.test_input
         (PStr "htdemucs_ft") (snd (Stub.decoded (Stub.world Stub.failing))))
  = Raise (Exn RuntimeError "Demucs processing failed: FATAL: unknown model")
  /\ FS.isdir (files (snd Stub.run_failing)) Stub.test_output_dir = true.
Proof.
  assert (S : fst (remove_vocals_serverless (Stub.world Stub.failing)
                     Stub.test_input (PStr "htdemucs_ft")
                     (snd (Stub.decoded (Stub.world Stub.failing))))
              = Raise (Exn RuntimeError
                         "Demucs processing failed: FATAL: unknown model"))
    by (vm_compute; reflexivity).
  split; [exact S|].
  unfold Stub.run_failing.
  apply (failure_keeps_directories (Stub.world Stub.failing) Stub.job_test
           Stub.fresh (snd (Stub.decoded (Stub.world Stub.failing)))
           (snd (remove_vocals_serverless (Stub.world Stub.failing)
                   Stub.test_input (PStr "htdemucs_ft")
                   (snd (Stub.decoded (Stub.world Stub.failing)))))
           (PStr "TWFu") (PStr "test.wav") (PStr "htdemucs_ft")
           Stub.test_input Stub.test_output_dir
           (Exn RuntimeError
              "Demucs processing failed: FATAL: unknown model")).
  - vm_compute. reflexivity.
  - apply Claims.decoded_ok. vm_compute. reflexivity.
  - apply Claims.pair_of_fst. exact S.
  - vm_compute. reflexivity.
Defined.

(** X17: whatever the job and however it ends, one call of [handler] writes
    at most one file, makes at most one directory and runs the tool at
    most once. *)
Theorem handler_calls_at_most_once (w : env) (job : dict) (st : state) :
  exists evs,
    trace (snd (handler w job st)) = trace st ++ evs
    /\ count is_write evs <= 1
    /\ count is_makedirs evs <= 1
    /\ count is_run evs <= 1.
Proof.
  assert (Nil : forall st', trace st' = trace st ->
            exists evs, trace st' = trace st ++ evs
                        /\ count is_write evs <= 1
                        /\ count is_makedirs evs <= 1
                        /\ count is_run evs <= 1).
  { intros st' E. exists []. rewrite app_nil_r. cbn. repeat split; auto. }
  unfold handler.
  destruct (get_params job) as [[audio filename method|r]|e];
    [|apply Nil; cbn [snd]; now autorewrite with state ..].
  rewrite decode_audio_file_eq. cbv zeta.
  destruct (b64decode audio) as [data|e];
    [|apply Nil; cbn [snd]; now autorewrite with state].
  set (p := input_path_at w filename (tick st)).
  destruct (FS.write_file _ p data) as [m|e].
  - set (st1 := with_files m (record (EvWrite p) (tick (tick st)))).
    assert (T1 : trace st1 = trace st ++ [EvWrite p])
      by (subst st1; now autorewrite with state).
    destruct (JobFacts.process_counts w (now w (clock_reads st)) p
                filename method st1) as (evs & T & R & W & M).
    destruct (process w (now w (clock_reads st)) p filename method st1)
      as [[r|e] st2]; cbn [snd] in T.
    + exists ([EvWrite p] ++ evs). cbn [snd].
      rewrite T, T1, <- app_assoc. split; [reflexivity|].
      rewrite !JobFacts.count_app. cbn. lia.
    + destruct (JobFacts.on_exception_removals w
                  (now w (clock_reads st)) (Some p) e st2)
        as (evs' & T' & F').
      exists ([EvWrite p] ++ evs ++ evs').
      rewrite T', T, T1, <- !app_assoc. split; [reflexivity|].
      rewrite !JobFacts.count_app.
      rewrite (JobFacts.count_removals is_run evs'
                 JobFacts.removal_not_run F').
      rewrite (JobFacts.count_removals is_write evs'
                 JobFacts.removal_not_write F').
      rewrite (JobFacts.count_removals is_makedirs evs'
                 JobFacts.removal_not_makedirs F').
      cbn. lia.
  - exists [EvWrite p]. cbn [snd]. autorewrite with state.
    split; [reflexivity|]. cbn. lia.
Qed.

(** *** A worker that has started *)

(** X18: when the start-up of the worker goes through, the scratch root
    is a directory, nothing that was on disk has been taken away, and the
    device is [cuda] exactly when CUDA is available; on a disk where the
    scratch root is a directory already, starting changes no file. *)
Theorem init_makes_scratch_root (cuda_is_available : bool) (st : state) :
  (forall device st',
     Startup.init cuda_is_available st = (Ok device, st') ->
     FS.isdir (files st') temp_dir = true
     /\ files st ⊆ files st'
     /\ device = if cuda_is_available then "cuda" else "cpu")
  /\ (FS.isdir (files st) temp_dir = true ->
      exists device st',
        Startup.init cuda_is_available st = (Ok device, st')
        /\ files st' = files st).
Proof.
  unfold Startup.init. run_monad. cbv [record with_files]. cbn [files].
  split.
  - intros device st'.
    destruct (FS.makedirs (files st) temp_dir) as [m'|e] eqn:Mk;
      [|discriminate].
    intros [= <- <-]. cbn [files].
    destruct (StartupFacts.makedirs_temp_dir _ _ Mk) as [H1 H2].
    repeat split; assumption.
  - intros H. rewrite (StartupFacts.makedirs_temp_dir_again _ H).
    eexists _, _. split; reflexivity.
Qed.

Lemma init_makes_scratch_root_witness :
  fst (Startup.init true
         {| files := ∅; clock_reads := 0; trace := [] |}) = Ok "cuda"
  /\ FS.isdir (files (snd (Startup.init true
                             {| files := ∅; clock_reads := 0; trace := [] |})))
       temp_dir = true.
Proof.
  assert (E : fst (Startup.init true
                     {| files := ∅; clock_reads := 0; trace := [] |})
              = Ok "cuda") by (vm_compute; reflexivity).
  split; [exact E|].
  destruct (init_makes_scratch_root true
              {| files := ∅; clock_reads := 0; trace := [] |}) as [H _].
  apply (H "cuda" _ (Claims.pair_of_fst _ _ E)).
Defined.

(** X19: on a worker whose scratch root is a directory, a decodable
    payload with a file name free of separators and NUL is written when the
    name [input_<timestamp>_<filename>] fits in the 255 bytes of a name and
    no directory has it: [decode_audio_file] returns the path of a file
    that holds the decoded bytes.  When that name is longer, the call
    raises the error of a file name too long and writes nothing. *)
Theorem decode_on_started_worker (w : env) (audio filename : pyval)
    (st : state) (data : list byte) :
  FS.isdir (files st) temp_dir = true ->
  b64decode audio = Ok data ->
  plain_name (str filename) = true ->
  (FS.fsencode_length (input_name w filename st) <= FS.NAME_MAX ->
   FS.isdir (files st) (input_path_at w filename st) = false ->
   exists st1,
     decode_audio_file w audio filename st
     = (Ok (input_path_at w filename st), st1)
     /\ FS.read_file (files st1) (input_path_at w filename st) = Ok data
     /\ FS.isdir (files st1) temp_dir = true)
  /\ (FS.NAME_MAX < FS.fsencode_length (input_name w filename st) ->
      exists st1,
        decode_audio_file w audio filename st
        = (Raise (Exn OSError
                    ("[Errno 36] File name too long: "
                     +:+ repr_str (input_path_at w filename st))), st1)
        /\ files st1 = files st).
Proof.
  intros Hdir B Hname. split.
  - intros Hlen Hnodir.
    pose proof (StartupFacts.resolve_input_path w filename st _ Hdir Hname
                  Hlen) as R.
    assert (W : exists m,
               FS.write_file (files st) (input_path_at w filename st) data
               = Ok m
               /\ m = <[["tmp"; "vocal_removal"; input_name w filename st]
                        := FS.File data]> (files st)).
    { unfold FS.write_file. rewrite R.
      unfold FS.isdir, FS.stat in Hnodir. rewrite R in Hnodir.
      destruct (FS.get _ _) as [[?|]|]; try discriminate;
        eexists; split; reflexivity. }
    destruct W as (m & W & Hm).
    rewrite decode_audio_file_eq. cbv zeta. rewrite B, W.
    eexists. split; [reflexivity|]. cbn [files with_files].
    split; [apply (FSFacts.read_file_write_file _ _ _ _ W)|].
    apply StartupFacts.isdir_temp_dir in Hdir as [H1 H2].
    apply StartupFacts.isdir_temp_dir. subst m. split.
    + rewrite lookup_insert_ne by discriminate. exact H1.
    + rewrite lookup_insert_ne by discriminate. exact H2.
  - intros Hlen.
    rewrite decode_audio_file_eq. cbv zeta. rewrite B.
    rewrite (StartupFacts.write_file_long_name _ _ _ Hdir
               (StartupFacts.input_name_plain w filename st Hname)
               eq_refl eq_refl Hlen).
    eexists. split; [reflexivity|]. now autorewrite with state.
Qed.

Lemma decode_on_started_worker_witness :
  FS.isdir (files (tick Stub.fresh)) temp_dir = true
  /\ plain_name (str (PInt 7)) = true
  /\ FS.fsencode_length
       (input_name (Stub.world Stub.failing) (PInt 7) (tick Stub.fresh))
     <= FS.NAME_MAX
  /\ fst (decode_audio_file (Stub.world Stub.failing) (PStr "TWFu") (PInt 7)
            (tick Stub.fresh))
     = Ok "/tmp/vocal_removal/input_20240102_030406_7".
Proof.
  assert (H1 : FS.isdir (files (tick Stub.fresh)) temp_dir = true)
    by (vm_compute; reflexivity).
  assert (H2 : plain_name (str (PInt 7)) = true) by (vm_compute; reflexivity).
  assert (H3 : FS.fsencode_length
                 (input_name (Stub.world Stub.failing) (PInt 7)
                    (tick Stub.fresh)) <= FS.NAME_MAX)
    by (vm_compute; lia).
  split; [exact H1|]. split; [exact H2|]. split; [exact H3|].
  destruct (decode_on_started_worker (Stub.world Stub.failing) (PStr "TWFu")
              (PInt 7) (tick Stub.fresh) [x4d; x61; x6e] H1)
    as [H _].
  - vm_compute. reflexivity.
  - exact H2.
  - destruct (H H3) as (st1 & D & _).
    + vm_compute. reflexivity.
    + rewrite D. vm_compute. reflexivity.
Defined.

(** X20: on a worker whose scratch root is a directory, for a method that
    is a string, when no argument of the command holds a NUL and no regular
    file has the name of the output directory (a name that fits in 255
    bytes), the separation step makes its output directory and next calls
    [subprocess.run], once, with the command built from that model,
    directory and input path and a timeout of 300 seconds; after that call
    it makes the first pattern search, or the first and then the second,
    or none, and nothing else. *)
Theorem separation_runs_the_tool (w : env) (input_path model : string)
    (st : state) :
  FS.isdir (files st) temp_dir = true ->
  FS.fsencode_length (output_name w st) <= FS.NAME_MAX ->
  FS.isfile (files st) (output_dir_at w st) = false ->
  forallb (fun a => negb (FS.has_nul a))
          (demucs_command w model (output_dir_at w st) input_path) = true ->
  exists m1 k,
    FS.makedirs (files st) (output_dir_at w st) = Ok m1
    /\ FS.isdir m1 (output_dir_at w st) = true
    /\ trace (snd (remove_vocals_serverless w input_path (PStr model) st))
       = trace st
         ++ EvMakedirs (output_dir_at w st)
         :: EvRun (demucs_command w model (output_dir_at w st) input_path)
                  timeout
         :: firstn k
              [EvGlob (primary_pattern (output_dir_at w st) model input_path)
                      false;
               EvGlob (fallback_pattern (output_dir_at w st)) true].
Proof.
  intros Hdir Hlen Hfile _.
  rewrite StartupFacts.output_dir_at_name in Hfile.
  destruct (StartupFacts.makedirs_under_temp_dir (files st)
              (output_name w st) Hdir (StartupFacts.output_name_plain w st)
              eq_refl eq_refl Hlen Hfile) as (m1 & Mk & D1 & _ & _).
  rewrite <- StartupFacts.output_dir_at_name in Mk, D1.
  exists m1.
  cut (exists k,
         trace (snd (remove_vocals_serverless w input_path (PStr model) st))
         = trace st
           ++ EvMakedirs (output_dir_at w st)
           :: EvRun (demucs_command w model (output_dir_at w st) input_path)
                    timeout
           :: firstn k
                [EvGlob (primary_pattern (output_dir_at w st) model
                           input_path) false;
                 EvGlob (fallback_pattern (output_dir_at w st)) true]).
  { intros (k & T). exists k. repeat split; assumption. }
  rewrite remove_vocals_serverless_eq. cbv zeta.
  rewrite Mk. cbn [model_as_str].
  destruct (Z.ltb _ _); [exists 0; cbn [snd firstn];
                         autorewrite with state; rewrite <- !app_assoc;
                         reflexivity|].
  destruct (negb _); [exists 0; cbn [snd firstn];
                      autorewrite with state; rewrite <- !app_assoc;
                      reflexivity|].
  destruct (glob w _ _ false) as [|p1 ps1].
  - destruct (glob w _ _ true) as [|p2 ps2];
      exists 2; cbn [snd firstn]; autorewrite with state;
      rewrite <- !app_assoc; reflexivity.
  - exists 1. cbn [snd firstn]. autorewrite with state.
    rewrite <- !app_assoc. reflexivity.
Qed.

Lemma separation_runs_the_tool_witness :
  FS.isdir (files (snd (Stub.decoded (Stub.world Stub.hanging)))) temp_dir
  = true
  /\ forallb (fun a => negb (FS.has_nul a))
       (demucs_command (Stub.world Stub.hanging) "htdemucs_ft"
          (output_dir_at (Stub.world Stub.hanging)
             (snd (Stub.decoded (Stub.world Stub.hanging))))
          Stub.test_input) = true
  /\ exists m1,
       FS.makedirs (files (snd (Stub.decoded (Stub.world Stub.hanging))))
         Stub.test_output_dir = Ok m1.
Proof.
  assert (H1 : FS.isdir (files (snd (Stub.decoded (Stub.world Stub.hanging))))
                 temp_dir = true) by (vm_compute; reflexivity).
  assert (H2 : forallb (fun a => negb (FS.has_nul a))
                 (demucs_command (Stub.world Stub.hanging) "htdemucs_ft"
                    (output_dir_at (Stub.world Stub.hanging)
                       (snd (Stub.decoded (Stub.world Stub.hanging))))
                    Stub.test_input) = true) by (vm_compute; reflexivity).
  split; [exact H1|]. split; [exact H2|].
  destruct (separation_runs_the_tool (Stub.world Stub.hanging)
              Stub.test_input "htdemucs_ft"
              (snd (Stub.decoded (Stub.world Stub.hanging))) H1)
    as (m1 & k & Mk & _).
  - vm_compute. lia.
  - vm_compute. reflexivity.
  - exact H2.
  - exists m1.
    replace Stub.test_output_dir
      with (output_dir_at (Stub.world Stub.hanging)
              (snd (Stub.decoded (Stub.world Stub.hanging))))
      by (vm_compute; reflexivity).
    exact Mk.
Defined.

(** X21: a job whose [filename] is not a string is decoded, separated and
    read like any other, and fails only when the name of the result is
    made: the response is a failure that names the type of the value. *)
Theorem filename_not_a_string_fails_late (w : env) (job : dict)
    (st st1 st2 : state) (audio filename method : pyval)
    (input_path output_path : string) (data : list byte) :
  get_params job = Ok (Params audio filename method) ->
  (forall s, filename <> PStr s) ->
  decode_audio_file w audio filename (tick st) = (Ok input_path, st1) ->
  remove_vocals_serverless w input_path method st1 = (Ok output_path, st2) ->
  FS.read_file (files st2) output_path = Ok data ->
  field (fst (handler w job st)) "success" = Some (RBool false)
  /\ field (fst (handler w job st)) "error"
     = Some (RStr ("expected str, bytes or os.PathLike object, not "
                   +:+ type_name filename))
  /\ trace (snd (handler w job st))
     = trace st2 ++ [EvRead output_path; EvRemove input_path].
Proof.
  intros G N D S R.
  destruct (decode_audio_file_ok _ _ _ _ _ _ D) as (Hp & _ & _ & _).
  unfold handler. rewrite G, D, process_eq, S. cbv zeta. rewrite R.
  destruct filename as [| | |s| |]; try (now destruct (N s));
    (split; [now rewrite on_exception_eq|];
     split; [now rewrite on_exception_eq|];
     rewrite on_exception_trace by (subst input_path; reflexivity);
     autorewrite with state; rewrite <- !app_assoc; reflexivity).
Qed.

Lemma filename_not_a_string_fails_late_witness :
  get_params (Stub.job_of [("audio_data", PStr "TWFu"); ("filename", PInt 7)])
  = Ok (Params (PStr "TWFu") (PInt 7) (PStr "htdemucs_ft"))
  /\ field (fst (handler (Stub.world (Stub.demucs [x01]))
                   (Stub.job_of [("audio_data", PStr "TWFu");
                                 ("filename", PInt 7)]) Stub.fresh)) "error"
     = Some (RStr "expected str, bytes or os.PathLike object, not int").
Proof.
  split; [vm_compute; reflexivity|].
  assert (D : fst (decode_audio_file (Stub.world (Stub.demucs [x01]))
                     (PStr "TWFu") (PInt 7) (tick Stub.fresh))
              = Ok "/tmp/vocal_removal/input_20240102_030406_7")
    by (vm_compute; reflexivity).
  assert (S : fst (remove_vocals_serverless (Stub.world (Stub.demucs [x01]))
                     "/tmp/vocal_removal/input_20240102_030406_7"
                     (PStr "htdemucs_ft")
                     (snd (decode_audio_file (Stub.world (Stub.demucs [x01]))
                             (PStr "TWFu") (PInt 7) (tick Stub.fresh))))
              = Ok (Stub.test_output_dir
                    +:+ "/htdemucs_ft/input_20240102_030406_7/no_vocals.mp3"))
    by (vm_compute; reflexivity).
  destruct (filename_not_a_string_fails_late (Stub.world (Stub.demucs [x01]))
              (Stub.job_of [("audio_data", PStr "TWFu"); ("filename", PInt 7)])
              Stub.fresh _ _ (PStr "TWFu") (PInt 7) (PStr "htdemucs_ft")
              _ _ [x01]
              eq_refl (fun s => ltac:(discriminate))
              (Claims.pair_of_fst _ _ D) (Claims.pair_of_fst _ _ S))
    as (_ & H & _).
  - vm_compute. reflexivity.
  - vm_compute in H. vm_compute. exact H.
Defined.

End Behaviour.
